(** * AgriMRV: biomass estimation, carbon credits and MRV packages

    A shallow embedding of the calculation and packaging pipeline of the
    AgriMRV API:

    - the biomass estimation service in [services/blockchainService.ts]
      ([estimateBiomass], [getMethodUncertainty], [estimatePlotBiomass]),
    - [services/carbonCreditService.ts]  ([calculateCredits]),
    - [services/mrvExport.ts]  ([exportMRVPackage]),
    - the MRV router  (the export and verify handlers),
    - [utils/hash.ts], [utils/storage.ts].

    JavaScript numbers are IEEE 754 binary64 values: they are modelled by
    Rocq's primitive floats, whose [+], [*], [/] and [sqrt] are the
    correctly rounded operations JavaScript uses. *)

From Stdlib Require Import ZArith Lia Bool List Ascii String.
From Stdlib Require Import Floats Uint63.
From stdpp Require Import base option list strings pretty gmap sorting.

Import ListNotations.
Local Open Scope string_scope.
Set Warnings "-inexact-float,-register-all".

(* ================================================================== *)
(** ** JavaScript numbers *)

Module JS.

Declare Scope js_scope.
Delimit Scope js_scope with js.

(** [x] is truthy: neither [0], [-0] nor [NaN]. *)
Definition truthy (x : float) : bool :=
  negb (PrimFloat.eqb x 0%float || PrimFloat.is_nan x).

(** [x || d] on numbers. *)
Definition or_default (x d : float) : float :=
  if truthy x then x else d.

(** The integer [z] as a number; exact for [|z| < 2^53], the only range
    in which it is used. *)
Definition of_Z (z : Z) : float :=
  match z with
  | Z0 => 0%float
  | Zpos _ => PrimFloat.of_uint63 (Uint63.of_Z z)
  | Zneg _ => PrimFloat.opp (PrimFloat.of_uint63 (Uint63.of_Z (- z)))
  end.

(** [Math.round]: the integral number closest to [x], ties towards
    [+Infinity]; [NaN], the infinities, the zeros and integral numbers are
    returned unchanged, and a result of zero keeps the sign of [x].
    The finite number [(-1)^s * m * 2^e] with [e < 0] is rounded exactly,
    as [floor (x + 1/2) = (2 * (+-m) + 2^(-e)) / 2^(1 - e)]. *)
Definition Math_round (x : float) : float :=
  match Prim2SF x with
  | S754_finite s m e =>
      if (0 <=? e)%Z then x
      else
        let d := (2 ^ (- e))%Z in
        let n := if s then Z.neg m else Z.pos m in
        let r := ((2 * n + d) / (2 * d))%Z in
        if (r =? 0)%Z then (if s then (-0)%float else 0%float) else of_Z r
  | _ => x
  end.

(** The integer part of a finite number (towards minus infinity for a
    negative one); 0 for [NaN] and the infinities. *)
Definition to_Z (x : float) : Z :=
  match Prim2SF x with
  | S754_finite s m e =>
      let n := if s then Z.neg m else Z.pos m in
      if (0 <=? e)%Z then (n * 2 ^ e)%Z else (n / 2 ^ (- e))%Z
  | _ => 0%Z
  end.

(** [Math.max] of two numbers. *)
Definition Math_max (x y : float) : float :=
  if PrimFloat.is_nan x || PrimFloat.is_nan y then PrimFloat.nan
  else if PrimFloat.ltb x y then y
  else if PrimFloat.ltb y x then x
  else if PrimFloat.get_sign x then y else x.

Definition Math_sqrt (x : float) : float := PrimFloat.sqrt x.

(** [Math.PI]. *)
Definition Math_PI : float := 3.141592653589793%float.

End JS.

(* ================================================================== *)
(** ** Carbon credit converter ([carbonCreditService.ts]) *)

Module CarbonCredit.

Local Open Scope float_scope.

Definition CARBON_FRACTION : float := 0.47.
Definition CO2_MOLECULAR_RATIO : float := 3.67.

Record Credits := {
  carbonStockKg : float;
  carbonStockTons : float;
  co2EquivalentKg : float;
  co2EquivalentTons : float;
  creditsGenerated : float
}.

Definition calculateCredits (biomassKg : float) : Credits :=
  let carbonStockKg := biomassKg * CARBON_FRACTION in
  let carbonStockTons := carbonStockKg / 1000 in
  let co2EquivalentKg := carbonStockKg * CO2_MOLECULAR_RATIO in
  let co2EquivalentTons := co2EquivalentKg / 1000 in
  let creditsGenerated := co2EquivalentTons in
  {| carbonStockKg := JS.Math_round (carbonStockKg * 100) / 100;
     carbonStockTons := JS.Math_round (carbonStockTons * 1000) / 1000;
     co2EquivalentKg := JS.Math_round (co2EquivalentKg * 100) / 100;
     co2EquivalentTons := JS.Math_round (co2EquivalentTons * 1000) / 1000;
     creditsGenerated := JS.Math_round (creditsGenerated * 1000) / 1000 |}.

End CarbonCredit.

(* ================================================================== *)
(** ** Results of fallible code *)

(** A JavaScript computation either returns a value or throws an [Error]
    carrying a message. *)
Inductive Result (A : Type) : Type :=
  | Ok (a : A)
  | Throw (message : string).
Arguments Ok {A} a.
Arguments Throw {A} message.

Definition is_ok {A} (r : Result A) : bool :=
  match r with Ok _ => true | Throw _ => false end.

(* ================================================================== *)
(** ** JavaScript strings *)

Module JSString.

(** [s.includes(key)]. *)
Fixpoint includes (s key : string) : bool :=
  String.prefix key s
  || match s with
     | EmptyString => false
     | String _ s' => includes s' key
     end.

Definition upper_char (c : ascii) : ascii :=
  let n := nat_of_ascii c in
  if (97 <=? n)%nat && (n <=? 122)%nat then ascii_of_nat (n - 32) else c.

(** [s.toUpperCase()], on the ASCII letters; a letter outside ASCII, which
    the engine maps as well, is left as it is. *)
Fixpoint toUpperCase (s : string) : string :=
  match s with
  | EmptyString => EmptyString
  | String c s' => String (upper_char c) (toUpperCase s')
  end.

(** A string is truthy when it is not empty. *)
Definition truthy (s : string) : bool :=
  match s with EmptyString => false | _ => true end.

End JSString.

(* ================================================================== *)
(** ** Biomass estimator ([BiomassEstimationService]) *)

Module SpeciesData.
(** A row of the [tree_species] reference table. *)
Record t := {
  id : Z;
  species_code : string;
  common_name : string;
  scientific_name : string;
  wood_density_kg_m3 : float;
  allometric_a : float;
  allometric_b : float;
  uncertainty_pct : float;
  equation_source : string
}.
End SpeciesData.

Module Biomass.

Local Open Scope float_scope.

(** An optional measurement is [None] when the property is missing
    ([undefined]) or the column is [null]. *)
Record TreeMeasurements := {
  height_meters : option float;
  dbh_cm : option float;
  canopy_cover_m2 : option float;
  species_code : option string
}.

Record BiomassEstimate := {
  biomass_estimate_kg : float;
  carbon_sequestration_kg : float;
  co2_equivalent_kg : float;
  uncertainty_pct : float;
  method : string;
  confidence_pct : float;
  species_data : option SpeciesData.t
}.

(** A row of the [trees] table, with the columns the estimator reads. *)
Record TreeRow := {
  tree_id : Z;
  tree_height_meters : option float;
  tree_dbh_cm : option float;
  tree_canopy_cover_m2 : option float;
  tree_species_code : option string
}.

(** The persistence collaborator: each query of the service is a function
    of its parameter, and may throw. *)
Record Pool := {
  (** [SELECT * FROM tree_species WHERE species_code = $1] *)
  select_tree_species : string -> Result (list SpeciesData.t);
  (** [SELECT * FROM trees WHERE plot_id = $1 ORDER BY id] *)
  select_trees : string -> Result (list TreeRow)
}.

(** Truthiness of an optional number, and the test [x > 0] on it
    (false on [undefined] and [null]). *)
Definition truthy (x : option float) : bool :=
  match x with Some v => JS.truthy v | None => false end.

Definition gt0 (x : option float) : bool :=
  match x with Some v => 0 <? v | None => false end.

(** The number held by an optional measurement.  Every branch of the
    estimator tests a measurement with [truthy] before it reads it, so the
    value chosen for [None] is never used. *)
Definition num (x : option float) : float :=
  match x with Some v => v | None => nan end.

Definition round2 (x : float) : float := JS.Math_round (x * 100) / 100.
Definition round1 (x : float) : float := JS.Math_round (x * 10) / 10.

(** The table of [getMethodUncertainty], in insertion order. *)
Definition uncertainties : list (string * float) :=
  [ ("allometric_species_", 15);
    ("allometric_generic", 20);
    ("allometric_crown_estimated", 25);
    ("height_only_estimation", 35);
    ("crown_area_estimation", 40) ]%string.

Definition getMethodUncertainty (method : string) : float :=
  match List.find (fun kv => JSString.includes method (fst kv)) uncertainties with
  | Some kv => snd kv
  | None => 30
  end.

(** The four estimation methods, and what the ladder of [estimateBiomass]
    selects from the measurements alone. *)
Inductive Method :=
  | FullAllometric
  | CrownEstimated
  | HeightOnly
  | CanopyOnly.

Section Estimator.

(** [Math.pow], which ECMAScript leaves implementation-approximated. *)
Variable Math_pow : float -> float -> float.
Variable pool : Pool.

Definition getSpeciesData (speciesCode : string) : option SpeciesData.t :=
  match select_tree_species pool (JSString.toUpperCase speciesCode) with
  | Ok rows => List.head rows
  | Throw _ => None
  end.

Definition estimateBiomass (measurements : TreeMeasurements)
  : Result BiomassEstimate :=
  let height_meters := height_meters measurements in
  let dbh_cm := dbh_cm measurements in
  let canopy_cover_m2 := canopy_cover_m2 measurements in
  let species_code := species_code measurements in
  let speciesData :=
    match species_code with
    | Some code => if JSString.truthy code then getSpeciesData code else None
    | None => None
    end in
  let woodDensity :=
    match speciesData with
    | Some sd => JS.or_default (SpeciesData.wood_density_kg_m3 sd) 0.6
    | None => 0.6
    end in
  let allometricA :=
    match speciesData with
    | Some sd => JS.or_default (SpeciesData.allometric_a sd) 0.0673
    | None => 0.0673
    end in
  let allometricB :=
    match speciesData with
    | Some sd => JS.or_default (SpeciesData.allometric_b sd) 0.976
    | None => 0.976
    end in
  let speciesUncertainty :=
    match speciesData with
    | Some sd => JS.or_default (SpeciesData.uncertainty_pct sd) 25.0
    | None => 25.0
    end in
  let branch : Result (float * string * float) :=
    if truthy dbh_cm && truthy height_meters && gt0 dbh_cm && gt0 height_meters then
      let dbhM := num dbh_cm / 100 in
      Ok (allometricA *
            Math_pow (woodDensity * Math_pow dbhM 2 * num height_meters) allometricB,
          match speciesData with
          | Some _ => ("allometric_species_" ++ default "" species_code)%string
          | None => "allometric_generic"%string
          end,
          match speciesData with
          | Some _ => 100 - speciesUncertainty
          | None => 75
          end)
    else if truthy height_meters && truthy canopy_cover_m2
            && gt0 height_meters && gt0 canopy_cover_m2 then
      let crownDiameter := JS.Math_sqrt (num canopy_cover_m2 / JS.Math_PI) * 2 in
      let estimatedDbhCm := crownDiameter * 80 in
      let estimatedDbhM := estimatedDbhCm / 100 in
      Ok (allometricA *
            Math_pow (woodDensity * Math_pow estimatedDbhM 2 * num height_meters)
                     allometricB,
          "allometric_crown_estimated"%string, 60)
    else if truthy height_meters && gt0 height_meters then
      Ok (Math_pow (num height_meters) 2.5 * woodDensity * 2.5,
          "height_only_estimation"%string, 40)
    else if truthy canopy_cover_m2 && gt0 canopy_cover_m2 then
      Ok (num canopy_cover_m2 * woodDensity * 15,
          "crown_area_estimation"%string, 35)
    else Throw "Insufficient measurements for biomass estimation" in
  match branch with
  | Throw e => Throw e
  | Ok (biomassKg, method, confidence) =>
      let biomassKg := JS.Math_max biomassKg 0.1 in
      let carbonFraction := 0.47 in
      let carbonKg := biomassKg * carbonFraction in
      let co2EquivalentKg := carbonKg * 3.67 in
      let baseUncertainty := getMethodUncertainty method in
      let finalUncertainty :=
        match speciesData with
        | Some _ =>
            JS.Math_sqrt (Math_pow baseUncertainty 2 + Math_pow speciesUncertainty 2)
        | None => baseUncertainty
        end in
      Ok {| biomass_estimate_kg := JS.Math_round (biomassKg * 100) / 100;
            carbon_sequestration_kg := JS.Math_round (carbonKg * 100) / 100;
            co2_equivalent_kg := JS.Math_round (co2EquivalentKg * 100) / 100;
            uncertainty_pct := JS.Math_round (finalUncertainty * 10) / 10;
            method := method;
            confidence_pct := confidence;
            species_data := speciesData |}
  end.

(** *** Plot aggregation *)

Record Totals := {
  total_trees : nat;
  total_biomass_kg : float;
  total_carbon_kg : float;
  total_co2_equivalent_kg : float;
  average_uncertainty_pct : float
}.

Record PlotEstimate := {
  trees : list (string * BiomassEstimate);
  totals : Totals
}.

(** The properties of the [totals] object literal, as returned. *)
Definition totals_props (t : Totals) : list (string * float) :=
  [ ("total_trees"%string, JS.of_Z (Z.of_nat (total_trees t)));
    ("total_biomass_kg"%string, total_biomass_kg t);
    ("total_carbon_kg"%string, total_carbon_kg t);
    ("total_co2_equivalent_kg"%string, total_co2_equivalent_kg t);
    ("average_uncertainty_pct"%string, average_uncertainty_pct t) ].

(** The accumulators of the loop of [estimatePlotBiomass]; the counter
    [estimatedTrees] holds a small integer. *)
Record Acc := {
  estimates : list (string * BiomassEstimate);
  totalBiomass : float;
  totalCarbon : float;
  totalCo2 : float;
  totalUncertainty : float;
  estimatedTrees : nat
}.

Definition Z_toString (z : Z) : string := pretty z.

(** One iteration: the [try] body on success, the [catch] (which only
    logs) on failure. *)
Definition step (acc : Acc) (tree : TreeRow) : Acc :=
  match estimateBiomass {| height_meters := tree_height_meters tree;
                           dbh_cm := tree_dbh_cm tree;
                           canopy_cover_m2 := tree_canopy_cover_m2 tree;
                           species_code := tree_species_code tree |} with
  | Ok estimate =>
      {| estimates := estimates acc ++ [(Z_toString (tree_id tree), estimate)];
         totalBiomass := totalBiomass acc + biomass_estimate_kg estimate;
         totalCarbon := totalCarbon acc + carbon_sequestration_kg estimate;
         totalCo2 := totalCo2 acc + co2_equivalent_kg estimate;
         totalUncertainty := totalUncertainty acc + uncertainty_pct estimate;
         estimatedTrees := S (estimatedTrees acc) |}
  | Throw _ => acc
  end.

Definition estimatePlotBiomass (plotId : string) : Result PlotEstimate :=
  match select_trees pool plotId with
  | Throw e => Throw e
  | Ok rows =>
      let acc :=
        List.fold_left step rows
          {| estimates := []; totalBiomass := 0; totalCarbon := 0;
             totalCo2 := 0; totalUncertainty := 0; estimatedTrees := 0 |} in
      let averageUncertainty :=
        if (0 <? estimatedTrees acc)%nat
        then totalUncertainty acc / JS.of_Z (Z.of_nat (estimatedTrees acc))
        else 0 in
      Ok {| trees := estimates acc;
            totals :=
              {| total_trees := estimatedTrees acc;
                 total_biomass_kg := JS.Math_round (totalBiomass acc * 100) / 100;
                 total_carbon_kg := JS.Math_round (totalCarbon acc * 100) / 100;
                 total_co2_equivalent_kg := JS.Math_round (totalCo2 acc * 100) / 100;
                 average_uncertainty_pct :=
                   JS.Math_round (averageUncertainty * 10) / 10 |} |}
  end.

End Estimator.

End Biomass.

(* ================================================================== *)
(** ** Paths, the file system and JSON values *)

Module Path.

Definition is_slash (c : ascii) : bool := Ascii.eqb c "/"%char.

Fixpoint has_slash (s : string) : bool :=
  match s with
  | EmptyString => false
  | String c s' => is_slash c || has_slash s'
  end.

(** [path.join(a, b)] and [path.resolve(a, b)] on an absolute [a] and a
    relative [b]; segments are taken literally (no [.] or [..]). *)
Definition join (a b : string) : string := a ++ "/" ++ b.

(** [path.dirname]: the path without its last segment. *)
Fixpoint dirname (s : string) : string :=
  match s with
  | EmptyString => EmptyString
  | String c s' => if has_slash s' then String c (dirname s') else EmptyString
  end.

(** The proper ancestors of a path: its non-empty prefixes that end just
    before a [/], shortest first.  [pre] is the part already read. *)
Fixpoint ancestors_from (pre s : string) : list string :=
  match s with
  | EmptyString => []
  | String c s' =>
      (if is_slash c && JSString.truthy pre then [pre] else [])
        ++ ancestors_from (pre ++ String c EmptyString) s'
  end.

Definition ancestors (p : string) : list string := ancestors_from "" p.

Definition is_absolute (p : string) : bool := String.prefix "/" p.

End Path.

Module FS.

(** Regular files with their contents, and directories, by absolute
    path. *)
Record t := {
  files : gmap string string;
  dirs : gset string
}.

Definition is_file (fs : t) (p : string) : bool :=
  bool_decide (is_Some (files fs !! p)).

Definition is_dir (fs : t) (p : string) : bool :=
  bool_decide (p ∈ dirs fs).

Definition existsSync (fs : t) (p : string) : bool :=
  is_file fs p || is_dir fs p.

(** [fs.mkdirSync(p, { recursive: true })]: creates [p] and its missing
    ancestors; fails when one of them is a regular file.  The text of the
    error is the one for [p] itself; for an ancestor Node reports
    [ENOTDIR]. *)
Definition mkdirSync (fs : t) (p : string) : Result t :=
  let targets := (Path.ancestors p ++ [p])%list in
  if List.existsb (is_file fs) targets
  then Throw ("EEXIST: file already exists, mkdir '" ++ p ++ "'")
  else Ok {| files := files fs; dirs := dirs fs ∪ list_to_set targets |}.

(** [fs.writeFileSync(p, data)]. *)
Definition writeFileSync (fs : t) (p data : string) : Result t :=
  if is_dir fs p
  then Throw ("EISDIR: illegal operation on a directory, open '" ++ p ++ "'")
  else if negb (is_dir fs (Path.dirname p))
  then Throw ("ENOENT: no such file or directory, open '" ++ p ++ "'")
  else Ok {| files := <[ p := data ]> (files fs); dirs := dirs fs |}.

(** [fs.readFileSync(p)]. *)
Definition readFileSync (fs : t) (p : string) : Result string :=
  match files fs !! p with
  | Some data => Ok data
  | None =>
      if is_dir fs p
      then Throw "EISDIR: illegal operation on a directory, read"
      else Throw ("ENOENT: no such file or directory, open '" ++ p ++ "'")
  end.

End FS.

(** JSON values; an object lists its properties in insertion order. *)
Inductive json :=
  | JNull
  | JBool (b : bool)
  | JNumber (x : float)
  | JString (s : string)
  | JArray (items : list json)
  | JObject (props : list (string * json)).

Module Obj.

(** [o[k] = v] on the properties of an object. *)
Fixpoint set {V} (o : list (string * V)) (k : string) (v : V) : list (string * V) :=
  match o with
  | [] => [(k, v)]
  | (k', v') :: o' => if String.eqb k' k then (k, v) :: o' else (k', v') :: set o' k v
  end.

(** [o[k]], [None] for [undefined]. *)
Fixpoint get {V} (o : list (string * V)) (k : string) : option V :=
  match o with
  | [] => None
  | (k', v) :: o' => if String.eqb k' k then Some v else get o' k
  end.

Definition indices (n : nat) : list string :=
  List.map (fun i : nat => pretty i) (seq 0 n).

(** [Object.keys(v)]; [None] stands for [undefined]. *)
Definition keys (v : option json) : Result (list string) :=
  match v with
  | None | Some JNull => Throw "Cannot convert undefined or null to object"
  | Some (JObject props) => Ok (List.map fst props)
  | Some (JArray items) => Ok (indices (List.length items))
  | Some (JString s) => Ok (indices (String.length s))
  | Some (JBool _) | Some (JNumber _) => Ok []
  end.

(** [v.name] on a parsed JSON value. *)
Definition prop (v : json) (name : string) : Result (option json) :=
  match v with
  | JNull => Throw ("Cannot read properties of null (reading '" ++ name ++ "')")
  | JObject props => Ok (get props name)
  | _ => Ok None
  end.

End Obj.

(** [keys.sort()]: the default order of [Array.prototype.sort] on strings,
    by code units. *)
Definition sort (l : list string) : list string := merge_sort String.le l.

(** [parts.join(sep)]. *)
Definition join (sep : string) (parts : list string) : string :=
  String.concat sep parts.

(* ================================================================== *)
(** ** MRV packages ([mrvExport.ts], the MRV routes, [hash.ts],
       [storage.ts], the ledger service) *)

Module MRV.

Local Open Scope float_scope.

(** *** Rows of the persistence collaborator *)

Record PlotRow := {
  plot_id : string;
  plot_name : string;
  plot_agroEcozone : option string;
  plot_boundaryGeojson : json
}.

(** A row of the join of ["Tree"], ["CarbonEstimate"] and ["Species"]. *)
Record TreeJoinRow := {
  t_id : string;
  t_speciesCode : option string;
  t_commonName : option string;
  t_heightM : option float;
  t_dbhCm : option float;
  t_crownAreaM2 : option float;
  t_health : option string;
  t_agbKg : option float;
  t_carbonKg : option float;
  t_uncPct : option float;
  t_method : option string;
  t_modelVer : option string
}.

Record RunRow := { run_id : string }.

Record MRVPackageRow := {
  pkg_id : string;
  pkg_runId : string;
  pkg_schemaVersion : string;
  pkg_artifactsUri : string;
  pkg_checksum : string;
  pkg_ledgerTxId : option string
}.

(** The read queries are functions of their parameter and may throw; the
    ["MRVPackage"] table is explicit.  [default_id] is the id the database
    gives the next inserted row (the statement supplies none), or the
    error it raises.  [update_status] tells, for the parameters of the
    [UPDATE] of a package row, whether the database carries the statement
    out or the error it raises. *)
Record Database := {
  select_plot : string -> Result (list PlotRow);
  select_trees : string -> Result (list TreeJoinRow);
  select_latest_run : string -> Result (list RunRow);
  MRVPackage : list MRVPackageRow;
  default_id : list MRVPackageRow -> Result string;
  update_status : string -> string -> Result unit
}.

Definition with_packages (db : Database) (rows : list MRVPackageRow) : Database :=
  {| select_plot := select_plot db;
     select_trees := select_trees db;
     select_latest_run := select_latest_run db;
     MRVPackage := rows;
     default_id := default_id db;
     update_status := update_status db |}.

(** [SELECT * FROM "MRVPackage" WHERE id = $1]. *)
Definition select_package (db : Database) (id : string) : list MRVPackageRow :=
  List.filter (fun r => String.eqb (pkg_id r) id) (MRVPackage db).

(** [INSERT INTO "MRVPackage" (...) VALUES (...) RETURNING *]; the primary
    key rejects an id already in the table (the other constraints of the
    table are left out). *)
Definition insert_package (db : Database)
    (runId schemaVersion artifactsUri checksum : string)
  : Result (MRVPackageRow * Database) :=
  match default_id db (MRVPackage db) with
  | Throw e => Throw e
  | Ok id =>
      if List.existsb (fun r => String.eqb (pkg_id r) id) (MRVPackage db)
      then Throw "duplicate key value violates unique constraint MRVPackage_pkey"
      else
        let row := {| pkg_id := id; pkg_runId := runId;
                      pkg_schemaVersion := schemaVersion;
                      pkg_artifactsUri := artifactsUri;
                      pkg_checksum := checksum;
                      pkg_ledgerTxId := None |} in
        Ok (row, with_packages db (MRVPackage db ++ [row])%list)
  end.

(** The table after [UPDATE "MRVPackage" SET "ledgerTxId" = $1 WHERE id = $2]
    was carried out. *)
Definition update_ledgerTxId (db : Database) (txId id : string) : Database :=
  with_packages db
    (List.map (fun r =>
                 if String.eqb (pkg_id r) id
                 then {| pkg_id := pkg_id r; pkg_runId := pkg_runId r;
                         pkg_schemaVersion := pkg_schemaVersion r;
                         pkg_artifactsUri := pkg_artifactsUri r;
                         pkg_checksum := pkg_checksum r;
                         pkg_ledgerTxId := Some txId |}
                 else r)
              (MRVPackage db)).

(** *** The world a request runs in, and computations over it *)

Record World := { fs : FS.t; db : Database }.

(** A computation returns or throws, and leaves a world behind either
    way: what was written before a [throw] stays written. *)
Definition M (A : Type) : Type := World -> Result A * World.

#[global] Instance M_ret : MRet M := fun A a w => (Ok a, w).
#[global] Instance M_bind : MBind M := fun A B k m w =>
  match m w with
  | (Ok a, w') => k a w'
  | (Throw e, w') => (Throw e, w')
  end.

Definition throw {A} (e : string) : M A := fun w => (Throw e, w).

(** Runs a computation that does not change the world. *)
Definition pure_of {A} (f : World -> Result A) : M A := fun w => (f w, w).

(** [try { m } catch (error) { throw new Error(h(error.message)) }]. *)
Definition rethrow {A} (h : string -> string) (m : M A) : M A := fun w =>
  match m w with
  | (Ok a, w') => (Ok a, w')
  | (Throw e, w') => (Throw (h e), w')
  end.

(** Lifts an operation of the file system. *)
Definition on_fs (f : FS.t -> Result FS.t) : M unit := fun w =>
  match f (fs w) with
  | Ok fs' => (Ok tt, {| fs := fs'; db := db w |})
  | Throw e => (Throw e, w)
  end.

Definition remove_chars (drop : ascii -> bool) : string -> string :=
  fix go (s : string) : string :=
    match s with
    | EmptyString => EmptyString
    | String c s' => if drop c then go s' else String c (go s')
    end.

Fixpoint skip (n : nat) (s : string) : string :=
  match n, s with
  | O, _ => s
  | S n', EmptyString => EmptyString
  | S n', String _ s' => skip n' s'
  end.

(** [s.replace(pat, rep)] with a string pattern: the first occurrence. *)
Fixpoint replace (s pat rep : string) : string :=
  if String.prefix pat s then (rep ++ skip (String.length pat) s)%string
  else match s with
       | EmptyString => EmptyString
       | String c s' => String c (replace s' pat rep)
       end.

(** [x || d] on an optional string. *)
Definition str_or (x : option string) (d : string) : string :=
  match x with
  | Some s => if JSString.truthy s then s else d
  | None => d
  end.

Definition jstr (x : option string) : json :=
  match x with Some s => JString s | None => JNull end.

Definition jnum (x : option float) : json :=
  match x with Some v => JNumber v | None => JNull end.

(** The instants read by the three [new Date()] of an export, as ISO
    strings. *)
Record Clock := {
  at_folder : string;
  at_manifest : string;
  at_report : string
}.

Section Service.

(** [crypto.createHash('sha256').update(data).digest('hex')]. *)
Variable sha256 : string -> string.
(** [JSON.stringify(value, null, 2)] and [JSON.parse]. *)
Variable JSON_stringify : json -> string.
Variable JSON_parse : string -> Result json.
(** [x.toFixed(3)]. *)
Variable toFixed3 : float -> string.
(** [process.cwd()], [process.env.CODE_COMMIT], [process.env.NODE_ENV]. *)
Variable cwd : string.
Variable CODE_COMMIT NODE_ENV : option string.

(** How the file system reads a path: relative ones from [cwd]. *)
Definition resolve (p : string) : string :=
  if Path.is_absolute p then p else Path.join cwd p.

(** **** [utils/hash.ts] *)

Definition sha256OfString (s : string) : string := sha256 s.

Definition sha256OfFile (fs : FS.t) (path : string) : Result string :=
  let attempt :=
    if negb (FS.existsSync fs (resolve path))
    then Throw ("File not found: " ++ path)%string
    else match FS.readFileSync fs (resolve path) with
         | Ok buf => Ok (sha256 buf)
         | Throw e => Throw e
         end in
  match attempt with
  | Ok h => Ok h
  | Throw e => Throw ("Failed to hash file " ++ path ++ ": " ++ e)%string
  end.

(** **** [utils/storage.ts] *)

Definition BASE : string := Path.join cwd "storage".

Definition ensureStorage : M unit := fun w =>
  if negb (FS.existsSync (fs w) BASE)
  then on_fs (fun fs => FS.mkdirSync fs BASE) w
  else (Ok tt, w).

Definition writeFileRel (relPath data : string) : M string :=
  _ ← ensureStorage;
  let full := Path.join BASE relPath in
  _ ← on_fs (fun fs => FS.mkdirSync fs (Path.dirname full));
  _ ← on_fs (fun fs => FS.writeFileSync fs full data);
  mret ("file://" ++ full)%string.

(** **** [services/mrvExport.ts] *)

Definition query {A} (q : Database -> Result A) : M A :=
  fun w => (q (db w), w).

Definition hash_file (path : string) : M string :=
  fun w => (sha256OfFile (fs w) path, w).

Definition insert (runId schemaVersion artifactsUri checksum : string)
  : M MRVPackageRow := fun w =>
  match insert_package (db w) runId schemaVersion artifactsUri checksum with
  | Ok (row, db') => (Ok row, {| fs := fs w; db := db' |})
  | Throw e => (Throw e, w)
  end.

Definition nl : string := String (ascii_of_nat 10) EmptyString.

Definition sum_kg (f : TreeJoinRow -> option float) (trees : list TreeJoinRow) : float :=
  List.fold_left (fun a b => a + default 0 (f b)) trees 0.

Definition count (n : nat) : float := JS.of_Z (Z.of_nat n).

Definition inputs_doc (plot : PlotRow) (trees : list TreeJoinRow) : json :=
  JObject
    [ ("plot"%string,
       JObject [ ("id"%string, JString (plot_id plot));
                 ("name"%string, JString (plot_name plot));
                 ("agroEcozone"%string, jstr (plot_agroEcozone plot));
                 ("boundaryGeojson"%string, plot_boundaryGeojson plot) ]);
      ("trees"%string,
       JArray (List.map (fun t =>
         JObject [ ("id"%string, JString (t_id t));
                   ("speciesCode"%string, jstr (t_speciesCode t));
                   ("speciesName"%string, jstr (t_commonName t));
                   ("heightM"%string, jnum (t_heightM t));
                   ("dbhCm"%string, jnum (t_dbhCm t));
                   ("crownAreaM2"%string, jnum (t_crownAreaM2 t));
                   ("health"%string, jstr (t_health t)) ]) trees)) ].

Definition totals_doc (totalTrees : nat) (plotAGBTons plotCarbonTons : float) : json :=
  JObject [ ("totalTrees"%string, JNumber (count totalTrees));
            ("plotAGBTons"%string, JNumber plotAGBTons);
            ("plotCarbonTons"%string, JNumber plotCarbonTons) ].

Definition outputs_doc (trees : list TreeJoinRow) (totals : json) : json :=
  JObject
    [ ("perTree"%string,
       JArray (List.map (fun t =>
         JObject [ ("id"%string, JString (t_id t));
                   ("agbKg"%string, jnum (t_agbKg t));
                   ("carbonKg"%string, jnum (t_carbonKg t));
                   ("uncPct"%string, jnum (t_uncPct t));
                   ("method"%string, jstr (t_method t));
                   ("modelVer"%string, jstr (t_modelVer t)) ]) trees));
      ("totals"%string, totals) ].

Definition manifest_doc (generatedAt : string) (plot : PlotRow) : json :=
  JObject
    [ ("schemaVersion"%string, JString "1.0");
      ("generatedAt"%string, JString generatedAt);
      ("plotId"%string, JString (plot_id plot));
      ("method"%string,
       JObject [ ("name"%string, JString "Agroforestry Carbon Stock Estimator");
                 ("modelVersion"%string, JString "v0.1");
                 ("codeCommit"%string, JString (str_or CODE_COMMIT "unknown"));
                 ("parameters"%string,
                  JObject [ ("carbonFraction"%string, JNumber 0.47);
                            ("defaultWoodDensity"%string, JNumber 0.60) ]) ]);
      ("uncertainty"%string,
       JObject [ ("approach"%string, JString "fixed-uncertainty MVP");
                 ("valuePct"%string, JNumber 0.20) ]);
      ("provenance"%string,
       JObject [ ("app"%string, JString "agro-mrv");
                 ("env"%string, JString (str_or NODE_ENV "development")) ]) ].

Definition summary_md (plot : PlotRow) (totalTrees : nat)
    (plotAGBTons plotCarbonTons : float) (generated : string) : string :=
  ("# MRV Summary" ++ nl
   ++ "- Plot: " ++ plot_name plot ++ " (" ++ plot_id plot ++ ")" ++ nl
   ++ "- Trees: " ++ pretty totalTrees ++ nl
   ++ "- AGB: " ++ toFixed3 plotAGBTons ++ " t" ++ nl
   ++ "- Carbon: " ++ toFixed3 plotCarbonTons ++ " t C" ++ nl
   ++ "- Generated: " ++ generated ++ nl)%string.

(** The document written to [checksums.json]. *)
Definition checksums_doc (files : list (string * string)) : json :=
  JObject [ ("files"%string,
             JObject (List.map (fun kv => (fst kv, JString (snd kv))) files)) ].

(** The top-level hash: the digests in the order of the sorted keys, joined
    by a bar, hashed. *)
Definition top_hash (files : list (string * string)) : string :=
  let concat :=
    join "|" (List.map (fun k => default EmptyString (Obj.get files k))
                       (sort (List.map fst files))) in
  sha256OfString concat.

Record Exported := {
  pkgId : string;
  topHash : string;
  artifactsUri : string;
  relBase : string
}.

Definition is_punct (c : ascii) : bool :=
  Ascii.eqb c ":"%char || Ascii.eqb c "."%char || Ascii.eqb c "-"%char.

Definition exportMRVPackage (clock : Clock) (plotId : string) : M Exported :=
  _ ← ensureStorage;
  plotRows ← query (fun db => select_plot db plotId);
  match plotRows with
  | [] => throw "Plot not found"
  | plot :: _ =>
      trees ← query (fun db => select_trees db plotId);
      let totalTrees := List.length trees in
      let plotAGBTons := sum_kg t_agbKg trees / 1000 in
      let plotCarbonTons := sum_kg t_carbonKg trees / 1000 in
      let totals := totals_doc totalTrees plotAGBTons plotCarbonTons in
      let timestamp :=
        (String.substring 0 15 (remove_chars is_punct (at_folder clock)) ++ "Z")%string in
      let folder := ("mrv_pkg_" ++ plotId ++ "_" ++ timestamp)%string in
      let relBase := Path.join "packages" folder in
      let inputs := inputs_doc plot trees in
      let outputs := outputs_doc trees totals in
      let manifest := manifest_doc (at_manifest clock) plot in
      let summary :=
        summary_md plot totalTrees plotAGBTons plotCarbonTons (at_report clock) in
      let pInputs := Path.join (Path.join relBase "inputs") "trees.json" in
      let pOutputs := Path.join (Path.join relBase "outputs") "estimates.json" in
      let pManifest := Path.join relBase "manifest.json" in
      let pReport := Path.join (Path.join relBase "reports") "summary.md" in
      _ ← writeFileRel pInputs (JSON_stringify inputs);
      _ ← writeFileRel pOutputs (JSON_stringify outputs);
      _ ← writeFileRel pManifest (JSON_stringify manifest);
      _ ← writeFileRel pReport summary;
      files ← rethrow (fun e => ("Failed to generate checksums: " ++ e)%string)
                (h1 ← hash_file ("storage/" ++ pInputs)%string;
                 h2 ← hash_file ("storage/" ++ pOutputs)%string;
                 h3 ← hash_file ("storage/" ++ pManifest)%string;
                 h4 ← hash_file ("storage/" ++ pReport)%string;
                 mret (Obj.set (Obj.set (Obj.set (Obj.set [] pInputs h1)
                                                 pOutputs h2) pManifest h3) pReport h4));
      let pChecks := Path.join relBase "checksums.json" in
      _ ← writeFileRel pChecks (JSON_stringify (checksums_doc files));
      let topHash := top_hash files in
      runRows ← query (fun db => select_latest_run db plotId);
      let runId :=
        match runRows with
        | run :: _ => run_id run
        | [] => plot_id plot
        end in
      pkg ← insert runId "1.0"
              ("file://" ++ Path.join (Path.join cwd "storage") relBase)%string topHash;
      mret {| pkgId := pkg_id pkg; topHash := topHash;
              artifactsUri := pkg_artifactsUri pkg; relBase := relBase |}
  end.

(** **** The ledger service *)

(** [anchorHash]; [now] is [Date.now()] printed.  An error of the
    [UPDATE] is thrown on, with the table as it was. *)
Definition anchorHash (now : string) (pkgId hashHex : string) : M string :=
  let txId := ("sim-" ++ now ++ "-" ++ String.substring 0 10 hashHex)%string in
  fun w =>
    match update_status (db w) txId pkgId with
    | Throw e => (Throw e, w)
    | Ok _ =>
        (Ok txId, {| fs := fs w; db := update_ledgerTxId (db w) txId pkgId |})
    end.

(** **** The MRV routes *)

Inductive Body :=
  | ErrorBody (error : string)
  | ExportBody (pkgId hash artifactsUri ledgerTxId : string)
  | VerifyBody (pkgId storedChecksum recomputedChecksum : string)
               (matches : bool) (ledgerTxId : option string).

Record Response := { status : nat; body : Body }.

(** [error.message || fallback]. *)
Definition message_or (e fallback : string) : string :=
  if JSString.truthy e then e else fallback.

(** [POST /plots/:plotId/mrv/export]. *)
Definition post_export (clock : Clock) (now : string) (plotId : string)
  : World -> Response * World := fun w =>
  match (r ← exportMRVPackage clock plotId;
         txId ← anchorHash now (pkgId r) (topHash r);
         mret (r, txId)) w with
  | (Ok (r, txId), w') =>
      ({| status := 200;
          body := ExportBody (pkgId r) (topHash r) (artifactsUri r) txId |}, w')
  | (Throw e, w') =>
      ({| status := 500;
          body := ErrorBody (message_or e "Failed to export MRV package") |}, w')
  end.

Fixpoint map_result {A B} (f : A -> Result B) (l : list A) : Result (list B) :=
  match l with
  | [] => Ok []
  | a :: l' =>
      match f a with
      | Throw e => Throw e
      | Ok b =>
          match map_result f l' with
          | Throw e => Throw e
          | Ok bs => Ok (b :: bs)
          end
      end
  end.

(** The sorted file keys the verify handler reads from the text of
    [checksums.json]: [Object.keys(JSON.parse(text).files).sort()]. *)
Definition checksum_keys (text : string) : Result (list string) :=
  match JSON_parse text with
  | Throw e => Throw e
  | Ok checksums =>
      match Obj.prop checksums "files" with
      | Throw e => Throw e
      | Ok files =>
          match Obj.keys files with
          | Throw e => Throw e
          | Ok keys => Ok (sort keys)
          end
      end
  end.

(** The recomputation of the top-level hash by the verify handler. *)
Definition recompute (fs : FS.t) (text : string) : Result string :=
  match checksum_keys text with
  | Throw e => Throw e
  | Ok fileKeys =>
      match map_result
              (fun k => sha256OfFile fs (Path.join (Path.join cwd "storage") k))
              fileKeys with
      | Throw e => Throw e
      | Ok digests => Ok (sha256OfString (join "|" digests))
      end
  end.

(** [GET /mrv/:pkgId/verify]. *)
Definition get_verify (pkgId : string) (w : World) : Response :=
  match select_package (db w) pkgId with
  | [] => {| status := 404; body := ErrorBody "Package not found" |}
  | pkg :: _ =>
      let folder := replace (pkg_artifactsUri pkg) "file://" "" in
      if negb (FS.existsSync (fs w) (resolve folder))
      then {| status := 404; body := ErrorBody "Package files not found" |}
      else
        let checksumPath := Path.join folder "checksums.json" in
        if negb (FS.existsSync (fs w) (resolve checksumPath))
        then {| status := 404; body := ErrorBody "Checksums file not found" |}
        else
          match
            match FS.readFileSync (fs w) (resolve checksumPath) with
            | Throw e => Throw e
            | Ok text => recompute (fs w) text
            end
          with
          | Ok recomputed =>
              {| status := 200;
                 body := VerifyBody pkgId (pkg_checksum pkg) recomputed
                                    (String.eqb (pkg_checksum pkg) recomputed)
                                    (pkg_ledgerTxId pkg) |}
          | Throw e =>
              {| status := 500;
                 body := ErrorBody (message_or e "Failed to verify MRV package") |}
          end
  end.

End Service.

End MRV.

(* ================================================================== *)
(** ** Carbon credit pricing ([carbonCreditService.ts]) *)

Module CarbonPricing.

Import CarbonCredit.
Local Open Scope float_scope.

(** A row of [carbon_market_prices], as the interface [MarketPrice]
    declares it. *)
Record MarketPrice := {
  price_id : Z;
  price_usd : float;
  price_inr : float;
  market_name : string;
  date : string;
  source : string
}.

Record CarbonCreditResult := {
  biomass_kg : float;
  carbon_stock_kg : float;
  carbon_stock_tons : float;
  co2_equivalent_kg : float;
  co2_equivalent_tons : float;
  credits_generated : float;
  market_price_usd : float;
  market_price_inr : float;
  estimated_value_usd : float;
  estimated_value_inr : float;
  calculation_date : string;
  methodology : string
}.

Section Service.

(** The outcome of the query for the latest row of
    [carbon_market_prices]. *)
Variable select_latest_price : Result (list MarketPrice).

(** [getLatestMarketPrice]: the first row or [null]; an error of the query
    is logged and gives [null] too. *)
Definition getLatestMarketPrice : option MarketPrice :=
  match select_latest_price with
  | Ok rows => List.head rows
  | Throw _ => None
  end.

(** [calculateCarbonCreditsWithPricing]; [now] is
    [new Date().toISOString()]. *)
Definition calculateCarbonCreditsWithPricing (now : string) (biomassKg : float)
  : CarbonCreditResult :=
  let credits := calculateCredits biomassKg in
  let marketPrice := getLatestMarketPrice in
  let priceUSD :=
    match marketPrice with
    | Some p => JS.or_default (price_usd p) 8.50
    | None => 8.50
    end in
  let priceINR :=
    match marketPrice with
    | Some p => JS.or_default (price_inr p) 700
    | None => 700
    end in
  let estimatedValueUSD :=
    JS.Math_round (creditsGenerated credits * priceUSD * 100) / 100 in
  let estimatedValueINR :=
    JS.Math_round (creditsGenerated credits * priceINR * 100) / 100 in
  {| biomass_kg := biomassKg;
     carbon_stock_kg := carbonStockKg credits;
     carbon_stock_tons := carbonStockTons credits;
     co2_equivalent_kg := co2EquivalentKg credits;
     co2_equivalent_tons := co2EquivalentTons credits;
     credits_generated := creditsGenerated credits;
     market_price_usd := priceUSD;
     market_price_inr := priceINR;
     estimated_value_usd := estimatedValueUSD;
     estimated_value_inr := estimatedValueINR;
     calculation_date := now;
     methodology := "IPCC 2006 Guidelines + Voluntary Carbon Market Standards" |}.

End Service.

End CarbonPricing.

(* ================================================================== *)
(** ** The CSV writer of the export builder ([toCsv]) *)

Module Csv.

(** The values a row holds. *)
Inductive value :=
  | VNull
  | VUndefined
  | VString (s : string)
  | VNumber (x : float)
  | VBool (b : bool).

Definition dquote : ascii := ascii_of_nat 34.
Definition linefeed : ascii := ascii_of_nat 10.
Definition newline : string := String linefeed EmptyString.

(** A double quote, a comma or a line feed. *)
Definition special (c : ascii) : bool :=
  Ascii.eqb c dquote || Ascii.eqb c "," || Ascii.eqb c linefeed.

(** The test of the regular expression that looks for a special character
    in [s]. *)
Fixpoint needs_quotes (s : string) : bool :=
  match s with
  | EmptyString => false
  | String c s' => special c || needs_quotes s'
  end.

(** Every double quote of [s] doubled. *)
Fixpoint double_quotes (s : string) : string :=
  match s with
  | EmptyString => EmptyString
  | String c s' =>
      if Ascii.eqb c dquote then String dquote (String dquote (double_quotes s'))
      else String c (double_quotes s')
  end.

Section ToCsv.

(** [String(x)] on a number. *)
Variable Number_toString : float -> string.

(** [String(v)]. *)
Definition String_of (v : value) : string :=
  match v with
  | VNull => "null"
  | VUndefined => "undefined"
  | VString s => s
  | VNumber x => Number_toString x
  | VBool b => if b then "true" else "false"
  end.

(** One cell; [r[c]] is [None] when the row has no property [c]. *)
Definition cell (v : option value) : string :=
  match v with
  | None | Some VNull | Some VUndefined => EmptyString
  | Some v =>
      let s := String_of v in
      if needs_quotes s
      then String dquote (double_quotes s ++ String dquote EmptyString)
      else s
  end.

Definition line (cols : list string) (r : list (string * value)) : string :=
  join "," (List.map (fun c => cell (Obj.get r c)) cols).

(** [toCsv]; a row is an object whose keys are no array indices (as the
    keys of the export rows), listed in insertion order. *)
Definition toCsv (rows : list (list (string * value))) : string :=
  match rows with
  | [] => EmptyString
  | first :: _ =>
      let cols := List.map fst first in
      let head := join "," cols ++ newline in
      let body := join newline (List.map (line cols) rows) in
      head ++ body ++ newline
  end.

End ToCsv.

End Csv.


(* ================================================================== *)
(** * The statements of the specification *)

(** The definitions below follow the words of the specification; the
    theorems compare them with the code above. *)

(** [x] rounded to [digits] decimal places. *)
Definition round_dp (digits : nat) (x : float) : float :=
  (JS.Math_round (x * JS.of_Z (10 ^ Z.of_nat digits))
   / JS.of_Z (10 ^ Z.of_nat digits))%float.

(** ** Binary64 numbers as mantissa and exponent *)

Module Binary64.

Local Open Scope Z_scope.

(** The number of binary digits of a mantissa. *)
Definition digits (m : positive) : Z := Zpos (digits2_pos m).

(** The value [m * 2^e], scaled by [2^2200] so that it is an integer for
    every exponent an operation on binary64 numbers can meet. *)
Definition val (m e : Z) : Z := m * 2 ^ (e + 2200).

(** [m * 2^e] is the representation of a binary64 number: 53 digits of
    mantissa, or fewer at the least exponent -1074. *)
Definition canonical (m : positive) (e : Z) : Prop :=
  e = Z.max (digits m + e - 53) (-1074).

End Binary64.

Module BiomassSpec.

Import Biomass.
Local Open Scope float_scope.

(** The priority ladder: the first method whose measurements are present
    and positive. *)
Definition ladder (m : TreeMeasurements) : option Method :=
  if gt0 (dbh_cm m) && gt0 (height_meters m) then Some FullAllometric
  else if gt0 (height_meters m) && gt0 (canopy_cover_m2 m) then Some CrownEstimated
  else if gt0 (height_meters m) then Some HeightOnly
  else if gt0 (canopy_cover_m2 m) then Some CanopyOnly
  else None.

Definition insufficient : string :=
  "Insufficient measurements for biomass estimation".

(** The label of a method; the full allometric one names the species code
    when species data resolved. *)
Definition method_label (k : Method) (resolved : bool) (code : string) : string :=
  match k with
  | FullAllometric =>
      if resolved then ("allometric_species_" ++ code)%string
      else "allometric_generic"%string
  | CrownEstimated => "allometric_crown_estimated"%string
  | HeightOnly => "height_only_estimation"%string
  | CanopyOnly => "crown_area_estimation"%string
  end.

(** The base uncertainty of a method. *)
Definition base_uncertainty (k : Method) (resolved : bool) : float :=
  match k with
  | FullAllometric => if resolved then 15 else 20
  | CrownEstimated => 25
  | HeightOnly => 35
  | CanopyOnly => 40
  end.

(** The fixed confidence of a method; the full allometric one depends on
    the species. *)
Definition confidence (k : Method) (sd : option SpeciesData.t) (su : float) : float :=
  match k with
  | FullAllometric => match sd with Some _ => 100 - su | None => 75 end
  | CrownEstimated => 60
  | HeightOnly => 40
  | CanopyOnly => 35
  end.

(** The species row a measurement resolves to, if any. *)
Definition resolved_species (pool : Pool) (m : TreeMeasurements)
  : option SpeciesData.t :=
  match species_code m with
  | Some code => if JSString.truthy code then getSpeciesData pool code else None
  | None => None
  end.

(** Species parameters, with the defaults that stand in for a missing row
    (or a missing value in the row). *)
Definition rho (sd : option SpeciesData.t) : float :=
  match sd with
  | Some r => JS.or_default (SpeciesData.wood_density_kg_m3 r) 0.6
  | None => 0.6
  end.

Definition coef_a (sd : option SpeciesData.t) : float :=
  match sd with
  | Some r => JS.or_default (SpeciesData.allometric_a r) 0.0673
  | None => 0.0673
  end.

Definition coef_b (sd : option SpeciesData.t) : float :=
  match sd with
  | Some r => JS.or_default (SpeciesData.allometric_b r) 0.976
  | None => 0.976
  end.

Definition species_uncertainty (sd : option SpeciesData.t) : float :=
  match sd with
  | Some r => JS.or_default (SpeciesData.uncertainty_pct r) 25
  | None => 25
  end.

Section Formulas.

Variable Math_pow : float -> float -> float.

(** The allometric equation [a * (rho * DBH_m^2 * H)^b]. *)
Definition allometric (sd : option SpeciesData.t) (dbh_cm height : float) : float :=
  coef_a sd * Math_pow (rho sd * Math_pow (dbh_cm / 100) 2 * height) (coef_b sd).

(** The raw biomass of each method. *)
Definition raw_biomass (k : Method) (sd : option SpeciesData.t)
    (m : TreeMeasurements) : float :=
  match k with
  | FullAllometric => allometric sd (num (dbh_cm m)) (num (height_meters m))
  | CrownEstimated =>
      allometric sd
        (JS.Math_sqrt (num (canopy_cover_m2 m) / JS.Math_PI) * 2 * 80)
        (num (height_meters m))
  | HeightOnly => Math_pow (num (height_meters m)) 2.5 * rho sd * 2.5
  | CanopyOnly => num (canopy_cover_m2 m) * rho sd * 15
  end.

(** Root-sum-of-squares of the base and the species uncertainty when
    species data resolved, else the base alone. *)
Definition combined_uncertainty (base : float) (sd : option SpeciesData.t) : float :=
  match sd with
  | Some _ =>
      JS.Math_sqrt (Math_pow base 2 + Math_pow (species_uncertainty sd) 2)
  | None => base
  end.

(** The estimate the specification describes for method [k]: the raw
    biomass clamped to 0.1 kg, carbon and CO2e derived from it, all rounded
    to two decimals, the uncertainty to one. *)
Definition estimate_for (k : Method) (sd : option SpeciesData.t)
    (m : TreeMeasurements) : BiomassEstimate :=
  let biomass := JS.Math_max (raw_biomass k sd m) 0.1 in
  let resolved := match sd with Some _ => true | None => false end in
  {| biomass_estimate_kg := round_dp 2 biomass;
     carbon_sequestration_kg := round_dp 2 (biomass * 0.47);
     co2_equivalent_kg := round_dp 2 (biomass * 0.47 * 3.67);
     uncertainty_pct :=
       round_dp 1 (combined_uncertainty (base_uncertainty k resolved) sd);
     method := method_label k resolved (default EmptyString (species_code m));
     confidence_pct := confidence k sd (species_uncertainty sd);
     species_data := sd |}.

(** Claim C2 as worded, without the clamp: the rounded raw allometric value
    is returned, and carbon and CO2e derive from the raw value. *)
Definition unclamped_allometric (pool : Pool) : Prop :=
  forall (m : TreeMeasurements) (d h : float),
    dbh_cm m = Some d -> height_meters m = Some h ->
    (0 <? d) = true -> (0 <? h) = true ->
    exists e,
      estimateBiomass Math_pow pool m = Ok e
      /\ let sd := resolved_species pool m in
         let raw := allometric sd d h in
         biomass_estimate_kg e = round_dp 2 raw
         /\ carbon_sequestration_kg e = round_dp 2 (raw * 0.47)
         /\ co2_equivalent_kg e = round_dp 2 (raw * 0.47 * 3.67)
         /\ confidence_pct e
            = match sd with Some _ => 100 - species_uncertainty sd | None => 75 end.

End Formulas.

(** What ECMAScript fixes for [Math.pow] on the base [+0]: the result is
    [+0] for every exponent above zero. *)
Definition pow_zero_base (pow : float -> float -> float) : Prop :=
  forall y, (0 <? y) = true -> pow 0 y = 0.

(** What ECMAScript fixes for [Math.pow] on a base that is [NaN]: the
    result is [NaN] for every exponent other than zero. *)
Definition pow_nan_base (pow : float -> float -> float) : Prop :=
  forall y, (y =? 0) = false -> pow nan y = nan.

(** Sums and means of numbers, added from the left as the loop does. *)
Definition sum (l : list float) : float := List.fold_left PrimFloat.add l 0.

Definition mean (l : list float) : float :=
  match l with
  | [] => 0
  | _ => sum l / JS.of_Z (Z.of_nat (List.length l))
  end.

(** The measurements the aggregator passes for a row of [trees]. *)
Definition measurements_of (tree : TreeRow) : TreeMeasurements :=
  {| height_meters := tree_height_meters tree;
     dbh_cm := tree_dbh_cm tree;
     canopy_cover_m2 := tree_canopy_cover_m2 tree;
     species_code := tree_species_code tree |}.

(** The trees that produce an estimate, in order, with their estimates. *)
Definition successes (pow : float -> float -> float) (pool : Pool)
    (rows : list TreeRow) : list (string * BiomassEstimate) :=
  List.flat_map
    (fun tree =>
       match estimateBiomass pow pool (measurements_of tree) with
       | Ok e => [(Z_toString (tree_id tree), e)]
       | Throw _ => []
       end) rows.

(** The tree produces an estimate. *)
Definition succeeds (pow : float -> float -> float) (pool : Pool)
    (tree : TreeRow) : bool :=
  is_ok (estimateBiomass pow pool (measurements_of tree)).

(** Claim C8 as worded on the average: the reported average is the mean
    itself. *)
Definition average_is_mean : Prop :=
  forall pow pool plotId r,
    estimatePlotBiomass pow pool plotId = Ok r ->
    average_uncertainty_pct (totals r)
    = mean (List.map (fun te => uncertainty_pct (snd te)) (trees r)).

(** Claim C9 as worded: the totals carry the biomass and the carbon sums in
    tons, the kg figures divided by 1000. *)
Definition totals_report_tons : Prop :=
  forall pow pool plotId r,
    estimatePlotBiomass pow pool plotId = Ok r ->
    (exists p, In p (totals_props (totals r))
               /\ snd p = total_biomass_kg (totals r) / 1000)
    /\ (exists p, In p (totals_props (totals r))
                  /\ snd p = total_carbon_kg (totals r) / 1000).

End BiomassSpec.

(* ================================================================== *)
(** * Sample instances *)

(** Concrete collaborators and inputs, used to run the model on examples. *)

Module Sample.

Local Open Scope float_scope.

(** A stand-in for [Math.pow]: exact on a zero base with an exponent above
    zero, on a base that is [NaN] with an exponent other than zero, and on
    the exponents 1 and 2, where the examples use it. *)
Definition Math_pow (x y : float) : float :=
  if (x =? 0) && (0 <? y) then 0
  else if y =? 1 then x
  else if y =? 2 then x * x
  else x * x * JS.Math_sqrt x.

(** No species table and no trees. *)
Definition empty_pool : Biomass.Pool :=
  {| Biomass.select_tree_species := fun _ => Ok [];
     Biomass.select_trees := fun _ => Ok [] |}.

Definition measurements (h d c : option float) : Biomass.TreeMeasurements :=
  {| Biomass.height_meters := h; Biomass.dbh_cm := d;
     Biomass.canopy_cover_m2 := c; Biomass.species_code := None |}.

Definition tree (id : Z) (h d c : option float) : Biomass.TreeRow :=
  {| Biomass.tree_id := id; Biomass.tree_height_meters := h;
     Biomass.tree_dbh_cm := d; Biomass.tree_canopy_cover_m2 := c;
     Biomass.tree_species_code := None |}.

(** A plot of three trees: a canopy-only one, one with no measurement, and
    a second canopy-only one. *)
Definition pool_with_gap : Biomass.Pool :=
  {| Biomass.select_tree_species := fun _ => Ok [];
     Biomass.select_trees := fun _ =>
       Ok [ tree 1 None None (Some 100);
            tree 2 None None None;
            tree 3 None None (Some 50) ] |}.

(** A plot of three trees whose uncertainties are 40, 40 and 35. *)
Definition pool_mixed : Biomass.Pool :=
  {| Biomass.select_tree_species := fun _ => Ok [];
     Biomass.select_trees := fun _ =>
       Ok [ tree 1 None None (Some 100);
            tree 2 None None (Some 50);
            tree 3 (Some 4) None None ] |}.

End Sample.

(* ================================================================== *)
(** * The statements of the specification on MRV packages *)

Module MRVSpec.

Import MRV.

(** Claim C6 as worded on a missing plot: the export route answers with a
    client error (a 4xx status) and leaves the world as it was. *)
Definition missing_plot_is_client_error : Prop :=
  forall sha256 JSON_stringify toFixed3 cwd CODE_COMMIT NODE_ENV clock now plotId w,
    select_plot (db w) plotId = Ok [] ->
    let out := post_export sha256 JSON_stringify toFixed3 cwd CODE_COMMIT NODE_ENV
                 clock now plotId w in
    (400 <= status (fst out) < 500)%nat /\ snd out = w.

(** [m] leaves the database as it is, whether it returns or throws. *)
Definition preserves {A} (m : M A) : Prop :=
  forall w r w', m w = (r, w') -> db w' = db w.

(** [m] leaves the package table as it is when it throws. *)
Definition guards {A} (m : M A) : Prop :=
  forall w e w', m w = (Throw e, w') -> MRVPackage (db w') = MRVPackage (db w).

(** The absolute path of the artifact a key of [checksums.json] names. *)
Definition artifact (cwd key : string) : string :=
  Path.join (Path.join cwd "storage") key.

(** The four artifact files of a package, relative to the storage root. *)
Definition artifact_paths (relBase : string) : list string :=
  [ Path.join (Path.join relBase "inputs") "trees.json";
    Path.join (Path.join relBase "outputs") "estimates.json";
    Path.join relBase "manifest.json";
    Path.join (Path.join relBase "reports") "summary.md" ].

(** The digest recorded for [key] is the digest of the artifact on disk. *)
Definition digest_of_file (sha256 : string -> string) (cwd : string)
    (fs : FS.t) (kv : string * string) : Prop :=
  exists c, FS.files fs !! artifact cwd (fst kv) = Some c /\ snd kv = sha256 c.

End MRVSpec.

(* ================================================================== *)
(** * Worlds, folders and readers used by the further properties *)

Module StorageSpec.

Import MRV MRVSpec.

(** The world [w] with the content of the file [p] replaced by [c]. *)
Definition overwritten (w : World) (p c : string) : World :=
  {| fs := {| FS.files := <[ p := c ]> (FS.files (fs w));
              FS.dirs := FS.dirs (fs w) |};
     db := db w |}.

(** The world [w] without the file [p]. *)
Definition without (w : World) (p : string) : World :=
  {| fs := {| FS.files := delete p (FS.files (fs w));
              FS.dirs := FS.dirs (fs w) |};
     db := db w |}.

(** Two different inputs with the same digest. *)
Definition collision (sha256 : string -> string) : Prop :=
  exists a b, a <> b /\ sha256 a = sha256 b.

(** The folder of the package an export of [plotId] writes when the clock
    reads [clock]. *)
Definition package_dir (cwd plotId : string) (clock : Clock) : string :=
  artifact cwd
    (Path.join "packages"
       ("mrv_pkg_" ++ plotId ++ "_"
        ++ String.substring 0 15 (remove_chars is_punct (at_folder clock)) ++ "Z")).

(** [m] changes no file outside the directory [dir], whether it returns or
    throws. *)
Definition confined (dir : string) {A} (m : M A) : Prop :=
  forall w r w' p,
    m w = (r, w') ->
    String.prefix (dir ++ "/") p = false ->
    FS.files (fs w') !! p = FS.files (fs w) !! p.

(** The package row with the ledger transaction [txId] recorded. *)
Definition anchored (row : MRVPackageRow) (txId : string) : MRVPackageRow :=
  {| pkg_id := pkg_id row; pkg_runId := pkg_runId row;
     pkg_schemaVersion := pkg_schemaVersion row;
     pkg_artifactsUri := pkg_artifactsUri row;
     pkg_checksum := pkg_checksum row;
     pkg_ledgerTxId := Some txId |}.

End StorageSpec.

Module EstimatorSpec.

Import Biomass.

(** The measurements [m] with the species code left out. *)
Definition without_species (m : TreeMeasurements) : TreeMeasurements :=
  {| height_meters := height_meters m; dbh_cm := dbh_cm m;
     canopy_cover_m2 := canopy_cover_m2 m; species_code := None |}.

(** A species table that cannot be read. *)
Definition failing_pool : Pool :=
  {| select_tree_species := fun _ => Throw "connection refused";
     select_trees := fun _ => Ok [] |}.

End EstimatorSpec.

Module Sign.

(** A binary64 value that is not negative: a zero of either sign, a
    positive finite number or [+Infinity]; [NaN] is not. *)
Definition nonneg_sf (r : spec_float) : bool :=
  match r with
  | S754_zero _ => true
  | S754_infinity s | S754_finite s _ _ => negb s
  | S754_nan => false
  end.

End Sign.

Module CsvSpec.

Import Csv.

(** Every column of [cols] holds a string in the row [r]. *)
Definition strings_at (cols : list string) (r : list (string * value)) : Prop :=
  Forall (fun c => exists s, Obj.get r c = Some (VString s)) cols.

(** What may follow a cell in a line: nothing, or a comma. *)
Definition follows (X : string) : Prop :=
  X = EmptyString \/ exists X', X = String "," X'.

(** The usual reading of a line of CSV.  A quoted cell, after its opening
    quote: the text up to the closing quote, a doubled quote standing for
    one, and what follows. *)
Fixpoint read_quoted (s : string) : option (string * string) :=
  match s with
  | EmptyString => None
  | String c s' =>
      if Ascii.eqb c dquote then
        match s' with
        | String c' s'' =>
            if Ascii.eqb c' dquote then
              match read_quoted s'' with
              | Some (t, r) => Some (String dquote t, r)
              | None => None
              end
            else Some (EmptyString, s')
        | EmptyString => Some (EmptyString, EmptyString)
        end
      else
        match read_quoted s' with
        | Some (t, r) => Some (String c t, r)
        | None => None
        end
  end.

(** A plain cell: the text up to the next comma. *)
Fixpoint read_plain (s : string) : string * string :=
  match s with
  | EmptyString => (EmptyString, EmptyString)
  | String c s' =>
      if Ascii.eqb c "," then (EmptyString, s)
      else let (t, r) := read_plain s' in (String c t, r)
  end.

Definition read_cell (s : string) : option (string * string) :=
  match s with
  | String c s' => if Ascii.eqb c dquote then read_quoted s' else Some (read_plain s)
  | EmptyString => Some (EmptyString, EmptyString)
  end.

(** The [n] cells of a line. *)
Fixpoint read_cells (n : nat) (s : string) : option (list string) :=
  match n with
  | O => match s with EmptyString => Some [] | _ => None end
  | S n' =>
      match read_cell s with
      | Some (t, r) =>
          match n', r with
          | O, EmptyString => Some [t]
          | S _, String c r' =>
              if Ascii.eqb c "," then
                match read_cells n' r' with
                | Some ts => Some (t :: ts)
                | None => None
                end
              else None
          | _, _ => None
          end
      | None => None
      end
  end.

End CsvSpec.


(* ================================================================== *)
(** * Sample collaborators for MRV packages *)

Module SampleMRV.

Import MRV.

(** A stand-in for SHA-256. *)
Definition digest (s : string) : string :=
  ("h" ++ pretty (String.length s))%string.

Definition dq : ascii := ascii_of_nat 34.
Definition bs : ascii := ascii_of_nat 92.

Fixpoint escape (s : string) : string :=
  match s with
  | EmptyString => EmptyString
  | String c s' =>
      if Ascii.eqb c dq || Ascii.eqb c bs
      then String bs (String c (escape s'))
      else String c (escape s')
  end.

Definition quote (s : string) : string :=
  String dq (escape s ++ String dq EmptyString).

Fixpoint digits3 (n : nat) (z : Z) : string :=
  match n with
  | O => EmptyString
  | S n' => (digits3 n' (z / 10)%Z ++ pretty (z mod 10)%Z)%string
  end.

(** [x.toFixed(3)] for a number that is not negative. *)
Definition toFixed3 (x : float) : string :=
  let n := JS.to_Z (JS.Math_round (x * 1000)%float) in
  (pretty (n / 1000)%Z ++ "." ++ digits3 3 (n mod 1000)%Z)%string.

(** A compact printer of JSON values. *)
Fixpoint stringify (j : json) : string :=
  match j with
  | JNull => "null"
  | JBool b => if b then "true" else "false"
  | JNumber x => toFixed3 x
  | JString s => quote s
  | JArray items => ("[" ++ join "," (List.map stringify items) ++ "]")%string
  | JObject props =>
      ("{" ++ join "," (List.map (fun kv => quote (fst kv) ++ ":" ++ stringify (snd kv))
                                 props) ++ "}")%string
  end.

(** A property of the object of digests, printed and as a JSON value. *)
Definition member (kv : string * string) : string :=
  (quote (fst kv) ++ ":" ++ quote (snd kv))%string.

Definition prop_of (kv : string * string) : string * json :=
  (fst kv, JString (snd kv)).

(** Reads a string literal after its opening quote: the text and what
    follows the closing quote. *)
Fixpoint read_string (s : string) : option (string * string) :=
  match s with
  | EmptyString => None
  | String c s' =>
      if Ascii.eqb c dq then Some (EmptyString, s')
      else if Ascii.eqb c bs then
        match s' with
        | EmptyString => None
        | String c' s'' =>
            match read_string s'' with
            | Some (text, rest) => Some (String c' text, rest)
            | None => None
            end
        end
      else
        match read_string s' with
        | Some (text, rest) => Some (String c text, rest)
        | None => None
        end
  end.

(** Reads the members of an object of strings after its opening brace, up
    to the closing one. *)
Fixpoint read_members (fuel : nat) (s : string)
  : option (list (string * json) * string) :=
  match fuel with
  | O => None
  | S fuel' =>
      match s with
      | String c s1 =>
          if Ascii.eqb c dq then
            match read_string s1 with
            | Some (k, String c2 (String c3 s2)) =>
                if Ascii.eqb c2 ":" && Ascii.eqb c3 dq then
                  match read_string s2 with
                  | Some (v, String c4 s3) =>
                      if Ascii.eqb c4 "," then
                        match read_members fuel' s3 with
                        | Some (props, rest) => Some ((k, JString v) :: props, rest)
                        | None => None
                        end
                      else if Ascii.eqb c4 "}" then Some ([(k, JString v)], s3)
                      else None
                  | _ => None
                  end
                else None
            | _ => None
            end
          else None
      | EmptyString => None
      end
  end.

Definition read_object (s : string) : option (list (string * json) * string) :=
  match s with
  | String c1 (String c2 rest) =>
      if Ascii.eqb c1 "{" && Ascii.eqb c2 "}" then Some ([], rest)
      else if Ascii.eqb c1 "{" then read_members (String.length s) (String c2 rest)
      else None
  | _ => None
  end.

(** A parser of the documents of the shape of [checksums.json]: an object
    with one property that holds an object of strings. *)
Definition parse (s : string) : Result json :=
  match s with
  | String c1 (String c2 s1) =>
      if Ascii.eqb c1 "{" && Ascii.eqb c2 dq then
        match read_string s1 with
        | Some (k, String c3 s2) =>
            if Ascii.eqb c3 ":" then
              match read_object s2 with
              | Some (props, String c4 EmptyString) =>
                  if Ascii.eqb c4 "}" then Ok (JObject [(k, JObject props)])
                  else Throw "Unexpected token in JSON"
              | _ => Throw "Unexpected token in JSON"
              end
            else Throw "Unexpected token in JSON"
        | _ => Throw "Unexpected token in JSON"
        end
      else Throw "Unexpected token in JSON"
  | _ => Throw "Unexpected end of JSON input"
  end.

Definition cwd : string := "/srv/api".

Definition plot : PlotRow :=
  {| plot_id := "plot-1"; plot_name := "North field";
     plot_agroEcozone := None; plot_boundaryGeojson := JNull |}.

Definition tree : TreeJoinRow :=
  {| t_id := "tree-1"; t_speciesCode := None; t_commonName := None;
     t_heightM := Some 5.2%float; t_dbhCm := Some 25.4%float;
     t_crownAreaM2 := None; t_health := None;
     t_agbKg := Some 0.1%float; t_carbonKg := Some 0.05%float;
     t_uncPct := Some 20%float; t_method := Some "allometric_generic";
     t_modelVer := None |}.

(** A database with one plot of one tree and no package yet; ids are
    numbered. *)
Definition database : Database :=
  {| select_plot := fun id => if String.eqb id "plot-1" then Ok [plot] else Ok [];
     select_trees := fun id => if String.eqb id "plot-1" then Ok [tree] else Ok [];
     select_latest_run := fun _ => Ok [];
     MRVPackage := [];
     default_id := fun rows => Ok ("pkg-" ++ pretty (List.length rows))%string;
     update_status := fun _ _ => Ok tt |}.

(** A world whose file system holds the working directory only. *)
Definition world : World :=
  {| fs := {| FS.files := ∅; FS.dirs := {[ "/srv"; "/srv/api" ]} |};
     db := database |}.

Definition clock : Clock :=
  {| at_folder := "2025-08-23T05:31:58.123Z";
     at_manifest := "2025-08-23T05:31:58.124Z";
     at_report := "2025-08-23T05:31:58.125Z" |}.

Definition export (plotId : string) : M Exported :=
  exportMRVPackage digest stringify toFixed3 cwd None None clock plotId.

Definition verify (pkgId : string) (w : World) : Response :=
  get_verify digest parse cwd pkgId w.

(** The world after the export of the sample plot. *)
Definition exported : World := snd (export "plot-1" world).

(** The sample world with a database that rejects every [UPDATE] of a
    package row, and that world after the export of the sample plot. *)
Definition ledger_down : World :=
  {| fs := fs world;
     db := {| select_plot := select_plot database;
              select_trees := select_trees database;
              select_latest_run := select_latest_run database;
              MRVPackage := [];
              default_id := default_id database;
              update_status := fun _ _ => Throw "connection terminated" |} |}.

Definition exported_ledger_down : World := snd (export "plot-1" ledger_down).

Definition package_folder : string :=
  "/srv/api/storage/packages/mrv_pkg_plot-1_20250823T053158Z".

(** A checksum document with the keys of the package in another order and
    with digests that are not those of the files. *)
Definition forged_checksums : string :=
  stringify
    (checksums_doc
       [ ("packages/mrv_pkg_plot-1_20250823T053158Z/outputs/estimates.json", "forged");
         ("packages/mrv_pkg_plot-1_20250823T053158Z/inputs/trees.json", "forged");
         ("packages/mrv_pkg_plot-1_20250823T053158Z/manifest.json", "forged");
         ("packages/mrv_pkg_plot-1_20250823T053158Z/reports/summary.md", "forged") ]).

(** The exported world with its checksum file replaced by the forged
    one. *)
Definition forged : World :=
  {| fs := {| FS.files :=
                <[ Path.join package_folder "checksums.json" := forged_checksums ]>
                  (FS.files (fs exported));
              FS.dirs := FS.dirs (fs exported) |};
     db := db exported |}.

End SampleMRV.

(* ================================================================== *)
(** * Theorems *)

(** ** Numbers *)

Module NumberFacts.

Local Open Scope float_scope.

Lemma Prim2SF_zero : Prim2SF 0 = S754_zero false.
Proof. reflexivity. Qed.

(** A number above zero is truthy: it is neither zero nor [NaN]. *)
Lemma gt0_truthy (x : float) : (0 <? x) = true -> JS.truthy x = true.
Proof.
  unfold JS.truthy, is_nan.
  rewrite FloatAxioms.ltb_spec, !FloatAxioms.eqb_spec, Prim2SF_zero.
  destruct (Prim2SF x) as [s | s | | s m e]; cbn; try discriminate;
    destruct s; cbn; try discriminate; intros _.
  - reflexivity.
  - unfold SFeqb, SFcompare.
    rewrite Z.compare_refl, Pos.compare_cont_refl. reflexivity.
Qed.

End NumberFacts.

(** ** Rounding of binary64 operations

    The correctly rounded operations are specified by [SpecFloat]: the exact
    result, a mantissa and an exponent with the location of the discarded
    part, goes through [binary_round_aux].  The lemmas below bound its
    result from below. *)

Module RoundingFacts.

Import Binary64.
Local Open Scope Z_scope.

Lemma fexp_eq (e : Z) : SpecFloat.fexp prec emax e = Z.max (e - 53) (-1074).
Proof. reflexivity. Qed.

Lemma digits_pos (m : positive) : 0 < digits m.
Proof. reflexivity. Qed.

(** A mantissa of [d] digits lies in [[2^(d-1), 2^d)]. *)
Lemma digits_bounds (m : positive) :
  2 ^ (digits m - 1) <= Zpos m < 2 ^ digits m.
Proof.
  unfold digits. induction m as [m IH | m IH |]; cbn [digits2_pos].
  - rewrite Pos2Z.inj_succ.
    replace (Z.succ (Zpos (digits2_pos m)) - 1) with (Z.succ (Zpos (digits2_pos m) - 1)) by lia.
    rewrite !Z.pow_succ_r by lia. lia.
  - rewrite Pos2Z.inj_succ.
    replace (Z.succ (Zpos (digits2_pos m)) - 1) with (Z.succ (Zpos (digits2_pos m) - 1)) by lia.
    rewrite !Z.pow_succ_r by lia. lia.
  - cbn. lia.
Qed.

Lemma shr_1_m (mrs : shr_record) :
  0 <= shr_m mrs -> shr_m (shr_1 mrs) = shr_m mrs / 2 /\ 0 <= shr_m (shr_1 mrs).
Proof.
  destruct mrs as [m r s]. cbn [shr_m]. intros Hm.
  destruct m as [| [p | p |] | p]; cbn [shr_1 shr_m].
  - split; [reflexivity | lia].
  - split; [| lia].
    apply Z.div_unique with (r := 1); lia.
  - split; [| lia].
    apply Z.div_unique with (r := 0); lia.
  - split; [reflexivity | lia].
  - lia.
Qed.

(** Shifting a record [p] times divides its mantissa by [2^p]. *)
Lemma iter_shr_m (p : positive) (mrs : shr_record) :
  0 <= shr_m mrs ->
  shr_m (SpecFloat.iter_pos shr_1 p mrs) = shr_m mrs / 2 ^ Zpos p
  /\ 0 <= shr_m (SpecFloat.iter_pos shr_1 p mrs).
Proof.
  revert mrs. induction p as [p IH | p IH |]; intros mrs Hm; cbn [SpecFloat.iter_pos].
  - destruct (shr_1_m mrs Hm) as [E1 H1].
    destruct (IH _ H1) as [E2 H2]. destruct (IH _ H2) as [E3 H3].
    split; [| exact H3]. rewrite E3, E2, E1.
    rewrite !Z.div_div by (try apply Z.pow_pos_nonneg; lia).
    f_equal.
    replace (Zpos p~1) with (1 + Zpos p + Zpos p) by lia.
    rewrite !Z.pow_add_r by lia. lia.
  - destruct (IH _ Hm) as [E2 H2]. destruct (IH _ H2) as [E3 H3].
    split; [| exact H3]. rewrite E3, E2.
    rewrite !Z.div_div by (try apply Z.pow_pos_nonneg; lia).
    f_equal.
    replace (Zpos p~0) with (Zpos p + Zpos p) by lia.
    rewrite !Z.pow_add_r by lia. lia.
  - destruct (shr_1_m mrs Hm) as [E1 H1]. split; [| exact H1].
    rewrite E1. reflexivity.
Qed.

Lemma shr_record_of_loc_m (m : Z) (l : location) : shr_m (shr_record_of_loc m l) = m.
Proof. destruct l as [| []]; reflexivity. Qed.

(** [shr_fexp] brings the exponent up to the canonical one and divides the
    mantissa accordingly. *)
Lemma shr_fexp_spec (m : Z) (e : Z) (l : location) :
  0 <= m ->
  snd (shr_fexp prec emax m e l) = Z.max e (Z.max (Zdigits2 m + e - 53) (-1074))
  /\ shr_m (fst (shr_fexp prec emax m e l))
     = m / 2 ^ (snd (shr_fexp prec emax m e l) - e).
Proof.
  intros Hm. unfold shr_fexp, shr. rewrite fexp_eq.
  fold (Z.max (Zdigits2 m + e - 53) (-1074)).
  destruct (Z.max (Zdigits2 m + e - 53) (-1074) - e) as [| p | p] eqn:E; cbn [fst snd].
  - replace (e - e) with 0 by lia. rewrite Z.div_1_r, shr_record_of_loc_m. lia.
  - destruct (iter_shr_m p (shr_record_of_loc m l)) as [E1 _];
      [now rewrite shr_record_of_loc_m |].
    rewrite E1, shr_record_of_loc_m.
    replace (e + Zpos p - e) with (Zpos p) by lia. lia.
  - replace (e - e) with 0 by lia. rewrite Z.div_1_r, shr_record_of_loc_m. lia.
Qed.

Lemma round_nearest_even_bounds (m : Z) (l : location) :
  m <= round_nearest_even m l <= m + 1.
Proof.
  destruct l as [| []]; cbn; try lia. destruct (Z.even m); lia.
Qed.


Lemma pow_le_digits (a b : Z) : 0 <= b -> 2 ^ a < 2 ^ b -> a < b.
Proof. intros Hb H. apply Z.pow_lt_mono_r_iff in H; lia. Qed.

Lemma div_pow_pos (m : positive) (k : Z) :
  0 <= k -> k <= digits m - 1 -> 1 <= Zpos m / 2 ^ k.
Proof.
  intros Hk Hd. apply Z.div_le_lower_bound; [apply Z.pow_pos_nonneg; lia |].
  rewrite Z.mul_1_r. pose proof (digits_bounds m) as [Hm _].
  etransitivity; [| exact Hm]. apply Z.pow_le_mono_r; lia.
Qed.

(** Rounding never goes below a representable number that the exact value
    reaches: with [c = mc * 2^ec] canonical and [c <= M * 2^E], the rounded
    result of [M * 2^E] (whatever the location of the discarded part) is at
    least [c]. *)
Lemma binary_round_aux_lower (M : positive) (E : Z) (l : location)
  (mc : positive) (ec : Z) :
  -2200 <= E -> canonical mc ec -> val (Zpos mc) ec <= val (Zpos M) E ->
  SFleb (S754_finite false mc ec)
        (binary_round_aux prec emax false (Zpos M) E l) = true.
Proof.
  intros HE Hc Hv. unfold canonical in Hc. unfold val in Hv.
  pose proof (digits_bounds mc) as [Hc1 Hc2].
  pose proof (digits_bounds M) as [HM1 HM2].
  pose proof (digits_pos mc) as Hdc. pose proof (digits_pos M) as HdM.
  assert (Hec : -1074 <= ec) by lia.
  assert (HD : digits mc + ec <= digits M + E).
  { assert (H : 2 ^ (digits mc - 1 + (ec + 2200)) < 2 ^ (digits M + (E + 2200))).
    { rewrite (Z.pow_add_r 2 (digits mc - 1)), (Z.pow_add_r 2 (digits M)) by lia.
      assert (HA : 0 < 2 ^ (ec + 2200)) by (apply Z.pow_pos_nonneg; lia).
      assert (HB : 0 < 2 ^ (E + 2200)) by (apply Z.pow_pos_nonneg; lia).
      apply Z.le_lt_trans with (Zpos mc * 2 ^ (ec + 2200)).
      - apply Z.mul_le_mono_nonneg_r; lia.
      - apply Z.le_lt_trans with (1 := Hv).
        apply Z.mul_lt_mono_pos_r; lia. }
    apply pow_le_digits in H; lia. }
  unfold binary_round_aux.
  pose proof (shr_fexp_spec (Zpos M) E l ltac:(lia)) as [He' Hm'].
  destruct (shr_fexp prec emax (Zpos M) E l) as [mrs' e']. cbn [fst snd] in He', Hm'.
  change (Zdigits2 (Zpos M)) with (digits M) in He'.
  set (M' := shr_m mrs') in *.
  assert (HM' : 1 <= M').
  { rewrite Hm'. apply div_pow_pos; lia. }
  pose proof (round_nearest_even_bounds M' (loc_of_shr_record mrs')) as HR.
  destruct (round_nearest_even M' (loc_of_shr_record mrs')) as [| m'' | m''];
    try lia.
  pose proof (shr_fexp_spec (Zpos m'') e' loc_Exact ltac:(lia)) as [He'' Hmf].
  destruct (shr_fexp prec emax (Zpos m'') e' loc_Exact) as [mrs'' e''].
  cbn [fst snd] in He'', Hmf.
  change (Zdigits2 (Zpos m'')) with (digits m'') in He''.
  pose proof (digits_pos m'') as Hdm''.
  assert (Hmf1 : 1 <= shr_m mrs'').
  { rewrite Hmf. apply div_pow_pos; lia. }
  destruct (shr_m mrs'') as [| mf | mf] eqn:Emf; try lia.
  destruct (e'' <=? emax - prec); [| reflexivity].
  unfold SFleb, SFcompare.
  destruct (Z.compare_spec ec e'') as [Heq | Hlt | Hgt]; [| reflexivity | lia].
  assert (Hk : e'' - e' = 0) by lia.
  rewrite Hk, Z.div_1_r in Hmf.
  assert (Hle : Zpos mc <= Zpos mf).
  { rewrite Hmf. etransitivity; [| apply HR]. rewrite Hm'.
    apply Z.div_le_lower_bound; [apply Z.pow_pos_nonneg; lia |].
    replace (ec + 2200) with ((e' - E) + (E + 2200)) in Hv by lia.
    rewrite Z.pow_add_r in Hv by lia.
    assert (0 < 2 ^ (E + 2200)) by (apply Z.pow_pos_nonneg; lia).
    nia. }
  change (Pos.compare_cont Eq mc mf) with (Pos.compare mc mf).
  destruct (Pos.compare_spec mc mf); try reflexivity; lia.
Qed.


Lemma valid_canonical (x : float) (s : bool) (m : positive) (e : Z) :
  Prim2SF x = S754_finite s m e -> canonical m e.
Proof.
  intros Hx. pose proof (FloatAxioms.Prim2SF_valid x) as Hv. rewrite Hx in Hv.
  unfold valid_binary, bounded, canonical_mantissa in Hv.
  apply andb_prop in Hv as [Hv _]. apply Z.eqb_eq in Hv.
  rewrite fexp_eq in Hv. unfold canonical, digits. lia.
Qed.

(** Comparison of two positive canonical numbers, case by case. *)
Lemma compare_cases (mc : positive) (ec : Z) (m : positive) (e : Z) :
  canonical mc ec -> canonical m e ->
  match SFcompare (S754_finite false mc ec) (S754_finite false m e) with
  | Some Lt => (ec = e /\ Zpos mc < Zpos m)
               \/ (ec < e /\ digits m = 53 /\ digits mc <= 53)
  | Some Eq => mc = m /\ ec = e
  | _ => True
  end.
Proof.
  unfold canonical. intros Hc Hx. unfold SFcompare.
  pose proof (digits_pos mc) as Hdc. pose proof (digits_pos m) as Hdm.
  destruct (Z.compare_spec ec e) as [Heq | Hlt | Hgt]; [| | exact I].
  - subst e. change (Pos.compare_cont Eq mc m) with (Pos.compare mc m).
    destruct (Pos.compare_spec mc m) as [H | H | H]; [now subst | | exact I].
    left. lia.
  - right. lia.
Qed.

(** The order of two positive canonical numbers is that of their values. *)
Lemma leb_val (K : Z) (mc : positive) (ec : Z) (m : positive) (e : Z) :
  canonical mc ec -> canonical m e -> 1074 <= K ->
  SFleb (S754_finite false mc ec) (S754_finite false m e) = true ->
  Zpos mc * 2 ^ (ec + K) <= Zpos m * 2 ^ (e + K).
Proof.
  intros Hc Hx HK Hle. pose proof (compare_cases mc ec m e Hc Hx) as H.
  unfold SFleb in Hle. unfold canonical in Hc, Hx.
  pose proof (digits_bounds mc) as [Hc1 Hc2].
  pose proof (digits_bounds m) as [Hm1 Hm2].
  destruct (SFcompare _ _) as [[| |] |]; try discriminate.
  - destruct H as [-> ->]. lia.
  - destruct H as [[<- H] | (Hlt & Hd & Hdc)].
    + apply Z.mul_le_mono_nonneg_r; [apply Z.pow_nonneg |]; lia.
    + rewrite Hd in Hm1. change (2 ^ (53 - 1)) with (2 ^ 52) in Hm1.
      assert (H53 : Zpos mc <= 2 ^ 53).
      { assert (2 ^ digits mc <= 2 ^ 53) by (apply Z.pow_le_mono_r; lia). lia. }
      apply Z.le_trans with (2 ^ 53 * 2 ^ (ec + K)).
      { apply Z.mul_le_mono_nonneg_r; [apply Z.pow_nonneg |]; lia. }
      apply Z.le_trans with (2 ^ 52 * 2 ^ (e + K)).
      { rewrite <- !Z.pow_add_r by lia. apply Z.pow_le_mono_r; lia. }
      apply Z.mul_le_mono_nonneg_r; [apply Z.pow_nonneg |]; lia.
Qed.

(** Swapping the operands of a comparison reverses its result. *)
Lemma SFcompare_antisym (a b : spec_float) :
  SFcompare b a = option_map CompOpp (SFcompare a b).
Proof.
  destruct a as [sa | sa | | sa ma ea], b as [sb | sb | | sb mb eb];
    try destruct sa; try destruct sb; try reflexivity;
    cbn [SFcompare option_map]; f_equal;
    rewrite (Z.compare_antisym ea eb);
    change (Pos.compare_cont Eq mb ma) with (Pos.compare mb ma);
    change (Pos.compare_cont Eq ma mb) with (Pos.compare ma mb);
    rewrite (Pos.compare_antisym ma mb);
    destruct (Z.compare ea eb), (Pos.compare ma mb); reflexivity.
Qed.

Lemma SFleb_not_ltb (a b : spec_float) : SFleb a b = true -> SFltb b a = false.
Proof.
  unfold SFleb, SFltb. rewrite (SFcompare_antisym a b).
  destruct (SFcompare a b) as [[| |] |]; cbn; congruence.
Qed.

Lemma SFltb_leb (a b : spec_float) : SFltb a b = true -> SFleb a b = true.
Proof.
  unfold SFleb, SFltb. destruct (SFcompare a b) as [[| |] |]; congruence.
Qed.

Lemma SFcompare_None (a b : spec_float) :
  SFcompare a b = None -> a = S754_nan \/ b = S754_nan.
Proof.
  destruct a as [sa | sa | | sa ma ea], b as [sb | sb | | sb mb eb];
    cbn; try discriminate; auto.
Qed.

(** Aligning a mantissa to a smaller exponent keeps the value. *)
Lemma iter_xO (p d : positive) : Zpos (Pos.iter xO p d) = Zpos p * 2 ^ Zpos d.
Proof.
  induction d as [| d IH] using Pos.peano_ind.
  - change (Pos.iter xO p 1) with (xO p). rewrite Z.pow_1_r. lia.
  - rewrite Pos.iter_succ, Pos2Z.inj_succ, Z.pow_succ_r by lia.
    change (Zpos (Pos.iter xO p d)~0) with (2 * Zpos (Pos.iter xO p d)).
    rewrite IH. lia.
Qed.

Lemma shl_align_spec (p : positive) (e e' : Z) :
  -2200 <= e -> -2200 <= e' ->
  -2200 <= snd (shl_align p e e')
  /\ val (Zpos (fst (shl_align p e e'))) (snd (shl_align p e e')) = val (Zpos p) e.
Proof.
  intros He He'. unfold shl_align, val.
  destruct (e' - e) as [| d | d] eqn:E; cbn [fst snd]; try (split; [lia | reflexivity]).
  split; [lia |]. rewrite iter_xO.
  replace (e + 2200) with (Zpos d + (e' + 2200)) by lia.
  rewrite (Z.pow_add_r 2 (Zpos d)) by lia. ring.
Qed.

(** The quotient and exponent the division hands to the rounding. *)
Lemma SFdiv_core_binary_spec (m1 : positive) (e1 : Z) (m2 : positive) (e2 : Z) :
  let e' := Z.min (Z.max (digits m1 + e1 - (digits m2 + e2) - 53) (-1074)) (e1 - e2) in
  exists l,
    SFdiv_core_binary prec emax (Zpos m1) e1 (Zpos m2) e2
    = (Zpos m1 * 2 ^ (e1 - e2 - e') / Zpos m2, e', l).
Proof.
  intros e'. unfold SFdiv_core_binary. rewrite fexp_eq.
  change (Zdigits2 (Zpos m1)) with (digits m1).
  change (Zdigits2 (Zpos m2)) with (digits m2).
  fold e'. assert (Hs : 0 <= e1 - e2 - e') by (unfold e'; lia).
  set (m' := match e1 - e2 - e' with
             | 0 => Zpos m1 | Zpos _ => Z.shiftl (Zpos m1) (e1 - e2 - e') | Zneg _ => 0
             end).
  assert (Hm' : m' = Zpos m1 * 2 ^ (e1 - e2 - e')).
  { unfold m'. destruct (e1 - e2 - e') as [| s | s] eqn:E; [lia | | lia].
    apply Z.shiftl_mul_pow2. lia. }
  rewrite <- Hm'. unfold Z.div.
  destruct (Z.div_eucl m' (Zpos m2)) as [q r]. now eexists.
Qed.

End RoundingFacts.

(** ** Rounding to two decimals never goes below the clamp *)

Module ClampFacts.

Import Binary64 RoundingFacts.
Local Open Scope float_scope.

Lemma Prim2SF_tenth : Prim2SF 0.1 = S754_finite false 7205759403792794 (-56).
Proof. reflexivity. Qed.

Lemma Prim2SF_ten : Prim2SF 10 = S754_finite false 5629499534213120 (-49).
Proof. reflexivity. Qed.

Lemma Prim2SF_hundred : Prim2SF 100 = S754_finite false 7036874417766400 (-46).
Proof. reflexivity. Qed.

Lemma canonical_tenth : canonical 7205759403792794 (-56).
Proof. reflexivity. Qed.

Lemma canonical_ten : canonical 5629499534213120 (-49).
Proof. reflexivity. Qed.

(** What is at least a positive finite number is positive, and finite or
    [+Infinity]. *)
Lemma leb_cases (c x : float) (mc : positive) (ec : Z) :
  Prim2SF c = S754_finite false mc ec -> (c <=? x) = true ->
  Prim2SF x = S754_infinity false
  \/ exists m e, Prim2SF x = S754_finite false m e /\ canonical m e
       /\ SFleb (S754_finite false mc ec) (S754_finite false m e) = true.
Proof.
  intros Hc. rewrite FloatAxioms.leb_spec, Hc. intros Hle.
  pose proof (valid_canonical x) as Hv.
  destruct (Prim2SF x) as [s | s | | s m e]; try destruct s; try discriminate.
  - now left.
  - right. exists m, e. eauto.
Qed.

(** Step 1: [x >= 0.1] gives [x * 100 >= 10]. *)
Lemma mul_100_lower (x : float) : (0.1 <=? x) = true -> (10 <=? x * 100) = true.
Proof.
  intros Hx. rewrite FloatAxioms.leb_spec, FloatAxioms.mul_spec, Prim2SF_ten, Prim2SF_hundred.
  destruct (leb_cases _ _ _ _ Prim2SF_tenth Hx) as [-> | (m & e & -> & Hcan & Hle)];
    [reflexivity |].
  unfold SF64mul, SFmul. cbn [xorb].
  pose proof (leb_val 2154 _ _ _ _ canonical_tenth Hcan ltac:(lia) Hle) as Hv.
  assert (He : (-1074 <= e)%Z) by (unfold canonical in Hcan; lia).
  apply binary_round_aux_lower; [lia | exact canonical_ten |].
  unfold val. replace (e + -46 + 2200)%Z with (e + 2154)%Z by lia.
  rewrite Pos2Z.inj_mul.
  apply Z.le_trans with (7036874417766400 * (7205759403792794 * 2 ^ (-56 + 2154)))%Z.
  - apply Z.leb_le. vm_compute. reflexivity.
  - rewrite (Z.mul_comm (Zpos m)), <- Z.mul_assoc.
    apply Z.mul_le_mono_nonneg_l; [lia | exact Hv].
Qed.


(** An integer below [2^63] is read back from its 63-bit word, and turned
    into the binary64 number nearest to it. *)
Lemma Prim2SF_of_Z (p : positive) :
  (Zpos p < 2 ^ 63)%Z ->
  Prim2SF (JS.of_Z (Zpos p)) = binary_round prec emax false p 0.
Proof.
  intros Hp. unfold JS.of_Z. rewrite FloatAxioms.of_uint63_spec, Uint63.of_Z_spec.
  rewrite Z.mod_small by (change wB with (2 ^ 63)%Z; lia). reflexivity.
Qed.

(** Step 2: [Math.round] of a number that is at least 10 is at least 10. *)
Lemma Math_round_lower (y : float) :
  (10 <=? y) = true -> (10 <=? JS.Math_round y) = true.
Proof.
  intros Hy. unfold JS.Math_round.
  destruct (leb_cases _ _ _ _ Prim2SF_ten Hy) as [-> | (m & e & -> & Hcan & Hle)];
    [exact Hy |].
  destruct (Z.leb_spec 0 e) as [He | He]; [exact Hy |]. cbv zeta.
  pose proof (leb_val 1074 _ _ _ _ canonical_ten Hcan ltac:(lia) Hle) as Hv.
  assert (Hemin : (-1074 <= e)%Z) by (unfold canonical in Hcan; lia).
  set (d := (2 ^ (- e))%Z).
  assert (Hd : (2 <= d)%Z).
  { unfold d. change 2%Z with (2 ^ 1)%Z at 1. apply Z.pow_le_mono_r; lia. }
  assert (Hm : (10 * d <= Zpos m)%Z).
  { change (5629499534213120 * 2 ^ (-49 + 1074))%Z with (10 * 2 ^ 1074)%Z in Hv.
    replace 1074%Z with (- e + (e + 1074))%Z in Hv at 1 by lia.
    rewrite Z.pow_add_r, Z.mul_assoc in Hv by lia. fold d in Hv.
    apply Z.mul_le_mono_pos_r in Hv; [exact Hv | apply Z.pow_pos_nonneg; lia]. }
  assert (Hm53 : (Zpos m < 2 ^ 53)%Z).
  { pose proof (digits_bounds m) as [_ Hb]. unfold canonical in Hcan.
    assert (2 ^ digits m <= 2 ^ 53)%Z by (apply Z.pow_le_mono_r; lia). lia. }
  assert (Hr1 : (10 <= (2 * Zpos m + d) / (2 * d))%Z).
  { apply Z.div_le_lower_bound; lia. }
  assert (Hr2 : ((2 * Zpos m + d) / (2 * d) <= Zpos m)%Z).
  { apply Z.div_le_upper_bound; [lia | nia]. }
  destruct ((2 * Zpos m + d) / (2 * d))%Z as [| r | r] eqn:Er; try lia.
  cbn [Z.eqb].
  rewrite FloatAxioms.leb_spec, Prim2SF_ten, Prim2SF_of_Z
    by (change (2 ^ 63)%Z with (2 ^ 53 * 1024)%Z; lia).
  unfold binary_round.
  destruct (shl_align_spec r 0 (SpecFloat.fexp prec emax (Zpos (digits2_pos r) + 0)))
    as [Hez Hval]; [lia | rewrite fexp_eq; lia |].
  destruct (shl_align r 0 _) as [mz ez]. cbn [fst snd] in Hez, Hval.
  apply binary_round_aux_lower; [exact Hez | exact canonical_ten |].
  rewrite Hval. unfold val.
  change (5629499534213120 * 2 ^ (-49 + 2200))%Z with (10 * 2 ^ (0 + 2200))%Z.
  apply Z.mul_le_mono_nonneg_r; [apply Z.pow_nonneg |]; lia.
Qed.

(** Step 3: a number that is at least 10, divided by 100, is at least 0.1. *)
Lemma div_100_lower (z : float) : (10 <=? z) = true -> (0.1 <=? z / 100) = true.
Proof.
  intros Hz.
  destruct (leb_cases _ _ _ _ Prim2SF_ten Hz) as [E | (m & e & E & Hcan & Hle)].
  { rewrite FloatAxioms.leb_spec, FloatAxioms.div_spec, E. reflexivity. }
  pose proof (compare_cases _ _ _ _ canonical_ten Hcan) as Hcases.
  unfold SFleb in Hle.
  destruct (SFcompare _ _) as [[| |] |]; try discriminate.
  - (* the number is 10 itself *)
    destruct Hcases as [<- <-]. rewrite <- Prim2SF_ten in E.
    apply FloatAxioms.Prim2SF_inj in E. subst z. reflexivity.
  - rewrite FloatAxioms.leb_spec, FloatAxioms.div_spec, E, Prim2SF_tenth, Prim2SF_hundred.
    unfold SF64div, SFdiv. cbn [xorb].
    destruct (SFdiv_core_binary_spec m e 7036874417766400 (-46)) as [l Hcore].
    cbv zeta in Hcore. change (digits 7036874417766400) with 53%Z in Hcore.
    assert (He : (-49 <= e)%Z) by lia.
    assert (Hd : digits m = 53%Z) by (unfold canonical in Hcan; lia).
    rewrite Hd in Hcore.
    replace (Z.min (Z.max (53 + e - (53 + -46) - 53) (-1074)) (e - -46))
      with (e - 7)%Z in Hcore by lia.
    replace (e - -46 - (e - 7))%Z with 53%Z in Hcore by lia.
    rewrite Hcore. clear Hcore.
    pose proof (digits_bounds m) as [Hm1 Hm2]. rewrite Hd in Hm1, Hm2.
    change (2 ^ (53 - 1))%Z with 4503599627370496%Z in Hm1.
    change (2 ^ 53)%Z with 9007199254740992%Z in Hm2.
    set (q := (Zpos m * 2 ^ 53 / 7036874417766400)%Z).
    change (2 ^ 53)%Z with 9007199254740992%Z in q.
    assert (Hq : (7205759403792794 <= q * 2 ^ (e + 49))%Z).
    { destruct Hcases as [[<- Hlt] | (Hlt & _)].
      - change (2 ^ (-49 + 49))%Z with 1%Z. rewrite Z.mul_1_r.
        apply Z.div_le_lower_bound; lia.
      - assert (H52 : (4503599627370496 <= q)%Z) by (apply Z.div_le_lower_bound; lia).
        assert (H2 : (2 ^ 1 <= 2 ^ (e + 49))%Z) by (apply Z.pow_le_mono_r; lia).
        change (2 ^ 1)%Z with 2%Z in H2. nia. }
    assert (Hq0 : (0 < q)%Z).
    { assert (0 < 2 ^ (e + 49))%Z by (apply Z.pow_pos_nonneg; lia). nia. }
    destruct q as [| q | q]; try lia.
    apply binary_round_aux_lower; [lia | exact canonical_tenth |].
    unfold val. replace (e - 7 + 2200)%Z with ((e + 49) + (-56 + 2200))%Z by lia.
    rewrite (Z.pow_add_r 2 (e + 49)), Z.mul_assoc by lia.
    apply Z.mul_le_mono_nonneg_r; [apply Z.pow_nonneg; lia | exact Hq].
Qed.

(** Rounding a number that is at least 0.1 to two decimals gives at least
    0.1. *)
Lemma round2_lower (x : float) :
  (0.1 <=? x) = true -> (0.1 <=? round_dp 2 x) = true.
Proof.
  intros Hx. unfold round_dp.
  change (JS.of_Z (10 ^ Z.of_nat 2)) with 100.
  now apply div_100_lower, Math_round_lower, mul_100_lower.
Qed.


Lemma is_nan_false (x : float) : is_nan x = false -> Prim2SF x <> S754_nan.
Proof.
  unfold is_nan. rewrite FloatAxioms.eqb_spec. intros H E. rewrite E in H.
  discriminate H.
Qed.

(** [Math.max(x, 0.1)] of a number is at least 0.1. *)
Lemma Math_max_lower (x : float) :
  is_nan x = false -> (0.1 <=? JS.Math_max x 0.1) = true.
Proof.
  intros Hx. unfold JS.Math_max. rewrite Hx.
  change (is_nan 0.1) with false. cbn [orb].
  destruct (x <? 0.1) eqn:H1; [reflexivity |].
  destruct (0.1 <? x) eqn:H2.
  { rewrite FloatAxioms.leb_spec. apply SFltb_leb.
    now rewrite <- FloatAxioms.ltb_spec. }
  destruct (get_sign x); [reflexivity |].
  rewrite FloatAxioms.ltb_spec in H1, H2. rewrite FloatAxioms.leb_spec.
  apply is_nan_false in Hx. unfold SFltb in H1, H2. unfold SFleb.
  rewrite (SFcompare_antisym (Prim2SF 0.1) (Prim2SF x)) in H1.
  destruct (SFcompare (Prim2SF 0.1) (Prim2SF x)) as [[| |] |] eqn:E;
    try reflexivity; try discriminate.
  apply SFcompare_None in E as [E | E]; [discriminate E | contradiction].
Qed.

Lemma Math_max_nan (x y : float) : is_nan x = true -> JS.Math_max x y = nan.
Proof. intros Hx. unfold JS.Math_max. now rewrite Hx. Qed.

(** The clamp survives the rounding to two decimals: the rounded clamped
    value is never below 0.1, and it is at least 0.1 unless the raw value
    is [NaN], which clamping and rounding leave [NaN]. *)
Lemma round2_clamp (raw : float) :
  (round_dp 2 (JS.Math_max raw 0.1) <? 0.1) = false
  /\ (is_nan raw = false -> (0.1 <=? round_dp 2 (JS.Math_max raw 0.1)) = true)
  /\ (is_nan raw = true -> is_nan (round_dp 2 (JS.Math_max raw 0.1)) = true).
Proof.
  destruct (is_nan raw) eqn:Hnan.
  - rewrite (Math_max_nan raw 0.1 Hnan). repeat split; try reflexivity.
    discriminate.
  - pose proof (round2_lower _ (Math_max_lower raw Hnan)) as H.
    repeat split; [| intros _; exact H | discriminate].
    rewrite FloatAxioms.ltb_spec. apply SFleb_not_ltb.
    now rewrite <- FloatAxioms.leb_spec.
Qed.

End ClampFacts.

(** ** Strings *)

Module StringFacts.

Lemma prefix_refl (s : string) : String.prefix s s = true.
Proof.
  induction s as [| c s IH]; [reflexivity |].
  cbn. destruct (ascii_dec c c) as [_ | n]; [exact IH | now destruct n].
Qed.

Lemma prefix_app (s t : string) : String.prefix s (s ++ t) = true.
Proof.
  induction s as [| c s IH]; [now destruct t |].
  change (String.prefix (String c s) (String c (s ++ t)) = true).
  cbn [String.prefix].
  destruct (ascii_dec c c) as [_ | n]; [exact IH | now destruct n].
Qed.

(** A string includes each of its prefixes. *)
Lemma includes_prefix (s t : string) : JSString.includes (s ++ t) s = true.
Proof.
  destruct (s ++ t) eqn:E; unfold JSString.includes; fold JSString.includes;
    rewrite <- E, prefix_app; reflexivity.
Qed.

End StringFacts.

(** ** The biomass estimator *)

Module BiomassFacts.

Import Biomass BiomassSpec.
Local Open Scope float_scope.

Lemma measured_gt0_truthy (x : option float) : gt0 x = true -> truthy x = true.
Proof. destruct x as [v |]; [apply NumberFacts.gt0_truthy | discriminate]. Qed.

(** In the tests of the ladder the truthiness conjuncts are implied by the
    comparisons. *)
Lemma guard2 (x y : option float) :
  truthy x && truthy y && gt0 x && gt0 y = gt0 x && gt0 y.
Proof.
  destruct (gt0 x) eqn:Hx; [rewrite (measured_gt0_truthy _ Hx) | now rewrite !andb_false_r].
  destruct (gt0 y) eqn:Hy; [now rewrite (measured_gt0_truthy _ Hy) | now rewrite !andb_false_r].
Qed.

Lemma guard1 (x : option float) : truthy x && gt0 x = gt0 x.
Proof.
  destruct (gt0 x) eqn:Hx; [now rewrite (measured_gt0_truthy _ Hx) | now rewrite andb_false_r].
Qed.

Lemma getMethodUncertainty_species (code : string) :
  getMethodUncertainty ("allometric_species_" ++ code) = 15.
Proof.
  unfold getMethodUncertainty, uncertainties. cbn [List.find fst].
  now rewrite StringFacts.includes_prefix.
Qed.

(** The base uncertainty the table gives each label the estimator builds. *)
Lemma getMethodUncertainty_label (k : Method) (resolved : bool) (code : string) :
  getMethodUncertainty (method_label k resolved code) = base_uncertainty k resolved.
Proof.
  destruct k, resolved; try reflexivity.
  apply getMethodUncertainty_species.
Qed.

Section Estimator.

Variable Math_pow : float -> float -> float.
Variable pool : Pool.

(** [estimateBiomass] is the ladder followed by the estimate of the
    selected method. *)
Lemma estimateBiomass_ladder (m : TreeMeasurements) :
  estimateBiomass Math_pow pool m
  = match ladder m with
    | Some k => Ok (estimate_for Math_pow k (resolved_species pool m) m)
    | None => Throw insufficient
    end.
Proof.
  unfold estimateBiomass, ladder.
  fold (resolved_species pool m).
  rewrite !guard2, !guard1.
  destruct (resolved_species pool m) as [sd |];
    destruct (gt0 (dbh_cm m)), (gt0 (height_meters m)), (gt0 (canopy_cover_m2 m));
    cbn [andb]; try reflexivity.
  all: cbv zeta; rewrite getMethodUncertainty_species; reflexivity.
Qed.

(** The labels of distinct methods are distinct: the label of an estimate
    tells which method produced it. *)
Lemma method_label_inj (k k' : Method) (r r' : bool) (c c' : string) :
  method_label k r c = method_label k' r' c' -> k = k'.
Proof.
  destruct k, k', r, r'; cbn; intros H; try reflexivity;
    discriminate H.
Qed.

(** C1: [estimateBiomass] selects its method by the priority ladder (full
    allometric when [dbh_cm > 0] and [height_meters > 0]; otherwise crown
    estimated when [height_meters > 0] and [canopy_cover_m2 > 0]; otherwise
    height only when [height_meters > 0]; otherwise canopy only when
    [canopy_cover_m2 > 0]), returns the estimate of that one method under
    its label, and when no precondition holds throws the insufficient
    measurements error and returns no estimate. *)
Theorem C1_method_ladder (m : TreeMeasurements) :
  match ladder m with
  | Some k =>
      exists e,
        estimateBiomass Math_pow pool m = Ok e
        /\ e = estimate_for Math_pow k (resolved_species pool m) m
        /\ method e
           = method_label k
               (match resolved_species pool m with Some _ => true | None => false end)
               (default EmptyString (species_code m))
  | None =>
      estimateBiomass Math_pow pool m
      = Throw "Insufficient measurements for biomass estimation"
  end.
Proof.
  rewrite estimateBiomass_ladder.
  destruct (ladder m) as [k |]; [| reflexivity].
  eexists; repeat split.
Qed.

(** The estimator succeeds exactly when the ladder selects a method. *)
Lemma estimateBiomass_Ok (m : TreeMeasurements) (e : BiomassEstimate) :
  estimateBiomass Math_pow pool m = Ok e ->
  exists k, ladder m = Some k
            /\ e = estimate_for Math_pow k (resolved_species pool m) m.
Proof.
  rewrite estimateBiomass_ladder.
  destruct (ladder m) as [k |]; [| discriminate].
  intros [= <-]. now exists k.
Qed.

Lemma ladder_full (m : TreeMeasurements) (d h : float) :
  dbh_cm m = Some d -> height_meters m = Some h ->
  (0 <? d) = true -> (0 <? h) = true ->
  ladder m = Some FullAllometric.
Proof.
  intros Hd Hh Hd0 Hh0. unfold ladder, gt0.
  now rewrite Hd, Hh, Hd0, Hh0.
Qed.

(** C2, amended: with [dbh_cm > 0] and [height_meters > 0] the raw biomass
    is [a * (rho * (dbh_cm/100)^2 * height_meters)^b], with the defaults
    0.6, 0.0673 and 0.976 when no species row resolved; the raw value is
    clamped to at least 0.1 kg, carbon is the clamped biomass times 0.47,
    CO2e is carbon times 3.67, the three are rounded to two decimals, and
    the confidence is 100 minus the species uncertainty when species data
    resolved, else 75. *)
Theorem C2_full_allometric (m : TreeMeasurements) (d h : float) :
  dbh_cm m = Some d -> height_meters m = Some h ->
  (0 <? d) = true -> (0 <? h) = true ->
  exists e,
    estimateBiomass Math_pow pool m = Ok e
    /\ let sd := resolved_species pool m in
       let raw := allometric Math_pow sd d h in
       let biomass := JS.Math_max raw 0.1 in
       biomass_estimate_kg e = round_dp 2 biomass
       /\ carbon_sequestration_kg e = round_dp 2 (biomass * 0.47)
       /\ co2_equivalent_kg e = round_dp 2 (biomass * 0.47 * 3.67)
       /\ confidence_pct e
          = match sd with Some _ => 100 - species_uncertainty sd | None => 75 end
       /\ (sd = None ->
           raw = 0.0673 * Math_pow (0.6 * Math_pow (d / 100) 2 * h) 0.976).
Proof.
  intros Hd Hh Hd0 Hh0.
  rewrite estimateBiomass_ladder, (ladder_full m d h Hd Hh Hd0 Hh0).
  eexists; split; [reflexivity |].
  cbn -[round_dp JS.Math_max]. unfold raw_biomass, num. rewrite Hd, Hh.
  repeat split.
  intros ->. reflexivity.
Qed.

(** X17: on every measurement for which the estimator succeeds, whichever
    method fires, the returned biomass is the raw value of that method
    clamped to 0.1 kg and rounded to two decimals; it is at least 0.1 kg,
    however small the raw value is, for every raw value that is a number
    (positive, negative, zero or infinite): the rounding to two decimals
    cannot undo the clamp.  For every raw value, [NaN] included, the
    comparison [< 0.1] is false of the returned value. *)
Theorem clamp_for_numbers (m : TreeMeasurements) (e : BiomassEstimate) :
  estimateBiomass Math_pow pool m = Ok e ->
  exists k,
    ladder m = Some k
    /\ let raw := raw_biomass Math_pow k (resolved_species pool m) m in
       biomass_estimate_kg e = round_dp 2 (JS.Math_max raw 0.1)
       /\ (biomass_estimate_kg e <? 0.1) = false
       /\ (is_nan raw = false -> (0.1 <=? biomass_estimate_kg e) = true).
Proof.
  intros He. destruct (estimateBiomass_Ok m e He) as (k & Hk & ->).
  exists k. split; [exact Hk |]. cbn [biomass_estimate_kg estimate_for].
  cbv zeta. split; [reflexivity |].
  destruct (ClampFacts.round2_clamp
              (raw_biomass Math_pow k (resolved_species pool m) m))
    as (H1 & H2 & _).
  split; assumption.
Qed.

(** C3: the clamp misses [NaN].  For a tree with
    [height_meters = Infinity] and [dbh_cm = 5e-324] and no species code,
    the full allometric method fires; [dbh_cm / 100] is zero, the product
    [0.6 * 0 * Infinity] is [NaN], and so are its power, the raw value and
    [Math.max(NaN, 0.1)].  The estimator succeeds and returns a biomass,
    a carbon value and a CO2e value that are [NaN]: the biomass is not at
    least 0.1 kg. *)
Theorem C3_clamp_misses_nan :
  pow_zero_base Math_pow -> pow_nan_base Math_pow ->
  exists e,
    estimateBiomass Math_pow pool
      (Sample.measurements (Some infinity) (Some 5e-324) None) = Ok e
    /\ is_nan (biomass_estimate_kg e) = true
    /\ (0.1 <=? biomass_estimate_kg e) = false
    /\ is_nan (carbon_sequestration_kg e) = true
    /\ is_nan (co2_equivalent_kg e) = true.
Proof.
  intros Hzero Hnan.
  rewrite estimateBiomass_ladder.
  change (ladder (Sample.measurements (Some infinity) (Some 5e-324) None))
    with (Some FullAllometric).
  eexists. split; [reflexivity |].
  cbn [biomass_estimate_kg carbon_sequestration_kg co2_equivalent_kg estimate_for].
  cbv zeta.
  assert (Hraw : raw_biomass Math_pow FullAllometric
                   (resolved_species pool
                      (Sample.measurements (Some infinity) (Some 5e-324) None))
                   (Sample.measurements (Some infinity) (Some 5e-324) None) = nan).
  { unfold raw_biomass, allometric.
    change (resolved_species pool _) with (@None SpeciesData.t).
    cbn [rho coef_a coef_b Sample.measurements num dbh_cm height_meters].
    change (5e-324 / 100) with 0.
    rewrite (Hzero 2 eq_refl).
    change (0.6 * 0 * infinity) with nan.
    rewrite (Hnan 0.976 eq_refl). reflexivity. }
  rewrite Hraw. repeat split; vm_compute; reflexivity.
Qed.

(** C7: the uncertainty of every estimate is the base uncertainty of its
    method (15 species-specific allometric, 20 generic allometric, 25 crown
    estimated, 35 height only, 40 canopy only), combined with the species
    uncertainty by root-sum-of-squares when species data resolved, else
    alone, rounded to one decimal; a label that matches no entry of the
    table has base uncertainty 30. *)
Theorem C7_uncertainty :
  (forall (m : TreeMeasurements) (e : BiomassEstimate),
     estimateBiomass Math_pow pool m = Ok e ->
     exists k,
       ladder m = Some k
       /\ let sd := resolved_species pool m in
          let resolved := match sd with Some _ => true | None => false end in
          getMethodUncertainty (method e) = base_uncertainty k resolved
          /\ uncertainty_pct e
             = round_dp 1
                 (match sd with
                  | Some _ =>
                      JS.Math_sqrt
                        (Math_pow (base_uncertainty k resolved) 2
                         + Math_pow (species_uncertainty sd) 2)
                  | None => base_uncertainty k resolved
                  end))
  /\ (forall label : string,
        (forall kv, In kv uncertainties ->
                    JSString.includes label (fst kv) = false) ->
        getMethodUncertainty label = 30).
Proof.
  split.
  - intros m e He.
    destruct (estimateBiomass_Ok m e He) as (k & Hk & ->).
    exists k. split; [exact Hk |].
    cbn -[round_dp]. split; [apply getMethodUncertainty_label |].
    destruct (resolved_species pool m); reflexivity.
  - intros label Hnone. unfold getMethodUncertainty.
    destruct (List.find _ uncertainties) as [kv |] eqn:Hfind; [| reflexivity].
    apply List.find_some in Hfind as [Hin Hinc].
    now rewrite (Hnone kv Hin) in Hinc.
Qed.

(** *** The plot aggregator *)

Lemma successes_cons (tree : TreeRow) (rows : list TreeRow) :
  successes Math_pow pool (tree :: rows)
  = (match estimateBiomass Math_pow pool (measurements_of tree) with
     | Ok e => [(Z_toString (tree_id tree), e)]
     | Throw _ => []
     end ++ successes Math_pow pool rows)%list.
Proof. reflexivity. Qed.

Lemma step_eq (acc : Acc) (tree : TreeRow) :
  step Math_pow pool acc tree
  = match estimateBiomass Math_pow pool (measurements_of tree) with
    | Ok estimate =>
        {| estimates := (estimates acc ++ [(Z_toString (tree_id tree), estimate)])%list;
           totalBiomass := totalBiomass acc + biomass_estimate_kg estimate;
           totalCarbon := totalCarbon acc + carbon_sequestration_kg estimate;
           totalCo2 := totalCo2 acc + co2_equivalent_kg estimate;
           totalUncertainty := totalUncertainty acc + uncertainty_pct estimate;
           estimatedTrees := S (estimatedTrees acc) |}
    | Throw _ => acc
    end.
Proof. reflexivity. Qed.

(** The loop adds the successful trees, in order, to its accumulators. *)
Lemma fold_step (rows : list TreeRow) (acc : Acc) :
  List.fold_left (step Math_pow pool) rows acc
  = let S := successes Math_pow pool rows in
    {| estimates := (estimates acc ++ S)%list;
       totalBiomass :=
         List.fold_left PrimFloat.add
           (List.map (fun te => biomass_estimate_kg (snd te)) S) (totalBiomass acc);
       totalCarbon :=
         List.fold_left PrimFloat.add
           (List.map (fun te => carbon_sequestration_kg (snd te)) S) (totalCarbon acc);
       totalCo2 :=
         List.fold_left PrimFloat.add
           (List.map (fun te => co2_equivalent_kg (snd te)) S) (totalCo2 acc);
       totalUncertainty :=
         List.fold_left PrimFloat.add
           (List.map (fun te => uncertainty_pct (snd te)) S) (totalUncertainty acc);
       estimatedTrees := (estimatedTrees acc + List.length S)%nat |}.
Proof.
  revert acc. induction rows as [| tree rows IH]; intros acc.
  - cbn. rewrite app_nil_r, Nat.add_0_r. now destruct acc.
  - cbn [List.fold_left]. rewrite IH, successes_cons, step_eq. cbv zeta.
    destruct (estimateBiomass Math_pow pool (measurements_of tree)) as [e | msg];
      [| reflexivity].
    cbn -[successes]. rewrite <- app_assoc, Nat.add_succ_r. reflexivity.
Qed.

(** The result of [estimatePlotBiomass] in terms of the successful trees. *)
Lemma estimatePlotBiomass_Ok (plotId : string) (rows : list TreeRow) :
  select_trees pool plotId = Ok rows ->
  let S := successes Math_pow pool rows in
  estimatePlotBiomass Math_pow pool plotId
  = Ok {| trees := S;
          totals :=
            {| total_trees := List.length S;
               total_biomass_kg :=
                 round_dp 2 (sum (List.map (fun te => biomass_estimate_kg (snd te)) S));
               total_carbon_kg :=
                 round_dp 2
                   (sum (List.map (fun te => carbon_sequestration_kg (snd te)) S));
               total_co2_equivalent_kg :=
                 round_dp 2 (sum (List.map (fun te => co2_equivalent_kg (snd te)) S));
               average_uncertainty_pct :=
                 round_dp 1 (mean (List.map (fun te => uncertainty_pct (snd te)) S))
            |} |}.
Proof.
  intros Hrows. unfold estimatePlotBiomass. rewrite Hrows, fold_step.
  cbn -[successes round_dp sum mean JS.Math_round].
  f_equal. f_equal. f_equal.
  destruct (successes Math_pow pool rows) as [| te S]; [reflexivity |].
  unfold mean, sum. cbn [List.map List.length Nat.ltb Nat.leb].
  rewrite List.length_map. reflexivity.
Qed.

Lemma successes_ids (rows : list TreeRow) :
  List.map fst (successes Math_pow pool rows)
  = List.map (fun tree => Z_toString (tree_id tree))
             (List.filter (succeeds Math_pow pool) rows).
Proof.
  induction rows as [| tree rows IH]; [reflexivity |].
  rewrite successes_cons, List.map_app, IH. cbn [List.filter]. unfold succeeds at 2.
  destruct (estimateBiomass Math_pow pool (measurements_of tree)); reflexivity.
Qed.

Lemma successes_estimates (rows : list TreeRow) (te : string * BiomassEstimate) :
  In te (successes Math_pow pool rows) ->
  exists tree,
    In tree rows
    /\ fst te = Z_toString (tree_id tree)
    /\ estimateBiomass Math_pow pool (measurements_of tree) = Ok (snd te).
Proof.
  unfold successes. rewrite List.in_flat_map. intros (tree & Hin & Hte).
  exists tree. split; [exact Hin |].
  destruct (estimateBiomass Math_pow pool (measurements_of tree)) as [e | msg];
    [| contradiction].
  destruct Hte as [<- | []]. now split.
Qed.

(** C8, amended: [estimatePlotBiomass] catches each per-tree failure and
    keeps the successful trees only: [trees] lists, in order, exactly the
    trees that produced an estimate, each with its estimate, [total_trees]
    is their number, and [average_uncertainty_pct] is the mean of their
    uncertainties (0 when there is none) rounded to one decimal. *)
Theorem C8_partial_success (plotId : string) (rows : list TreeRow) :
  select_trees pool plotId = Ok rows ->
  exists r,
    estimatePlotBiomass Math_pow pool plotId = Ok r
    /\ List.map fst (trees r)
       = List.map (fun tree => Z_toString (tree_id tree))
                  (List.filter (succeeds Math_pow pool) rows)
    /\ (forall te, In te (trees r) ->
          exists tree,
            In tree rows
            /\ fst te = Z_toString (tree_id tree)
            /\ estimateBiomass Math_pow pool (measurements_of tree) = Ok (snd te))
    /\ total_trees (totals r)
       = List.length (List.filter (succeeds Math_pow pool) rows)
    /\ average_uncertainty_pct (totals r)
       = round_dp 1 (mean (List.map (fun te => uncertainty_pct (snd te)) (trees r))).
Proof.
  intros Hrows. rewrite (estimatePlotBiomass_Ok plotId rows Hrows).
  eexists; split; [reflexivity |]. cbn [trees totals total_trees average_uncertainty_pct].
  split; [apply successes_ids |].
  split; [apply successes_estimates |].
  split; [| reflexivity].
  rewrite <- (List.length_map fst), successes_ids. apply List.length_map.
Qed.

(** C9, amended: the totals of [estimatePlotBiomass] are the sums over the
    successful trees of biomass, carbon and CO2e, in kg rounded to two
    decimals; the totals object has the five properties below and carries
    no value in tons. *)
Theorem C9_totals_in_kg (plotId : string) (rows : list TreeRow) :
  select_trees pool plotId = Ok rows ->
  exists r,
    estimatePlotBiomass Math_pow pool plotId = Ok r
    /\ total_biomass_kg (totals r)
       = round_dp 2 (sum (List.map (fun te => biomass_estimate_kg (snd te)) (trees r)))
    /\ total_carbon_kg (totals r)
       = round_dp 2
           (sum (List.map (fun te => carbon_sequestration_kg (snd te)) (trees r)))
    /\ total_co2_equivalent_kg (totals r)
       = round_dp 2 (sum (List.map (fun te => co2_equivalent_kg (snd te)) (trees r)))
    /\ List.map fst (totals_props (totals r))
       = [ "total_trees"; "total_biomass_kg"; "total_carbon_kg";
           "total_co2_equivalent_kg"; "average_uncertainty_pct" ]%string.
Proof.
  intros Hrows. rewrite (estimatePlotBiomass_Ok plotId rows Hrows).
  eexists; split; [reflexivity |]. repeat split.
Qed.

End Estimator.

(** *** Examples and counterexamples *)

Lemma sample_pow_zero_base : pow_zero_base Sample.Math_pow.
Proof. intros y Hy. unfold Sample.Math_pow. now rewrite Hy. Qed.

Lemma sample_pow_nan_base : pow_nan_base Sample.Math_pow.
Proof.
  intros y Hy. unfold Sample.Math_pow.
  change ((nan =? 0) && (0 <? y))%bool with false. cbv iota.
  destruct (y =? 1); [reflexivity |]. destruct (y =? 2); reflexivity.
Qed.

(** Two numbers that compute to different values are not equal. *)
Ltac float_neq H :=
  match type of H with
  | ?x = ?y =>
      apply (f_equal (fun z => PrimFloat.eqb z y)) in H;
      vm_compute in H; discriminate H
  end.

Lemma C2_full_allometric_witness :
  exists e,
    estimateBiomass Sample.Math_pow Sample.empty_pool
      (Sample.measurements (Some 5.2) (Some 25.4) None) = Ok e
    /\ biomass_estimate_kg e = 0.1.
Proof.
  destruct (C2_full_allometric Sample.Math_pow Sample.empty_pool
              (Sample.measurements (Some 5.2) (Some 25.4) None) 25.4 5.2
              eq_refl eq_refl eq_refl eq_refl) as (e & He & Hb & _).
  exists e. split; [exact He |]. rewrite Hb. vm_compute. reflexivity.
Defined.

(** C2 as worded fails: a tree whose raw allometric value is below 0.1 kg
    (here [dbh_cm = 5e-324], so that [dbh_cm / 100] is zero and the raw
    value is zero for every [Math.pow] that maps a zero base to zero) gets
    0.1 kg, not the rounded raw value. *)
Lemma C2_unclamped_counterexample :
  ~ (forall pow, pow_zero_base pow -> forall pool, unclamped_allometric pow pool).
Proof.
  intros H.
  destruct (H Sample.Math_pow sample_pow_zero_base Sample.empty_pool
              (Sample.measurements (Some 1) (Some 5e-324) None) 5e-324 1
              eq_refl eq_refl eq_refl eq_refl) as (e & He & Hb & _).
  vm_compute in He. injection He as <-.
  cbn [biomass_estimate_kg] in Hb. float_neq Hb.
Qed.

(** A tree of 0.2 m with no other measurement: the height-only value is
    below 0.1 kg, and 0.1 kg is returned. *)
Lemma clamp_for_numbers_witness :
  exists e,
    estimateBiomass Sample.Math_pow Sample.empty_pool
      (Sample.measurements (Some 0.2) None None) = Ok e
    /\ (raw_biomass Sample.Math_pow HeightOnly None
          (Sample.measurements (Some 0.2) None None) <? 0.1) = true
    /\ biomass_estimate_kg e = 0.1
    /\ (0.1 <=? biomass_estimate_kg e) = true.
Proof.
  destruct (estimateBiomass Sample.Math_pow Sample.empty_pool
              (Sample.measurements (Some 0.2) None None)) as [e | msg] eqn:He;
    [| vm_compute in He; discriminate He].
  exists e. split; [reflexivity |].
  destruct (clamp_for_numbers Sample.Math_pow Sample.empty_pool _ e He)
    as (k & Hk & Hb & _ & Hge).
  vm_compute in Hk. injection Hk as <-.
  split; [vm_compute; reflexivity |].
  split; [rewrite Hb; vm_compute; reflexivity |].
  apply Hge. vm_compute. reflexivity.
Defined.

(** The estimate of the tree of infinite height and least diameter, with
    the stand-in for [Math.pow]. *)
Lemma C3_clamp_misses_nan_witness :
  exists e,
    estimateBiomass Sample.Math_pow Sample.empty_pool
      (Sample.measurements (Some infinity) (Some 5e-324) None) = Ok e
    /\ is_nan (biomass_estimate_kg e) = true
    /\ (0.1 <=? biomass_estimate_kg e) = false
    /\ is_nan (carbon_sequestration_kg e) = true
    /\ is_nan (co2_equivalent_kg e) = true.
Proof.
  exact (C3_clamp_misses_nan Sample.Math_pow Sample.empty_pool
           sample_pow_zero_base sample_pow_nan_base).
Defined.

Lemma C7_uncertainty_witness :
  exists e,
    estimateBiomass Sample.Math_pow Sample.empty_pool
      (Sample.measurements (Some 4) None None) = Ok e
    /\ uncertainty_pct e = 35.
Proof.
  destruct (estimateBiomass Sample.Math_pow Sample.empty_pool
              (Sample.measurements (Some 4) None None)) as [e | msg] eqn:He;
    [| vm_compute in He; discriminate He].
  exists e. split; [reflexivity |].
  destruct (proj1 (C7_uncertainty Sample.Math_pow Sample.empty_pool) _ e He)
    as (k & Hk & _ & Hu).
  vm_compute in Hk. injection Hk as <-. exact Hu.
Defined.

(** The scenario of the specification: of three trees, the one with no
    usable measurement is left out. *)
Example three_trees_one_gap :
  exists r,
    estimatePlotBiomass Sample.Math_pow Sample.pool_with_gap "plot-1" = Ok r
    /\ total_trees (totals r) = 2%nat
    /\ List.map fst (trees r) = ["1"; "3"]%string.
Proof. eexists. split; [vm_compute; reflexivity |]. split; reflexivity. Qed.

Lemma C8_partial_success_witness :
  exists r,
    estimatePlotBiomass Sample.Math_pow Sample.pool_with_gap "plot-1" = Ok r
    /\ total_trees (totals r) = 2%nat.
Proof.
  destruct (C8_partial_success Sample.Math_pow Sample.pool_with_gap "plot-1" _ eq_refl)
    as (r & Hr & _ & _ & Hn & _).
  exists r. split; [exact Hr |]. rewrite Hn. vm_compute. reflexivity.
Defined.

(** C8 as worded fails on the average: three trees with uncertainties 40,
    40 and 35 have mean 38.33..., and 38.3 is reported. *)
Lemma C8_average_counterexample : ~ average_is_mean.
Proof.
  intros H.
  specialize (H Sample.Math_pow Sample.pool_mixed "plot-1"%string _ eq_refl).
  vm_compute in H. float_neq H.
Qed.

Lemma C9_totals_in_kg_witness :
  exists r,
    estimatePlotBiomass Sample.Math_pow Sample.pool_with_gap "plot-1" = Ok r
    /\ total_biomass_kg (totals r) = 1350.
Proof.
  destruct (C9_totals_in_kg Sample.Math_pow Sample.pool_with_gap "plot-1" _ eq_refl)
    as (r & Hr & Hb & _).
  exists r. split; [exact Hr |]. rewrite Hb.
  vm_compute in Hr. injection Hr as <-. vm_compute. reflexivity.
Defined.

(** C9 as worded fails: for two trees of 900 kg and 450 kg the totals are
    2, 1350, 634.5, 2328.62 and 40; none is 1.35, the biomass in tons. *)
Lemma C9_tons_counterexample : ~ totals_report_tons.
Proof.
  intros H.
  destruct (H Sample.Math_pow Sample.pool_with_gap "plot-1"%string _ eq_refl)
    as [(p & Hin & Hp) _].
  vm_compute in Hin.
  destruct Hin as [<- | [<- | [<- | [<- | [<- | []]]]]];
    vm_compute in Hp; float_neq Hp.
Qed.

End BiomassFacts.

(** ** The carbon credit converter *)

Module CarbonCreditFacts.

Import CarbonCredit.
Local Open Scope float_scope.

(** C5: [calculateCredits] returns
    [creditsGenerated = round(biomassKg * 0.47 * 3.67 / 1000, 3)] for every
    [biomassKg] (so for every [biomassKg >= 0]), the kg values rounded to
    two decimals and the tons and credits to three; and
    [calculateCredits(1000)] returns 470 kg of carbon, 1724.9 kg of CO2e
    and 1.725 credits. *)
Theorem C5_calculateCredits :
  (forall biomassKg : float,
     let c := calculateCredits biomassKg in
     creditsGenerated c = round_dp 3 (biomassKg * 0.47 * 3.67 / 1000)
     /\ carbonStockKg c = round_dp 2 (biomassKg * 0.47)
     /\ co2EquivalentKg c = round_dp 2 (biomassKg * 0.47 * 3.67)
     /\ carbonStockTons c = round_dp 3 (biomassKg * 0.47 / 1000)
     /\ co2EquivalentTons c = round_dp 3 (biomassKg * 0.47 * 3.67 / 1000))
  /\ calculateCredits 1000
     = {| carbonStockKg := 470;
          carbonStockTons := 0.47;
          co2EquivalentKg := 1724.9;
          co2EquivalentTons := 1.725;
          creditsGenerated := 1.725 |}.
Proof.
  split; [intros biomassKg; repeat split | vm_compute; reflexivity].
Qed.

End CarbonCreditFacts.

(** ** Paths and the file system *)

Module PathFacts.

Lemma app_assoc (a b c : string) : ((a ++ b) ++ c = a ++ (b ++ c))%string.
Proof.
  induction a as [| x a IH]; [reflexivity |].
  change (String x ((a ++ b) ++ c) = String x (a ++ (b ++ c)))%string.
  now rewrite IH.
Qed.

Lemma app_cons (x : ascii) (a b : string) :
  (String x a ++ b = String x (a ++ b))%string.
Proof. reflexivity. Qed.

Lemma app_nil_l (a : string) : (EmptyString ++ a = a)%string.
Proof. reflexivity. Qed.

(** Paths under one directory differ when their relative parts do. *)
Lemma app_neq (a b c : string) : b <> c -> (a ++ b)%string <> (a ++ c)%string.
Proof. intros Hne Heq. apply Hne. exact (String.app_inj a _ _ Heq). Qed.

Lemma has_slash_app (a b : string) :
  Path.has_slash (a ++ String "/" b) = true.
Proof.
  induction a as [| x a IH]; [reflexivity |].
  rewrite app_cons. cbn [Path.has_slash]. rewrite IH. apply orb_true_r.
Qed.

(** The directory of a file directly under [a] is [a]. *)
Lemma dirname_join (a b : string) :
  Path.has_slash b = false -> Path.dirname (Path.join a b) = a.
Proof.
  intros Hb. unfold Path.join.
  induction a as [| x a IH].
  - change (Path.dirname (String "/" b) = EmptyString).
    cbn [Path.dirname]. now rewrite Hb.
  - rewrite app_cons. cbn [Path.dirname].
    change ("/" ++ b)%string with (String "/" b).
    rewrite has_slash_app. f_equal. exact IH.
Qed.

Lemma is_absolute_app (a b : string) :
  Path.is_absolute a = true -> Path.is_absolute (a ++ b) = true.
Proof.
  destruct a as [| x a]; [discriminate |].
  rewrite app_cons. unfold Path.is_absolute. cbn [String.prefix].
  destruct (ascii_dec "/" x); [| discriminate].
  intros _. now destruct (a ++ b)%string.
Qed.

Lemma skip_app (a b : string) : MRV.skip (String.length a) (a ++ b) = b.
Proof. induction a as [| x a IH]; [now destruct b | exact IH]. Qed.

Lemma replace_unfold (s pat rep : string) :
  MRV.replace s pat rep
  = if String.prefix pat s then (rep ++ MRV.skip (String.length pat) s)%string
    else match s with
         | EmptyString => EmptyString
         | String c s' => String c (MRV.replace s' pat rep)
         end.
Proof. destruct s; reflexivity. Qed.

(** Replacing the leading scheme of a URI by nothing leaves its path. *)
Lemma replace_prefix (a b : string) : MRV.replace (a ++ b) a EmptyString = b.
Proof. now rewrite replace_unfold, StringFacts.prefix_app, skip_app. Qed.

End PathFacts.

(** ** MRV packages *)

Module MRVFacts.

Import MRV MRVSpec.

(** *** Computations and the package table *)

Lemma bind_Ok {A B} (m : M A) (k : A -> M B) w b w' :
  (m ≫= k) w = (Ok b, w') ->
  exists a w1, m w = (Ok a, w1) /\ k a w1 = (Ok b, w').
Proof.
  unfold mbind, M_bind. destruct (m w) as [[a | e] w1]; [eauto | discriminate].
Qed.

Lemma preserves_ret {A} (a : A) : preserves (mret a : M A).
Proof. intros w r w' [= _ <-]. reflexivity. Qed.

Lemma preserves_throw {A} (e : string) : preserves (throw e : M A).
Proof. intros w r w' [= _ <-]. reflexivity. Qed.

Lemma preserves_bind {A B} (m : M A) (k : A -> M B) :
  preserves m -> (forall a, preserves (k a)) -> preserves (m ≫= k).
Proof.
  intros Hm Hk w r w'. unfold mbind, M_bind.
  destruct (m w) as [[a | e] w1] eqn:E.
  - intros H. rewrite (Hk a _ _ _ H). exact (Hm _ _ _ E).
  - intros [= _ <-]. exact (Hm _ _ _ E).
Qed.

Lemma preserves_on_fs (f : FS.t -> Result FS.t) : preserves (on_fs f).
Proof.
  intros w r w'. unfold on_fs. destruct (f (fs w)); intros [= _ <-]; reflexivity.
Qed.

Lemma preserves_query {A} (q : Database -> Result A) : preserves (query q).
Proof. intros w r w' [= _ <-]. reflexivity. Qed.

Lemma preserves_rethrow {A} (h : string -> string) (m : M A) :
  preserves m -> preserves (rethrow h m).
Proof.
  intros Hm w r w'. unfold rethrow.
  destruct (m w) as [[a | e] w1] eqn:E; intros [= _ <-]; exact (Hm _ _ _ E).
Qed.

Lemma guards_of_preserves {A} (m : M A) : preserves m -> guards m.
Proof. intros Hm w e w' H. now rewrite (Hm _ _ _ H). Qed.

Lemma guards_bind {A B} (m : M A) (k : A -> M B) :
  preserves m -> (forall a, guards (k a)) -> guards (m ≫= k).
Proof.
  intros Hm Hk w e w'. unfold mbind, M_bind.
  destruct (m w) as [[a | e1] w1] eqn:E.
  - intros H. rewrite (Hk a _ _ _ H). now rewrite (Hm _ _ _ E).
  - intros [= _ <-]. now rewrite (Hm _ _ _ E).
Qed.

Lemma guards_bind_ret {A B} (m : M A) (f : A -> B) :
  guards m -> guards (m ≫= fun a => mret (f a)).
Proof.
  intros Hm w e w'. unfold mbind, M_bind.
  destruct (m w) as [[a | e1] w1] eqn:E; [discriminate |].
  intros [= _ <-]. exact (Hm _ _ _ E).
Qed.

Lemma set_Forall {V} (P : string * V -> Prop) (o : list (string * V)) k v :
  Forall P o -> P (k, v) -> Forall P (Obj.set o k v).
Proof.
  intros Ho Hkv. induction Ho as [| [k' v'] o Hk' Ho IH]; cbn.
  - repeat constructor. exact Hkv.
  - destruct (String.eqb k' k); constructor; auto.
Qed.

Lemma set_fresh {V} (o : list (string * V)) k v :
  ~ In k (List.map fst o) -> Obj.set o k v = (o ++ [(k, v)])%list.
Proof.
  induction o as [| [k' v'] o IH]; cbn; [reflexivity |].
  intros Hk. destruct (String.eqb_spec k' k) as [-> | _]; [tauto |].
  rewrite IH; [reflexivity | tauto].
Qed.

Lemma artifact_paths_NoDup (relB : string) : List.NoDup (artifact_paths relB).
Proof.
  unfold artifact_paths, Path.join.
  repeat constructor; cbn [In]; intros H;
    repeat (destruct H as [H | H]; [revert H | ]); try exact H;
    rewrite !PathFacts.app_assoc; repeat apply PathFacts.app_neq; discriminate.
Qed.

(** The object literal of the digests has the four artifact paths as
    keys. *)
Lemma files_literal (relB h1 h2 h3 h4 : string) :
  match artifact_paths relB with
  | [p1; p2; p3; p4] =>
      Obj.set (Obj.set (Obj.set (Obj.set [] p1 h1) p2 h2) p3 h3) p4 h4
      = [(p1, h1); (p2, h2); (p3, h3); (p4, h4)]
  | _ => False
  end.
Proof.
  pose proof (artifact_paths_NoDup relB) as Hnd.
  unfold artifact_paths in *.
  set (p1 := Path.join (Path.join relB "inputs") "trees.json") in *.
  set (p2 := Path.join (Path.join relB "outputs") "estimates.json") in *.
  set (p3 := Path.join relB "manifest.json") in *.
  set (p4 := Path.join (Path.join relB "reports") "summary.md") in *.
  apply List.NoDup_cons_iff in Hnd as [H1 Hnd].
  apply List.NoDup_cons_iff in Hnd as [H2 Hnd].
  apply List.NoDup_cons_iff in Hnd as [H3 _].
  cbn [In] in H1, H2, H3.
  change (Obj.set [] p1 h1) with [(p1, h1)].
  rewrite (set_fresh [(p1, h1)]) by (cbn; intuition congruence).
  rewrite (set_fresh ([(p1, h1)] ++ [(p2, h2)])%list)
    by (cbn; intuition congruence).
  rewrite (set_fresh (([(p1, h1)] ++ [(p2, h2)]) ++ [(p3, h3)])%list)
    by (cbn; intuition congruence).
  reflexivity.
Qed.

Lemma map_result_Ok {A B} (f : A -> Result B) (g : A -> B) (l : list A) :
  (forall a, In a l -> f a = Ok (g a)) -> map_result f l = Ok (List.map g l).
Proof.
  induction l as [| a l IH]; intros H; [reflexivity |].
  cbn. rewrite (H a) by (now left). rewrite IH by (intros; apply H; now right).
  reflexivity.
Qed.

Lemma map_result_ext {A B} (f g : A -> Result B) (l : list A) :
  (forall a, In a l -> f a = g a) -> map_result f l = map_result g l.
Proof.
  induction l as [| a l IH]; intros H; [reflexivity |].
  cbn. rewrite (H a) by (now left). rewrite IH by (intros; apply H; now right).
  reflexivity.
Qed.

Lemma get_In {V} (o : list (string * V)) k v : Obj.get o k = Some v -> In (k, v) o.
Proof.
  induction o as [| [k' v'] o IH]; cbn; [discriminate |].
  destruct (String.eqb_spec k' k) as [-> | _]; [intros [= ->]; now left | auto].
Qed.

Lemma get_key {V} (o : list (string * V)) k :
  In k (List.map fst o) -> exists v, Obj.get o k = Some v.
Proof.
  induction o as [| [k' v'] o IH]; cbn; [contradiction |].
  destruct (String.eqb_spec k' k) as [-> | Hne]; [eauto |].
  intros [H | H]; [contradiction | auto].
Qed.

Lemma In_sort (l : list string) (k : string) : In k (sort l) -> In k l.
Proof.
  rewrite <- !list_elem_of_In. unfold sort.
  now rewrite (merge_sort_Permutation String.le l).
Qed.

(** Sorting forgets the order of the keys. *)
Lemma sort_Permutation (l1 l2 : list string) : l1 ≡ₚ l2 -> sort l1 = sort l2.
Proof.
  intros Hp. unfold sort.
  apply (Sorted_unique String.le); try apply Sorted_merge_sort; try apply _.
  now rewrite !merge_sort_Permutation.
Qed.

(** The only row with the id of a freshly inserted row is that row. *)
Lemma select_fresh (db0 : Database) (old : list MRVPackageRow) (row : MRVPackageRow) :
  MRVPackage db0 = (old ++ [row])%list ->
  (forall r0, In r0 old -> String.eqb (pkg_id r0) (pkg_id row) = false) ->
  select_package db0 (pkg_id row) = [row].
Proof.
  intros Hdb Hold. unfold select_package. rewrite Hdb, List.filter_app. cbn.
  rewrite String.eqb_refl. clear Hdb.
  replace (List.filter _ old) with (@nil MRVPackageRow); [reflexivity |].
  symmetry. induction old as [| r0 old IH]; [reflexivity |].
  cbn. rewrite (Hold r0) by (now left). apply IH. intros; apply Hold; now right.
Qed.

Section Service.

Variable sha256 : string -> string.
Variable JSON_stringify : json -> string.
Variable JSON_parse : string -> Result json.
Variable toFixed3 : float -> string.
Variable cwd : string.
Variable CODE_COMMIT NODE_ENV : option string.

Lemma preserves_hash_file (path : string) : preserves (hash_file sha256 cwd path).
Proof. intros w r w' [= _ <-]. reflexivity. Qed.

Lemma preserves_ensureStorage : preserves (ensureStorage cwd).
Proof.
  intros w r w'. unfold ensureStorage.
  destruct (negb _); [apply preserves_on_fs | intros [= _ <-]; reflexivity].
Qed.

Lemma preserves_writeFileRel (relPath data : string) :
  preserves (writeFileRel cwd relPath data).
Proof.
  unfold writeFileRel.
  repeat (apply preserves_bind; [| intros ?]);
    auto using preserves_ensureStorage, preserves_on_fs, preserves_ret.
Qed.

(** The insertion changes the table only when it returns. *)
Lemma guards_insert (runId schemaVersion uri checksum : string) :
  guards (insert runId schemaVersion uri checksum).
Proof.
  intros w e w'. unfold insert.
  destruct (insert_package _ _ _ _ _) as [[row db'] | e1]; [discriminate |].
  intros [= _ <-]. reflexivity.
Qed.

(** Whatever makes an export throw, the package table is left as it was:
    the row is inserted by the last step that can fail. *)
Lemma export_guards (clock : Clock) (plotId : string) :
  guards (exportMRVPackage sha256 JSON_stringify toFixed3 cwd CODE_COMMIT NODE_ENV
            clock plotId).
Proof.
  unfold exportMRVPackage.
  apply guards_bind; [apply preserves_ensureStorage | intros _].
  apply guards_bind; [apply preserves_query | intros plotRows].
  destruct plotRows as [| plot _]; [apply guards_of_preserves, preserves_throw |].
  apply guards_bind; [apply preserves_query | intros trees].
  do 4 (apply guards_bind; [apply preserves_writeFileRel | intros _]).
  apply guards_bind.
  { apply preserves_rethrow.
    repeat (apply preserves_bind; [apply preserves_hash_file | intros ?]).
    apply preserves_ret. }
  intros files.
  apply guards_bind; [apply preserves_writeFileRel | intros _].
  apply guards_bind; [apply preserves_query | intros runRows].
  apply guards_bind_ret, guards_insert.
Qed.

(** *** What a successful step leaves behind *)

Lemma query_Ok {A} (q : Database -> Result A) w a w' :
  query q w = (Ok a, w') -> w' = w /\ q (db w) = Ok a.
Proof. unfold query. intros [= H <-]. now split. Qed.

Lemma on_fs_Ok (f : FS.t -> Result FS.t) w u w' :
  on_fs f w = (Ok u, w') ->
  db w' = db w /\ f (fs w) = Ok (fs w').
Proof.
  unfold on_fs. destruct (f (fs w)) as [fs' | e]; [| discriminate].
  intros [= _ <-]. now split.
Qed.

Lemma mkdirSync_Ok (fs fs' : FS.t) (p : string) :
  FS.mkdirSync fs p = Ok fs' ->
  FS.files fs' = FS.files fs
  /\ (forall q, q ∈ FS.dirs fs -> q ∈ FS.dirs fs')
  /\ p ∈ FS.dirs fs'.
Proof.
  unfold FS.mkdirSync. destruct (List.existsb _ _); [discriminate |].
  intros [= <-]. cbn. repeat split.
  - intros q Hq. apply elem_of_union_l, Hq.
  - apply elem_of_union_r, elem_of_list_to_set, elem_of_app. right.
    apply list_elem_of_singleton. reflexivity.
Qed.

Lemma writeFileSync_Ok (fs fs' : FS.t) (p data : string) :
  FS.writeFileSync fs p data = Ok fs' ->
  FS.files fs' = <[ p := data ]> (FS.files fs) /\ FS.dirs fs' = FS.dirs fs.
Proof.
  unfold FS.writeFileSync. destruct (FS.is_dir fs p); [discriminate |].
  destruct (negb _); [discriminate |]. intros [= <-]. now split.
Qed.

Lemma ensureStorage_Ok w u w' :
  ensureStorage cwd w = (Ok u, w') ->
  db w' = db w
  /\ FS.files (fs w') = FS.files (fs w)
  /\ (forall q, q ∈ FS.dirs (fs w) -> q ∈ FS.dirs (fs w')).
Proof.
  unfold ensureStorage. destruct (negb _).
  - intros H. apply on_fs_Ok in H as [Hdb H].
    apply mkdirSync_Ok in H as (Hf & Hd & _). auto.
  - intros [= _ <-]. auto.
Qed.

(** A successful [writeFileRel] stores the data under the storage root, in
    a directory that exists afterwards, and removes nothing. *)
Lemma writeFileRel_Ok (relPath data : string) w u w' :
  writeFileRel cwd relPath data w = (Ok u, w') ->
  db w' = db w
  /\ FS.files (fs w') = <[ Path.join (BASE cwd) relPath := data ]> (FS.files (fs w))
  /\ (forall q, q ∈ FS.dirs (fs w) -> q ∈ FS.dirs (fs w'))
  /\ Path.dirname (Path.join (BASE cwd) relPath) ∈ FS.dirs (fs w').
Proof.
  unfold writeFileRel. intros H.
  apply bind_Ok in H as (u1 & w1 & H1 & H).
  apply bind_Ok in H as (u2 & w2 & H2 & H).
  apply bind_Ok in H as (u3 & w3 & H3 & H).
  injection H as _ <-.
  apply ensureStorage_Ok in H1 as (Hdb1 & Hf1 & Hd1).
  apply on_fs_Ok in H2 as [Hdb2 H2]. apply mkdirSync_Ok in H2 as (Hf2 & Hd2 & Hin2).
  apply on_fs_Ok in H3 as [Hdb3 H3]. apply writeFileSync_Ok in H3 as (Hf3 & Hd3).
  repeat split.
  - now rewrite Hdb3, Hdb2.
  - now rewrite Hf3, Hf2, Hf1.
  - intros q Hq. rewrite Hd3. auto.
  - now rewrite Hd3.
Qed.

(** A file hashes to the digest of its content. *)
Lemma sha256OfFile_Ok (fs : FS.t) (path h : string) :
  sha256OfFile sha256 cwd fs path = Ok h <->
  exists c, FS.files fs !! resolve cwd path = Some c /\ h = sha256 c.
Proof.
  unfold sha256OfFile, FS.existsSync, FS.is_file, FS.readFileSync.
  destruct (FS.files fs !! resolve cwd path) as [c |] eqn:E.
  - rewrite bool_decide_eq_true_2 by eauto. cbn. split.
    + intros [= <-]. eauto.
    + intros (c' & [= <-] & ->). reflexivity.
  - rewrite bool_decide_eq_false_2 by (intros [? ?]; discriminate). cbn. split.
    + destruct (FS.is_dir fs (resolve cwd path)); discriminate.
    + intros (c' & [=] & _).
Qed.

Lemma hash_file_Ok (path h : string) w w' :
  hash_file sha256 cwd path w = (Ok h, w') ->
  w' = w /\ exists c, FS.files (fs w) !! resolve cwd path = Some c /\ h = sha256 c.
Proof.
  unfold hash_file. intros [= H <-]. split; [reflexivity |].
  now apply sha256OfFile_Ok.
Qed.

Lemma rethrow_Ok {A} (h : string -> string) (m : M A) w a w' :
  rethrow h m w = (Ok a, w') -> m w = (Ok a, w').
Proof.
  unfold rethrow. destruct (m w) as [[a1 | e] w1]; [| discriminate].
  now intros [= <- <-].
Qed.

(** A successful insertion appends one row, with the values given and an
    id no earlier row has. *)
Lemma insert_Ok (runId schemaVersion uri checksum : string) w row w' :
  insert runId schemaVersion uri checksum w = (Ok row, w') ->
  fs w' = fs w
  /\ MRVPackage (db w') = (MRVPackage (db w) ++ [row])%list
  /\ pkg_artifactsUri row = uri
  /\ pkg_checksum row = checksum
  /\ pkg_ledgerTxId row = None
  /\ (forall r, In r (MRVPackage (db w)) -> String.eqb (pkg_id r) (pkg_id row) = false).
Proof.
  unfold insert, insert_package.
  destruct (default_id (db w) (MRVPackage (db w))) as [id | e]; [| discriminate].
  destruct (List.existsb _ _) eqn:Hex; [discriminate |].
  intros [= <- <-]. cbn. repeat split.
  intros r Hr. destruct (String.eqb (pkg_id r) id) eqn:E; [| reflexivity].
  rewrite <- Hex. symmetry. apply List.existsb_exists. eauto.
Qed.

Lemma resolve_storage (p : string) :
  resolve cwd ("storage/" ++ p) = artifact cwd p.
Proof.
  unfold resolve, artifact, Path.join, Path.is_absolute.
  change ("storage/" ++ p)%string with (String "s" ("torage/" ++ p)).
  cbn [String.prefix]. destruct (ascii_dec "/" "s"); [discriminate |].
  rewrite !PathFacts.app_assoc. reflexivity.
Qed.

(** The checksum file is none of the artifacts. *)
Lemma checksums_not_artifact (relB p : string) :
  In p (artifact_paths relB) ->
  Path.join (BASE cwd) (Path.join relB "checksums.json") <> artifact cwd p.
Proof.
  unfold artifact_paths, artifact, BASE, Path.join.
  intros [<- | [<- | [<- | [<- | []]]]];
    rewrite !PathFacts.app_assoc; repeat apply PathFacts.app_neq; discriminate.
Qed.

(** What a successful export leaves behind: the artifacts with the digests
    recorded for them, the checksum file, the package folder, and one new
    row that holds the top-level hash. *)
Lemma export_Ok (clock : Clock) (plotId : string) w r w' :
  exportMRVPackage sha256 JSON_stringify toFixed3 cwd CODE_COMMIT NODE_ENV
    clock plotId w = (Ok r, w') ->
  exists files row,
    Forall (digest_of_file sha256 cwd (fs w')) files
    /\ List.map fst files = artifact_paths (relBase r)
    /\ FS.files (fs w') !! Path.join (artifact cwd (relBase r)) "checksums.json"
       = Some (JSON_stringify (checksums_doc files))
    /\ artifact cwd (relBase r) ∈ FS.dirs (fs w')
    /\ topHash r = top_hash sha256 files
    /\ MRVPackage (db w') = (MRVPackage (db w) ++ [row])%list
    /\ pkg_id row = pkgId r
    /\ pkg_checksum row = topHash r
    /\ pkg_ledgerTxId row = None
    /\ pkg_artifactsUri row = ("file://" ++ artifact cwd (relBase r))%string
    /\ (forall r0, In r0 (MRVPackage (db w)) ->
          String.eqb (pkg_id r0) (pkg_id row) = false).
Proof.
  clear JSON_parse.
  intros H. unfold exportMRVPackage in H.
  apply bind_Ok in H as (u0 & w1 & E0 & H).
  apply bind_Ok in H as (plotRows & w1' & Eq1 & H).
  apply query_Ok in Eq1 as [-> Hplot].
  destruct plotRows as [| plot rest]; [discriminate H |].
  apply bind_Ok in H as (trees & w1' & Eq2 & H).
  apply query_Ok in Eq2 as [-> Htrees].
  cbv zeta in H.
  set (relB := Path.join "packages" _) in H.
  pose proof (files_literal relB) as Hlit.
  pose proof (checksums_not_artifact relB) as Hne.
  unfold artifact_paths in Hlit, Hne.
  apply bind_Ok in H as (u1 & w2 & W1 & H).
  apply bind_Ok in H as (u2 & w3 & W2 & H).
  apply bind_Ok in H as (u3 & w4 & W3 & H).
  apply bind_Ok in H as (u4 & w5 & W4 & H).
  apply bind_Ok in H as (files & w5' & Hh & H).
  apply rethrow_Ok in Hh.
  apply bind_Ok in Hh as (h1 & ? & Hh1 & Hh).
  apply hash_file_Ok in Hh1 as [-> (c1 & L1 & ->)].
  apply bind_Ok in Hh as (h2 & ? & Hh2 & Hh).
  apply hash_file_Ok in Hh2 as [-> (c2 & L2 & ->)].
  apply bind_Ok in Hh as (h3 & ? & Hh3 & Hh).
  apply hash_file_Ok in Hh3 as [-> (c3 & L3 & ->)].
  apply bind_Ok in Hh as (h4 & ? & Hh4 & Hh).
  apply hash_file_Ok in Hh4 as [-> (c4 & L4 & ->)].
  rewrite Hlit in Hh. injection Hh as <- <-.
  rewrite resolve_storage in L1, L2, L3, L4.
  apply bind_Ok in H as (u5 & w6 & WC & H).
  apply bind_Ok in H as (runRows & w6' & Eq3 & H).
  apply query_Ok in Eq3 as [-> Hrun].
  apply bind_Ok in H as (row & w7 & Hins & H).
  injection H as <- <-.
  apply ensureStorage_Ok in E0 as (B0 & _ & _).
  apply writeFileRel_Ok in W1 as (B1 & _ & _ & _).
  apply writeFileRel_Ok in W2 as (B2 & _ & _ & _).
  apply writeFileRel_Ok in W3 as (B3 & _ & _ & D3).
  apply writeFileRel_Ok in W4 as (B4 & _ & M4 & _).
  apply writeFileRel_Ok in WC as (BC & FC & MC & _).
  apply insert_Ok in Hins as (Hfs & Hrows & Huri & Hsum & Htx & Hfresh).
  rewrite BC, B4, B3, B2, B1, B0 in Hrows, Hfresh.
  clear Hlit.
  set (p1 := Path.join (Path.join relB "inputs") "trees.json") in *.
  set (p2 := Path.join (Path.join relB "outputs") "estimates.json") in *.
  set (p3 := Path.join relB "manifest.json") in *.
  set (p4 := Path.join (Path.join relB "reports") "summary.md") in *.
  exists [(p1, sha256 c1); (p2, sha256 c2); (p3, sha256 c3); (p4, sha256 c4)], row.
  cbn [relBase topHash pkgId]. rewrite Hfs.
  assert (Hkeep : forall p c,
             In p [p1; p2; p3; p4] ->
             FS.files (fs w5) !! artifact cwd p = Some c ->
             FS.files (fs w6) !! artifact cwd p = Some c).
  { intros p c Hp Hc. rewrite FC, lookup_insert_ne; [exact Hc |]. now apply Hne. }
  split.
  { repeat constructor; eexists;
      (split; [apply Hkeep; [cbn; tauto | eassumption] | reflexivity]). }
  split; [reflexivity |].
  split.
  { rewrite FC.
    replace (Path.join (artifact cwd relB) "checksums.json")
      with (Path.join (BASE cwd) (Path.join relB "checksums.json"))
      by (unfold artifact, BASE, Path.join; now rewrite !PathFacts.app_assoc).
    apply lookup_insert_eq. }
  split.
  { apply MC, M4.
    replace (artifact cwd relB)
      with (Path.dirname (Path.join (BASE cwd) p3)); [exact D3 |].
    replace (Path.join (BASE cwd) p3)
      with (Path.join (artifact cwd relB) "manifest.json")
      by (unfold p3, artifact, BASE, Path.join; now rewrite !PathFacts.app_assoc).
    now apply PathFacts.dirname_join. }
  repeat split; try assumption; try reflexivity.
Qed.

(** *** The verify handler *)

Lemma existsSync_ext (fs1 fs2 : FS.t) (p : string) :
  FS.dirs fs1 = FS.dirs fs2 ->
  (is_Some (FS.files fs1 !! p) <-> is_Some (FS.files fs2 !! p)) ->
  FS.existsSync fs1 p = FS.existsSync fs2 p.
Proof.
  intros Hd Hf. unfold FS.existsSync, FS.is_file, FS.is_dir. rewrite Hd.
  f_equal. apply bool_decide_ext, Hf.
Qed.

Lemma sha256OfFile_ext (fs1 fs2 : FS.t) (path : string) :
  FS.dirs fs1 = FS.dirs fs2 ->
  FS.files fs1 !! resolve cwd path = FS.files fs2 !! resolve cwd path ->
  sha256OfFile sha256 cwd fs1 path = sha256OfFile sha256 cwd fs2 path.
Proof.
  intros Hd Hf. unfold sha256OfFile, FS.readFileSync.
  rewrite (existsSync_ext fs1 fs2) by (auto; now rewrite Hf).
  unfold FS.is_dir. now rewrite Hf, Hd.
Qed.

(** C10: the verification reads the keys of [checksums.json] only.  Two
    worlds with the same package record, the same directories and files,
    the same content of every artifact a key names, and checksum files that
    parse to the same set of keys get the same answer, whatever digests the
    two checksum files record. *)
Theorem C10_digests_not_read (pkgId : string) (w1 w2 : World)
    (pkg : MRVPackageRow) (rest : list MRVPackageRow)
    (text1 text2 : string) (j1 j2 : json) (f1 f2 : option json)
    (keys1 keys2 : list string) :
  db w1 = db w2 ->
  FS.dirs (fs w1) = FS.dirs (fs w2) ->
  (forall p, is_Some (FS.files (fs w1) !! p) <-> is_Some (FS.files (fs w2) !! p)) ->
  select_package (db w1) pkgId = pkg :: rest ->
  let checksumPath :=
    resolve cwd (Path.join (replace (pkg_artifactsUri pkg) "file://" "")
                           "checksums.json") in
  FS.files (fs w1) !! checksumPath = Some text1 ->
  FS.files (fs w2) !! checksumPath = Some text2 ->
  JSON_parse text1 = Ok j1 -> JSON_parse text2 = Ok j2 ->
  Obj.prop j1 "files" = Ok f1 -> Obj.prop j2 "files" = Ok f2 ->
  Obj.keys f1 = Ok keys1 -> Obj.keys f2 = Ok keys2 ->
  keys1 ≡ₚ keys2 ->
  (forall k, In k keys1 ->
     FS.files (fs w1) !! resolve cwd (artifact cwd k)
     = FS.files (fs w2) !! resolve cwd (artifact cwd k)) ->
  get_verify sha256 JSON_parse cwd pkgId w1
  = get_verify sha256 JSON_parse cwd pkgId w2.
Proof.
  intros Hdb Hdirs Hfiles Hsel cp Ht1 Ht2 Hj1 Hj2 Hf1 Hf2 Hk1 Hk2 Hperm Hart.
  unfold get_verify. rewrite <- Hdb, Hsel.
  rewrite <- !(existsSync_ext (fs w1) (fs w2)) by auto.
  fold cp. unfold FS.readFileSync. rewrite Ht1, Ht2.
  unfold recompute, checksum_keys.
  rewrite Hj1, Hj2, Hf1, Hf2, Hk1, Hk2, <- (sort_Permutation keys1 keys2 Hperm).
  rewrite (map_result_ext
             (fun k => sha256OfFile sha256 cwd (fs w2) (Path.join (Path.join cwd "storage") k))
             (fun k => sha256OfFile sha256 cwd (fs w1) (Path.join (Path.join cwd "storage") k)));
    [reflexivity |].
  intros k Hk. symmetry. apply sha256OfFile_ext; [exact Hdirs |].
  apply Hart, In_sort, Hk.
Qed.

(** C6, amended: when the plot id does not resolve, the export throws
    [Plot not found] and the route answers 500 with that message, after the
    storage root was ensured and nothing else was touched; whatever makes
    an export throw, no package row is inserted and the route answers 500;
    and a row is inserted only with the four artifacts and the checksum
    file on disk. *)
Theorem C6_export_failures (clock : Clock) (now plotId : string) (w : World) :
  (forall u w1,
     ensureStorage cwd w = (Ok u, w1) ->
     select_plot (db w) plotId = Ok [] ->
     exportMRVPackage sha256 JSON_stringify toFixed3 cwd CODE_COMMIT NODE_ENV
       clock plotId w = (Throw "Plot not found", w1)
     /\ post_export sha256 JSON_stringify toFixed3 cwd CODE_COMMIT NODE_ENV
          clock now plotId w
        = ({| status := 500; body := ErrorBody "Plot not found" |}, w1)
     /\ db w1 = db w
     /\ FS.files (fs w1) = FS.files (fs w))
  /\ (forall e w',
        exportMRVPackage sha256 JSON_stringify toFixed3 cwd CODE_COMMIT NODE_ENV
          clock plotId w = (Throw e, w') ->
        MRVPackage (db w') = MRVPackage (db w)
        /\ post_export sha256 JSON_stringify toFixed3 cwd CODE_COMMIT NODE_ENV
             clock now plotId w
           = ({| status := 500;
                 body := ErrorBody (message_or e "Failed to export MRV package") |},
              w'))
  /\ (forall r w',
        exportMRVPackage sha256 JSON_stringify toFixed3 cwd CODE_COMMIT NODE_ENV
          clock plotId w = (Ok r, w') ->
        (forall p, In p (artifact_paths (relBase r)) ->
                   is_Some (FS.files (fs w') !! artifact cwd p))
        /\ is_Some (FS.files (fs w')
                      !! Path.join (artifact cwd (relBase r)) "checksums.json")
        /\ exists row,
             MRVPackage (db w') = (MRVPackage (db w) ++ [row])%list
             /\ pkg_checksum row = topHash r).
Proof.
  split; [| split].
  - intros u w1 Hens Hplot.
    pose proof (ensureStorage_Ok w u w1 Hens) as (Hdb & Hf & _).
    assert (Hexp : exportMRVPackage sha256 JSON_stringify toFixed3 cwd CODE_COMMIT
                     NODE_ENV clock plotId w = (Throw "Plot not found", w1)).
    { unfold exportMRVPackage, mbind, M_bind. rewrite Hens.
      unfold query. rewrite Hdb, Hplot. reflexivity. }
    repeat split; try assumption.
    unfold post_export, mbind, M_bind. now rewrite Hexp.
  - intros e w' Hexp. split; [exact (export_guards clock plotId w e w' Hexp) |].
    unfold post_export, mbind, M_bind. now rewrite Hexp.
  - intros r w' Hexp.
    destruct (export_Ok clock plotId w r w' Hexp)
      as (files & row & Hall & Hkeys & Hfile & _ & _ & Hrows & _ & Hsum & _).
    split; [| split; [rewrite Hfile; eauto | eauto]].
    intros p Hp. rewrite <- Hkeys in Hp.
    apply List.in_map_iff in Hp as ([k v] & <- & Hkv).
    rewrite List.Forall_forall in Hall.
    destruct (Hall _ Hkv) as (c & Hc & _). cbn in Hc |- *. rewrite Hc. eauto.
Qed.

Hypothesis cwd_absolute : Path.is_absolute cwd = true.

Lemma artifact_absolute (k : string) : Path.is_absolute (artifact cwd k) = true.
Proof.
  unfold artifact, Path.join.
  apply PathFacts.is_absolute_app, PathFacts.is_absolute_app, cwd_absolute.
Qed.

Lemma resolve_artifact (k : string) : resolve cwd (artifact cwd k) = artifact cwd k.
Proof. unfold resolve. now rewrite artifact_absolute. Qed.

(** The answer of the verify handler for a package whose folder and
    checksum file exist and whose listed artifacts can all be hashed. *)
Lemma verify_200 (w : World) (id relB text : string) (pkg : MRVPackageRow)
    (rest : list MRVPackageRow) (keys : list string) (digest : string -> string) :
  select_package (db w) id = pkg :: rest ->
  pkg_artifactsUri pkg = ("file://" ++ artifact cwd relB)%string ->
  artifact cwd relB ∈ FS.dirs (fs w) ->
  FS.files (fs w) !! Path.join (artifact cwd relB) "checksums.json" = Some text ->
  checksum_keys JSON_parse text = Ok keys ->
  (forall k, In k keys -> sha256OfFile sha256 cwd (fs w) (artifact cwd k) = Ok (digest k)) ->
  get_verify sha256 JSON_parse cwd id w
  = {| status := 200;
       body := VerifyBody id (pkg_checksum pkg)
                 (sha256 (join "|" (List.map digest keys)))
                 (String.eqb (pkg_checksum pkg) (sha256 (join "|" (List.map digest keys))))
                 (pkg_ledgerTxId pkg) |}.
Proof.
  intros Hsel Huri Hdir Hfile Hkeys Hdig.
  unfold get_verify. rewrite Hsel, Huri, PathFacts.replace_prefix.
  assert (Hcp : resolve cwd (Path.join (artifact cwd relB) "checksums.json")
                = Path.join (artifact cwd relB) "checksums.json").
  { unfold resolve, Path.join at 1.
    now rewrite PathFacts.is_absolute_app by apply artifact_absolute. }
  rewrite resolve_artifact, Hcp.
  unfold FS.existsSync at 1, FS.is_dir.
  rewrite (bool_decide_eq_true_2 _ Hdir), orb_true_r. cbn [negb].
  unfold FS.existsSync, FS.is_file, FS.readFileSync. rewrite Hfile.
  rewrite bool_decide_eq_true_2 by eauto. cbn [orb negb].
  unfold recompute. rewrite Hkeys.
  rewrite (map_result_Ok _ digest) by exact Hdig.
  reflexivity.
Qed.

Hypothesis parse_stringify :
  forall files,
    JSON_parse (JSON_stringify (checksums_doc files)) = Ok (checksums_doc files).

Lemma checksum_keys_doc (files : list (string * string)) :
  checksum_keys JSON_parse (JSON_stringify (checksums_doc files))
  = Ok (sort (List.map fst files)).
Proof.
  unfold checksum_keys. rewrite parse_stringify. cbn.
  now rewrite List.map_map.
Qed.


Lemma digest_of_listed (fs0 : FS.t) (files : list (string * string)) (k : string) :
  Forall (digest_of_file sha256 cwd fs0) files ->
  In k (sort (List.map fst files)) ->
  sha256OfFile sha256 cwd fs0 (artifact cwd k)
  = Ok (default EmptyString (Obj.get files k)).
Proof.
  intros Hall Hk. apply In_sort in Hk.
  destruct (get_key files k Hk) as (v & Hv). rewrite Hv. cbn.
  apply get_In in Hv. rewrite List.Forall_forall in Hall.
  destruct (Hall _ Hv) as (c & Hc & Hd). cbn in Hc, Hd.
  apply sha256OfFile_Ok. rewrite resolve_artifact. eauto.
Qed.

(** C4: an export followed by the verification of the package it returned
    answers [matches = true]: the export hashes the digests of the four
    artifacts in the order of the sorted keys, joined by a bar, and the
    verification recomputes the same digests from the files, sorts the same
    keys, joins and hashes the same way. *)
Theorem C4_export_then_verify (clock : Clock) (plotId : string) w r w' :
  exportMRVPackage sha256 JSON_stringify toFixed3 cwd CODE_COMMIT NODE_ENV
    clock plotId w = (Ok r, w') ->
  get_verify sha256 JSON_parse cwd (pkgId r) w'
  = {| status := 200;
       body := VerifyBody (pkgId r) (topHash r) (topHash r) true None |}
  /\ exists files,
       List.map fst files = artifact_paths (relBase r)
       /\ Forall (digest_of_file sha256 cwd (fs w')) files
       /\ topHash r
          = sha256 (join "|" (List.map (fun k => default EmptyString (Obj.get files k))
                                       (sort (List.map fst files)))).
Proof.
  intros H.
  destruct (export_Ok clock plotId w r w' H)
    as (files & row & Hall & Hkeys & Hfile & Hdir & Htop & Hrows & Hid & Hsum
        & Htx & Huri & Hfresh).
  split; [| exists files; auto].
  rewrite <- Hid.
  rewrite (verify_200 w' (pkg_id row) (relBase r)
             (JSON_stringify (checksums_doc files)) row []
             (sort (List.map fst files))
             (fun k => default EmptyString (Obj.get files k))).
  - rewrite Hsum, Htx, Htop. unfold top_hash, sha256OfString.
    now rewrite String.eqb_refl.
  - now apply select_fresh with (old := MRVPackage (db w)).
  - exact Huri.
  - exact Hdir.
  - exact Hfile.
  - apply checksum_keys_doc.
  - intros k Hk. now apply digest_of_listed.
Qed.


End Service.

End MRVFacts.

(** *** The sample codec reads back what it prints *)

Module SampleFacts.

Import MRV SampleMRV.

Ltac flatten :=
  repeat (rewrite PathFacts.app_assoc || rewrite PathFacts.app_cons
          || rewrite PathFacts.app_nil_l).

Lemma read_string_escape (s rest : string) :
  read_string (escape s ++ String dq rest) = Some (s, rest).
Proof.
  induction s as [| c s IH]; [reflexivity |].
  cbn [escape]. destruct (Ascii.eqb c dq || Ascii.eqb c bs) eqn:E; flatten.
  - cbn [read_string]. change (Ascii.eqb bs dq) with false.
    change (Ascii.eqb bs bs) with true. cbn match. now rewrite IH.
  - apply orb_false_elim in E as [E1 E2].
    cbn [read_string]. now rewrite E1, E2, IH.
Qed.

Lemma read_members_print (files : list (string * string)) (kv : string * string)
    (fuel : nat) (rest : string) :
  (List.length files < fuel)%nat ->
  read_members fuel (join "," (List.map member (kv :: files)) ++ String "}" rest)
  = Some (List.map prop_of (kv :: files), rest).
Proof.
  revert kv fuel. induction files as [| kv' files IH]; intros [k v] fuel Hfuel;
    (destruct fuel as [| fuel]; [inversion Hfuel |]).
  - cbn [List.map join String.concat]. unfold member, quote. cbn [fst snd]. flatten.
    cbn [read_members]. change (Ascii.eqb dq dq) with true. cbn match.
    rewrite read_string_escape. cbn match.
    change (Ascii.eqb ":" ":" && Ascii.eqb dq dq) with true. cbn match.
    rewrite read_string_escape. reflexivity.
  - change (join "," (List.map member ((k, v) :: kv' :: files)))
      with (member (k, v) ++ "," ++ join "," (List.map member (kv' :: files)))%string.
    unfold member at 1, quote. cbn [fst snd]. flatten.
    cbn [read_members]. change (Ascii.eqb dq dq) with true. cbn match.
    rewrite read_string_escape. cbn match.
    change (Ascii.eqb ":" ":" && Ascii.eqb dq dq) with true. cbn match.
    rewrite read_string_escape. cbn match.
    change (Ascii.eqb "," ",") with true. cbn match.
    rewrite IH by (cbn in Hfuel; lia). reflexivity.
Qed.

Lemma length_app (a b : string) :
  String.length (a ++ b) = (String.length a + String.length b)%nat.
Proof. induction a as [| c a IH]; [reflexivity |]. flatten. cbn. now rewrite IH. Qed.

Lemma length_member (kv : string * string) : (1 <= String.length (member kv))%nat.
Proof. unfold member, quote. flatten. cbn [String.length]. lia. Qed.

Lemma length_members (files : list (string * string)) :
  (List.length files <= String.length (join "," (List.map member files)))%nat.
Proof.
  induction files as [| [k v] files IH]; [cbn; lia |].
  destruct files as [| kv' files].
  - pose proof (length_member (k, v)). cbn [List.map join String.concat List.length]. lia.
  - change (join "," (List.map member ((k, v) :: kv' :: files)))
      with (member (k, v) ++ "," ++ join "," (List.map member (kv' :: files)))%string.
    rewrite !length_app. change (String.length ",") with 1%nat.
    cbn [List.length] in *. lia.
Qed.

Lemma stringify_doc (files : list (string * string)) :
  stringify (checksums_doc files)
  = ("{" ++ quote "files" ++ ":" ++ "{"
     ++ join "," (List.map member files) ++ "}" ++ "}")%string.
Proof.
  unfold checksums_doc. cbn [stringify List.map join String.concat fst snd].
  rewrite List.map_map. flatten. reflexivity.
Qed.

Lemma members_head (kv : string * string) (files : list (string * string)) :
  exists tail, join "," (List.map member (kv :: files)) = String dq tail.
Proof.
  destruct files as [| kv' files].
  - cbn [List.map join String.concat]. unfold member, quote. flatten. eauto.
  - change (join "," (List.map member (kv :: kv' :: files)))
      with (member kv ++ "," ++ join "," (List.map member (kv' :: files)))%string.
    unfold member at 1, quote. flatten. eauto.
Qed.

Lemma read_object_print (files : list (string * string)) (rest : string) :
  read_object (String "{" (join "," (List.map member files) ++ String "}" rest))
  = Some (List.map prop_of files, rest).
Proof.
  destruct files as [| kv files]; [reflexivity |].
  destruct (members_head kv files) as (tail & Htail).
  pose proof (length_members (kv :: files)) as Hlen.
  pose proof (read_members_print files kv) as Hread.
  set (J := join "," (List.map member (kv :: files))) in *.
  assert (Hfuel : (List.length files
                   < String.length (String "{" (J ++ String "}" rest)))%nat).
  { cbn [String.length]. rewrite length_app. cbn [List.length] in Hlen. lia. }
  specialize (Hread _ rest Hfuel).
  destruct (J ++ String "}" rest)%string as [| c s0] eqn:E.
  - rewrite Htail in E. discriminate E.
  - assert (c = dq) as -> by (rewrite Htail in E; now injection E).
    unfold read_object.
    change (Ascii.eqb "{" "{" && Ascii.eqb dq "}") with false.
    change (Ascii.eqb "{" "{") with true. cbn match. exact Hread.
Qed.

(** The sample parser reads back every checksum document the sample
    printer writes. *)
Lemma sample_parse_stringify (files : list (string * string)) :
  parse (stringify (checksums_doc files)) = Ok (checksums_doc files).
Proof.
  rewrite stringify_doc. unfold quote at 1. flatten.
  unfold parse. change (Ascii.eqb "{" "{" && Ascii.eqb dq dq) with true. cbn match.
  rewrite (read_string_escape "files"). cbn match.
  change (Ascii.eqb ":" ":") with true. cbn match.
  rewrite read_object_print. reflexivity.
Qed.

End SampleFacts.

(** ** Examples on the sample world *)

Module MRVExamples.

Import MRV MRVSpec SampleMRV.

Lemma sample_cwd_absolute : Path.is_absolute cwd = true.
Proof. reflexivity. Qed.

Lemma sample_export :
  export "plot-1" world
  = (Ok {| pkgId := "pkg-0"; topHash := "h19";
           artifactsUri := ("file://" ++ package_folder)%string;
           relBase := "packages/mrv_pkg_plot-1_20250823T053158Z" |},
     exported).
Proof.
  unfold exported. destruct (export "plot-1" world) as [res w'] eqn:E.
  apply (f_equal fst) in E. cbn [fst snd] in *. vm_compute in E. now subst res.
Qed.

Lemma C4_export_then_verify_witness :
  verify "pkg-0" exported
  = {| status := 200; body := VerifyBody "pkg-0" "h19" "h19" true None |}.
Proof.
  exact (proj1 (MRVFacts.C4_export_then_verify digest stringify parse toFixed3 cwd
                  None None sample_cwd_absolute SampleFacts.sample_parse_stringify
                  clock "plot-1" world _ exported sample_export)).
Defined.

Lemma sample_ensureStorage :
  exists w1, ensureStorage cwd world = (Ok tt, w1).
Proof. eexists. vm_compute. reflexivity. Qed.

Lemma C6_export_failures_witness :
  fst (post_export digest stringify toFixed3 cwd None None clock "1700000000000"
         "plot-x" world)
  = {| status := 500; body := ErrorBody "Plot not found" |}.
Proof.
  destruct (ensureStorage cwd world) as [[u | e] w1] eqn:E;
    [| vm_compute in E; discriminate E].
  destruct (proj1 (MRVFacts.C6_export_failures digest stringify toFixed3 cwd
                     None None clock "1700000000000" "plot-x" world) u w1 E eq_refl)
    as (_ & Hpost & _).
  now rewrite Hpost.
Defined.

Lemma sample_missing_plot_status :
  status (fst (post_export digest stringify toFixed3 cwd None None clock
                 "1700000000000" "plot-x" world)) = 500%nat.
Proof. vm_compute. reflexivity. Qed.

(** C6 as worded fails: for a plot id that does not resolve the route
    answers 500, not a 4xx status. *)
Lemma C6_client_error_counterexample : ~ missing_plot_is_client_error.
Proof.
  intros H.
  destruct (H digest stringify toFixed3 cwd None None clock "1700000000000"%string
              "plot-x"%string world eq_refl) as [[_ Hlt] _].
  rewrite sample_missing_plot_status in Hlt. lia.
Qed.

Lemma C10_digests_not_read_witness :
  verify "pkg-0" exported = verify "pkg-0" forged.
Proof.
  unfold verify.
  eapply (MRVFacts.C10_digests_not_read digest parse cwd "pkg-0" exported forged).
  - reflexivity.
  - reflexivity.
  - intros p. unfold forged. cbn [fs FS.files].
    rewrite lookup_insert_is_Some'. split; [auto |].
    intros [<- | H]; [| exact H]. eexists. vm_compute. reflexivity.
  - vm_compute. reflexivity.
  - vm_compute. reflexivity.
  - vm_compute. reflexivity.
  - vm_compute. reflexivity.
  - vm_compute. reflexivity.
  - vm_compute. reflexivity.
  - vm_compute. reflexivity.
  - vm_compute. reflexivity.
  - vm_compute. reflexivity.
  - apply perm_swap.
  - intros k [<- | [<- | [<- | [<- | []]]]]; vm_compute; reflexivity.
Defined.

(** The forged checksum file records other digests, yet the answer is the
    one of the untouched package. *)
Example forged_still_matches :
  verify "pkg-0" forged
  = {| status := 200; body := VerifyBody "pkg-0" "h19" "h19" true None |}.
Proof. vm_compute. reflexivity. Qed.

(** The failed export is not without effect either: it has created the
    storage root. *)
Example missing_plot_creates_storage :
  FS.is_dir (fs world) "/srv/api/storage" = false
  /\ FS.is_dir (fs (snd (post_export digest stringify toFixed3 cwd None None clock
                           "1700000000000" "plot-x" world)))
               "/srv/api/storage" = true.
Proof. split; vm_compute; reflexivity. Qed.

End MRVExamples.

(* ================================================================== *)
(** * Further properties of the code *)

(** ** Storage and hashing ([utils/storage.ts], [utils/hash.ts]) *)

Module StorageFacts.

Import MRV MRVSpec StorageSpec.

Lemma app_inv_tail (a b x : string) : a ++ x = b ++ x -> a = b.
Proof.
  revert b. induction a as [| c a IH]; intros [| c' b] H.
  - reflexivity.
  - apply (f_equal String.length) in H.
    rewrite PathFacts.app_nil_l, PathFacts.app_cons in H. cbn [String.length] in H.
    rewrite SampleFacts.length_app in H. lia.
  - apply (f_equal String.length) in H.
    rewrite PathFacts.app_nil_l, PathFacts.app_cons in H. cbn [String.length] in H.
    rewrite SampleFacts.length_app in H. lia.
  - rewrite !PathFacts.app_cons in H. injection H as -> H. f_equal. now apply IH.
Qed.

Lemma join_assoc (a b c : string) :
  Path.join (Path.join a b) c = Path.join a (Path.join b c).
Proof. unfold Path.join. now rewrite !PathFacts.app_assoc. Qed.

Section Service.

Variable sha256 : string -> string.
Variable cwd : string.

(** X1: a file written by [writeFileRel] is hashed by [sha256OfFile], under
    the relative path [storage/<relPath>] the export uses, to the digest of
    the data written; [writeFileRel] returns the [file://] URI of the
    absolute path, changes no other file and leaves the database alone.
    (Paths are taken literally, as everywhere in [Path].) *)
Theorem writeFileRel_then_hash (relPath data : string) (w : World) (u : string)
    (w' : World) :
  writeFileRel cwd relPath data w = (Ok u, w') ->
  u = "file://" ++ Path.join (BASE cwd) relPath
  /\ sha256OfFile sha256 cwd (fs w') ("storage/" ++ relPath) = Ok (sha256 data)
  /\ (forall p, p <> Path.join (BASE cwd) relPath ->
        FS.files (fs w') !! p = FS.files (fs w) !! p)
  /\ db w' = db w.
Proof.
  intros H.
  pose proof (MRVFacts.writeFileRel_Ok cwd relPath data w u w' H) as (Hdb & Hf & _ & _).
  split.
  { unfold writeFileRel in H.
    apply MRVFacts.bind_Ok in H as (u1 & w1 & _ & H).
    apply MRVFacts.bind_Ok in H as (u2 & w2 & _ & H).
    apply MRVFacts.bind_Ok in H as (u3 & w3 & _ & H).
    now injection H as <- _. }
  split; [| split; [| exact Hdb]].
  - apply MRVFacts.sha256OfFile_Ok. exists data. split; [| reflexivity].
    rewrite MRVFacts.resolve_storage, Hf. apply lookup_insert_eq.
  - intros p Hp. rewrite Hf. now apply lookup_insert_ne.
Qed.

(** X2: [ensureStorage] is idempotent: once it has returned, the storage
    root exists and a second call changes nothing; it never touches a file
    or the database. *)
Theorem ensureStorage_idempotent (w : World) (u : unit) (w1 : World) :
  ensureStorage cwd w = (Ok u, w1) ->
  FS.existsSync (fs w1) (BASE cwd) = true
  /\ ensureStorage cwd w1 = (Ok tt, w1)
  /\ FS.files (fs w1) = FS.files (fs w)
  /\ db w1 = db w.
Proof.
  intros H.
  pose proof (MRVFacts.ensureStorage_Ok cwd w u w1 H) as (Hdb & Hf & _).
  assert (Hex : FS.existsSync (fs w1) (BASE cwd) = true).
  { unfold ensureStorage in H.
    destruct (FS.existsSync (fs w) (BASE cwd)) eqn:E; cbn [negb] in H.
    - now injection H as _ <-.
    - apply MRVFacts.on_fs_Ok in H as [_ H].
      apply MRVFacts.mkdirSync_Ok in H as (_ & _ & Hin).
      unfold FS.existsSync, FS.is_dir.
      rewrite (bool_decide_eq_true_2 _ Hin). apply orb_true_r. }
  repeat split; try assumption.
  unfold ensureStorage. now rewrite Hex.
Qed.

End Service.

End StorageFacts.

(** ** The verify handler on a package that was changed *)

Module VerifyFacts.

Import MRV MRVSpec StorageSpec.

(** The one key that cannot be mapped decides the error. *)
Lemma map_result_Throw {B} (f : string -> Result B) (l : list string) (p e : string) :
  In p l -> f p = Throw e ->
  (forall k, In k l -> k <> p -> exists b, f k = Ok b) ->
  map_result f l = Throw e.
Proof.
  intros Hin Hp Hok. induction l as [| k l IH]; [destruct Hin |].
  cbn [map_result].
  destruct (decide (k = p)) as [-> | Hne].
  - now rewrite Hp.
  - destruct (Hok k (or_introl eq_refl) Hne) as [b ->].
    destruct Hin as [-> | Hin]; [contradiction |].
    rewrite IH; [reflexivity | exact Hin |].
    intros k' Hk'. apply Hok. now right.
Qed.

(** Joined lists that agree everywhere but at [p] differ when the entries
    for [p] differ. *)
Lemma join_differs (sep : string) (d d' : string -> string) (l : list string)
    (p : string) :
  List.NoDup l -> In p l ->
  (forall k, In k l -> k <> p -> d' k = d k) ->
  join sep (List.map d' l) = join sep (List.map d l) ->
  d' p = d p.
Proof.
  intros Hnd Hin Hsame. induction l as [| k l IH]; [destruct Hin |].
  apply List.NoDup_cons_iff in Hnd as [Hk Hnd].
  destruct (decide (k = p)) as [-> | Hne].
  - assert (Hrest : List.map d' l = List.map d l).
    { apply List.map_ext_in. intros a Ha. apply Hsame; [now right |].
      intros ->. contradiction. }
    unfold join. cbn [List.map String.concat]. rewrite Hrest.
    destruct (List.map d l) as [| x xs]; [auto |].
    apply StorageFacts.app_inv_tail.
  - destruct Hin as [-> | Hin]; [contradiction |].
    unfold join. cbn [List.map String.concat].
    rewrite (Hsame k (or_introl eq_refl) Hne).
    destruct l as [| k2 l]; [destruct Hin |].
    cbn [List.map]. intros H.
    apply (inj (String.app (d k))), (inj (String.app sep)) in H.
    apply IH; try assumption.
    intros k' Hk'. apply Hsame. now right.
Qed.

Lemma sort_NoDup (l : list string) : List.NoDup l -> List.NoDup (sort l).
Proof.
  intros H. unfold sort.
  eapply Permutation_NoDup; [| exact H].
  symmetry. apply merge_sort_Permutation.
Qed.

Lemma In_sort_iff (l : list string) (k : string) : In k (sort l) <-> In k l.
Proof.
  unfold sort. rewrite <- !list_elem_of_In.
  now rewrite (merge_sort_Permutation String.le l).
Qed.

Lemma artifact_inj (cwd k p : string) : artifact cwd k = artifact cwd p -> k = p.
Proof.
  unfold artifact, Path.join. intros H.
  now apply (inj (String.app _)), (inj (String.app "/")) in H.
Qed.

Section Service.

Variable sha256 : string -> string.
Variable JSON_stringify : json -> string.
Variable JSON_parse : string -> Result json.
Variable toFixed3 : float -> string.
Variable cwd : string.
Variable CODE_COMMIT NODE_ENV : option string.

Hypothesis cwd_absolute : Path.is_absolute cwd = true.

(** The verify handler on a package whose folder and checksum file are on
    disk: the answer is decided by the recomputation. *)
Lemma verify_recompute (w : World) (id relB text : string) (pkg : MRVPackageRow)
    (rest : list MRVPackageRow) :
  select_package (db w) id = pkg :: rest ->
  pkg_artifactsUri pkg = "file://" ++ artifact cwd relB ->
  artifact cwd relB ∈ FS.dirs (fs w) ->
  FS.files (fs w) !! Path.join (artifact cwd relB) "checksums.json" = Some text ->
  get_verify sha256 JSON_parse cwd id w
  = match recompute sha256 JSON_parse cwd (fs w) text with
    | Ok recomputed =>
        {| status := 200;
           body := VerifyBody id (pkg_checksum pkg) recomputed
                     (String.eqb (pkg_checksum pkg) recomputed)
                     (pkg_ledgerTxId pkg) |}
    | Throw e =>
        {| status := 500;
           body := ErrorBody (message_or e "Failed to verify MRV package") |}
    end.
Proof.
  intros Hsel Huri Hdir Hfile.
  unfold get_verify. rewrite Hsel, Huri, PathFacts.replace_prefix.
  assert (Hcp : resolve cwd (Path.join (artifact cwd relB) "checksums.json")
                = Path.join (artifact cwd relB) "checksums.json").
  { unfold resolve, Path.join at 1.
    now rewrite PathFacts.is_absolute_app
      by apply (MRVFacts.artifact_absolute cwd cwd_absolute). }
  rewrite (MRVFacts.resolve_artifact cwd cwd_absolute), Hcp.
  unfold FS.existsSync at 1, FS.is_dir.
  rewrite (bool_decide_eq_true_2 _ Hdir), orb_true_r. cbn [negb].
  unfold FS.existsSync, FS.is_file, FS.readFileSync. rewrite Hfile.
  rewrite bool_decide_eq_true_2 by eauto. cbn [orb negb].
  reflexivity.
Qed.

Hypothesis parse_stringify :
  forall files,
    JSON_parse (JSON_stringify (checksums_doc files)) = Ok (checksums_doc files).

(** What the verification of a freshly exported package starts from, in a
    world [w2] that kept the database, the directories and the checksum
    file of the world the export left. *)
Lemma verify_after_export (clock : Clock) (plotId : string) (w : World)
    (r : Exported) (w' w2 : World) :
  exportMRVPackage sha256 JSON_stringify toFixed3 cwd CODE_COMMIT NODE_ENV
    clock plotId w = (Ok r, w') ->
  db w2 = db w' -> FS.dirs (fs w2) = FS.dirs (fs w') ->
  FS.files (fs w2) !! Path.join (artifact cwd (relBase r)) "checksums.json"
  = FS.files (fs w') !! Path.join (artifact cwd (relBase r)) "checksums.json" ->
  exists files,
    Forall (digest_of_file sha256 cwd (fs w')) files
    /\ List.map fst files = artifact_paths (relBase r)
    /\ topHash r = top_hash sha256 files
    /\ get_verify sha256 JSON_parse cwd (pkgId r) w2
       = match map_result
                 (fun k => sha256OfFile sha256 cwd (fs w2)
                             (Path.join (Path.join cwd "storage") k))
                 (sort (List.map fst files)) with
         | Ok digests =>
             {| status := 200;
                body := VerifyBody (pkgId r) (topHash r) (sha256 (join "|" digests))
                          (String.eqb (topHash r) (sha256 (join "|" digests))) None |}
         | Throw e =>
             {| status := 500;
                body := ErrorBody (message_or e "Failed to verify MRV package") |}
         end.
Proof.
  intros H Hdb Hdirs Hck.
  destruct (MRVFacts.export_Ok sha256 JSON_stringify toFixed3 cwd CODE_COMMIT NODE_ENV
              clock plotId w r w' H)
    as (files & row & Hall & Hkeys & Hfile & Hdir & Htop & Hrows & Hid & Hsum
        & Htx & Huri & Hfresh).
  exists files. repeat split; try assumption.
  rewrite <- Hid.
  rewrite (verify_recompute w2 (pkg_id row) (relBase r)
             (JSON_stringify (checksums_doc files)) row []).
  - unfold recompute.
    rewrite (MRVFacts.checksum_keys_doc JSON_stringify JSON_parse parse_stringify).
    rewrite Hsum, Htx. unfold sha256OfString.
    destruct (map_result _ _); reflexivity.
  - rewrite Hdb. now apply MRVFacts.select_fresh with (old := MRVPackage (db w)).
  - exact Huri.
  - now rewrite Hdirs.
  - now rewrite Hck.
Qed.


(** X5: a missing artifact is a server error, not a mismatch.  After a
    successful export, when one of the four artifacts is deleted, the
    verify handler answers 500 with the message of the failed hashing of
    that file, [Failed to hash file <absolute path>: ...]. *)
Theorem missing_artifact_fails (clock : Clock) (plotId : string) (w : World)
    (r : Exported) (w' : World) (p : string) :
  exportMRVPackage sha256 JSON_stringify toFixed3 cwd CODE_COMMIT NODE_ENV
    clock plotId w = (Ok r, w') ->
  In p (artifact_paths (relBase r)) ->
  exists e,
    get_verify sha256 JSON_parse cwd (pkgId r) (without w' (artifact cwd p))
    = {| status := 500;
         body := ErrorBody ("Failed to hash file " ++ artifact cwd p ++ ": " ++ e) |}.
Proof.
  intros H Hp.
  set (w2 := without w' (artifact cwd p)).
  assert (Hck : FS.files (fs w2) !! Path.join (artifact cwd (relBase r)) "checksums.json"
                = FS.files (fs w') !! Path.join (artifact cwd (relBase r)) "checksums.json").
  { unfold w2, without. cbn [fs FS.files]. apply lookup_delete_ne. intros E.
    apply (MRVFacts.checksums_not_artifact cwd (relBase r) p Hp).
    rewrite E. unfold artifact, BASE. symmetry. apply StorageFacts.join_assoc. }
  destruct (verify_after_export clock plotId w r w' w2 H eq_refl eq_refl Hck)
    as (files & Hall & Hkeys & Htop & Hver).
  assert (Hmiss : exists e,
            sha256OfFile sha256 cwd (fs w2) (artifact cwd p)
            = Throw ("Failed to hash file " ++ artifact cwd p ++ ": " ++ e)).
  { unfold sha256OfFile, FS.existsSync, FS.is_file, FS.readFileSync.
    rewrite (MRVFacts.resolve_artifact cwd cwd_absolute).
    assert (E : FS.files (fs w2) !! artifact cwd p = None)
      by (unfold w2, without; cbn [fs FS.files]; apply lookup_delete_eq).
    rewrite E. rewrite bool_decide_eq_false_2 by (intros [? ?]; discriminate).
    destruct (FS.is_dir (fs w2) (artifact cwd p)); cbn [orb negb]; eauto. }
  destruct Hmiss as (e & He). exists e.
  assert (Hpk : In p (sort (List.map fst files))).
  { apply In_sort_iff. now rewrite Hkeys. }
  rewrite Hver.
  change (Path.join (Path.join cwd "storage") p) with (artifact cwd p) in He.
  rewrite (map_result_Throw _ _ p _ Hpk He).
  - unfold message_or. rewrite PathFacts.app_cons. reflexivity.
  - intros k Hk Hkp. eexists.
    change (Path.join (Path.join cwd "storage") k) with (artifact cwd k).
    rewrite <- (MRVFacts.digest_of_listed sha256 cwd cwd_absolute (fs w') files k Hall Hk).
    apply MRVFacts.sha256OfFile_ext; [reflexivity |].
    rewrite (MRVFacts.resolve_artifact cwd cwd_absolute).
    unfold w2, without. cbn [fs FS.files]. apply lookup_delete_ne.
    intros E. apply Hkp. symmetry.
    exact (artifact_inj cwd _ _ E).
Qed.

End Service.

End VerifyFacts.

(** ** The export route and the ledger service *)

Module RouteFacts.

Import MRV MRVSpec StorageSpec.

Lemma update_rows (db0 : Database) (txId id : string) :
  MRVPackage (update_ledgerTxId db0 txId id)
  = List.map (fun r => if String.eqb (pkg_id r) id then anchored r txId else r)
             (MRVPackage db0).
Proof. reflexivity. Qed.

(** The row inserted last, once anchored, is the one its id selects. *)
Lemma select_anchored (db0 : Database) (old : list MRVPackageRow)
    (row : MRVPackageRow) (txId : string) :
  MRVPackage db0 = (old ++ [row])%list ->
  (forall r0, In r0 old -> String.eqb (pkg_id r0) (pkg_id row) = false) ->
  select_package (update_ledgerTxId db0 txId (pkg_id row)) (pkg_id row)
  = [anchored row txId].
Proof.
  intros Hrows Hfresh. unfold select_package.
  rewrite update_rows, Hrows, List.map_app, List.filter_app.
  cbn [List.map List.filter]. rewrite String.eqb_refl. cbn [pkg_id anchored].
  rewrite String.eqb_refl.
  replace (List.filter _ _) with (@nil MRVPackageRow); [reflexivity |].
  symmetry. clear Hrows. induction old as [| r0 old IH]; [reflexivity |].
  cbn [List.map List.filter].
  rewrite (Hfresh r0 (or_introl eq_refl)), (Hfresh r0 (or_introl eq_refl)).
  apply IH. intros r1 H1. apply Hfresh. now right.
Qed.

Section Service.

Variable sha256 : string -> string.
Variable JSON_stringify : json -> string.
Variable JSON_parse : string -> Result json.
Variable toFixed3 : float -> string.
Variable cwd : string.
Variable CODE_COMMIT NODE_ENV : option string.

(** What the export route does in terms of the export service. *)
Lemma post_export_eq (clock : Clock) (now plotId : string) (w : World) :
  post_export sha256 JSON_stringify toFixed3 cwd CODE_COMMIT NODE_ENV clock now plotId w
  = match exportMRVPackage sha256 JSON_stringify toFixed3 cwd CODE_COMMIT NODE_ENV
            clock plotId w with
    | (Ok r, w1) =>
        let txId := "sim-" ++ now ++ "-" ++ String.substring 0 10 (topHash r) in
        match update_status (db w1) txId (pkgId r) with
        | Ok _ =>
            ({| status := 200;
                body := ExportBody (pkgId r) (topHash r) (artifactsUri r) txId |},
             {| fs := fs w1; db := update_ledgerTxId (db w1) txId (pkgId r) |})
        | Throw e =>
            ({| status := 500;
                body := ErrorBody (message_or e "Failed to export MRV package") |},
             w1)
        end
    | (Throw e, w1) =>
        ({| status := 500;
            body := ErrorBody (message_or e "Failed to export MRV package") |}, w1)
    end.
Proof.
  unfold post_export, mbind, M_bind.
  destruct (exportMRVPackage _ _ _ _ _ _ _ _ _) as [[r | e] w1]; [| reflexivity].
  unfold anchorHash. cbv zeta.
  destruct (update_status _ _ _); reflexivity.
Qed.

Hypothesis cwd_absolute : Path.is_absolute cwd = true.
Hypothesis parse_stringify :
  forall files,
    JSON_parse (JSON_stringify (checksums_doc files)) = Ok (checksums_doc files).

(** X6: the two routes compose.  When [POST /plots/:plotId/mrv/export]
    answers 200 with a package id, a hash and a ledger transaction id, then
    [GET /mrv/:pkgId/verify] on that id answers 200 with that hash as stored
    and as recomputed checksum, [matches = true] and that transaction id,
    which is [sim-<now>-<first ten characters of the hash>]. *)
Theorem post_export_then_verify (clock : Clock) (now plotId : string) (w : World)
    (id h uri tx : string) (w' : World) :
  post_export sha256 JSON_stringify toFixed3 cwd CODE_COMMIT NODE_ENV clock now plotId w
  = ({| status := 200; body := ExportBody id h uri tx |}, w') ->
  get_verify sha256 JSON_parse cwd id w'
  = {| status := 200; body := VerifyBody id h h true (Some tx) |}
  /\ tx = "sim-" ++ now ++ "-" ++ String.substring 0 10 h.
Proof.
  rewrite post_export_eq.
  destruct (exportMRVPackage _ _ _ _ _ _ _ _ _) as [[r | e] w1] eqn:E;
    [| discriminate].
  cbv zeta. destruct (update_status _ _ _) as [u | e]; [| discriminate].
  intros [= <- <- <- <- <-]. split; [| reflexivity].
  destruct (MRVFacts.export_Ok sha256 JSON_stringify toFixed3 cwd CODE_COMMIT NODE_ENV
              clock plotId w r w1 E)
    as (files & row & Hall & Hkeys & Hfile & Hdir & Htop & Hrows & Hid & Hsum
        & Htx & Huri & Hfresh).
  rewrite <- Hid.
  rewrite (VerifyFacts.verify_recompute sha256 JSON_parse cwd cwd_absolute _
             (pkg_id row) (relBase r) (JSON_stringify (checksums_doc files))
             (anchored row ("sim-" ++ now ++ "-" ++ String.substring 0 10 (topHash r)))
             []).
  - cbn [fs]. unfold recompute.
    rewrite (MRVFacts.checksum_keys_doc JSON_stringify JSON_parse parse_stringify).
    rewrite (MRVFacts.map_result_Ok _
               (fun k => default EmptyString (Obj.get files k))).
    + cbn [anchored pkg_checksum pkg_ledgerTxId]. rewrite Hsum, Htop.
      unfold top_hash, sha256OfString. now rewrite String.eqb_refl.
    + intros k Hk.
      exact (MRVFacts.digest_of_listed sha256 cwd cwd_absolute (fs w1) files k Hall Hk).
  - cbn [db]. now apply select_anchored with (old := MRVPackage (db w)).
  - exact Huri.
  - exact Hdir.
  - exact Hfile.
Qed.

(** X7: a 500 of the export route does not mean that nothing was
    persisted.  When the export itself succeeds and the database rejects
    the [UPDATE] of [anchorHash], the route answers 500 with the message of
    that error; the package row, inserted before, stays in the table with
    no ledger transaction id and the files stay as the export left them,
    so that the verify handler answers 200 for the package, with
    [matches = true] and a null ledger transaction id. *)
Theorem failed_anchoring_keeps_package (clock : Clock) (now plotId : string)
    (w : World) (r : Exported) (w1 : World) (e : string) :
  exportMRVPackage sha256 JSON_stringify toFixed3 cwd CODE_COMMIT NODE_ENV
    clock plotId w = (Ok r, w1) ->
  update_status (db w1)
    ("sim-" ++ now ++ "-" ++ String.substring 0 10 (topHash r)) (pkgId r)
  = Throw e ->
  post_export sha256 JSON_stringify toFixed3 cwd CODE_COMMIT NODE_ENV clock now plotId w
  = ({| status := 500;
        body := ErrorBody (message_or e "Failed to export MRV package") |}, w1)
  /\ (exists row,
        MRVPackage (db w1) = (MRVPackage (db w) ++ [row])%list
        /\ pkg_id row = pkgId r /\ pkg_ledgerTxId row = None)
  /\ get_verify sha256 JSON_parse cwd (pkgId r) w1
     = {| status := 200;
          body := VerifyBody (pkgId r) (topHash r) (topHash r) true None |}.
Proof.
  intros E Hup. split; [| split].
  - rewrite post_export_eq, E. cbv zeta. now rewrite Hup.
  - destruct (MRVFacts.export_Ok sha256 JSON_stringify toFixed3 cwd CODE_COMMIT
                NODE_ENV clock plotId w r w1 E)
      as (files & row & _ & _ & _ & _ & _ & Hrows & Hid & _ & Htx & _).
    exists row. repeat split; assumption.
  - destruct (VerifyFacts.verify_after_export sha256 JSON_stringify JSON_parse
                toFixed3 cwd CODE_COMMIT NODE_ENV cwd_absolute parse_stringify
                clock plotId w r w1 w1 E eq_refl eq_refl eq_refl)
      as (files & Hall & Hkeys & Htop & ->).
    rewrite (MRVFacts.map_result_Ok _
               (fun k => default EmptyString (Obj.get files k))).
    + rewrite Htop. unfold top_hash, sha256OfString. now rewrite String.eqb_refl.
    + intros k Hk.
      exact (MRVFacts.digest_of_listed sha256 cwd cwd_absolute (fs w1) files k Hall Hk).
Qed.

End Service.

End RouteFacts.

(** ** An export writes inside its package folder only *)

Module ConfinedFacts.

Import MRV MRVSpec StorageSpec.

Lemma confined_ret (dir : string) {A} (a : A) : confined dir (mret a : M A).
Proof. intros w r w' p [= _ <-] _. reflexivity. Qed.

Lemma confined_throw (dir : string) {A} (e : string) : confined dir (throw e : M A).
Proof. intros w r w' p [= _ <-] _. reflexivity. Qed.

Lemma confined_bind (dir : string) {A B} (m : M A) (k : A -> M B) :
  confined dir m -> (forall a, confined dir (k a)) -> confined dir (m ≫= k).
Proof.
  intros Hm Hk w r w' p H Hp. unfold mbind, M_bind in H.
  destruct (m w) as [[a | e] w1] eqn:E.
  - rewrite (Hk a w1 r w' p H Hp). exact (Hm w _ w1 p E Hp).
  - injection H as _ <-. exact (Hm w _ w1 p E Hp).
Qed.

Lemma confined_query (dir : string) {A} (q : Database -> Result A) :
  confined dir (query q).
Proof. intros w r w' p [= _ <-] _. reflexivity. Qed.

Lemma confined_rethrow (dir : string) {A} (h : string -> string) (m : M A) :
  confined dir m -> confined dir (rethrow h m).
Proof.
  intros Hm w r w' p H Hp. unfold rethrow in H.
  destruct (m w) as [[a | e] w1] eqn:E; injection H as _ <-;
    exact (Hm w _ w1 p E Hp).
Qed.

Lemma confined_mkdir (dir q : string) :
  confined dir (on_fs (fun fs => FS.mkdirSync fs q)).
Proof.
  intros w r w' p H _. unfold on_fs in H.
  destruct (FS.mkdirSync (fs w) q) as [fs' | e] eqn:E.
  - injection H as _ <-. cbn [fs].
    apply MRVFacts.mkdirSync_Ok in E as (Hf & _). now rewrite Hf.
  - now injection H as _ <-.
Qed.

Lemma confined_write (dir q data : string) :
  String.prefix (dir ++ "/") q = true ->
  confined dir (on_fs (fun fs => FS.writeFileSync fs q data)).
Proof.
  intros Hq w r w' p H Hp. unfold on_fs in H.
  destruct (FS.writeFileSync (fs w) q data) as [fs' | e] eqn:E.
  - injection H as _ <-. cbn [fs].
    apply MRVFacts.writeFileSync_Ok in E as (Hf & _). rewrite Hf.
    apply lookup_insert_ne. intros ->. congruence.
  - now injection H as _ <-.
Qed.

Section Service.

Variable sha256 : string -> string.
Variable JSON_stringify : json -> string.
Variable toFixed3 : float -> string.
Variable cwd : string.
Variable CODE_COMMIT NODE_ENV : option string.

Lemma confined_hash_file (dir path : string) : confined dir (hash_file sha256 cwd path).
Proof. intros w r w' p [= _ <-] _. reflexivity. Qed.

Lemma confined_ensureStorage (dir : string) : confined dir (ensureStorage cwd).
Proof.
  intros w r w' p H Hp. unfold ensureStorage in H.
  destruct (negb _).
  - exact (confined_mkdir dir _ w r w' p H Hp).
  - now injection H as _ <-.
Qed.

Lemma confined_insert (dir runId schemaVersion uri checksum : string) :
  confined dir (insert runId schemaVersion uri checksum).
Proof.
  intros w r w' p H _. unfold insert in H.
  destruct (insert_package _ _ _ _ _) as [[row db'] | e];
    now injection H as _ <-.
Qed.

(** A file written below the folder [relB] of the storage root. *)
Lemma confined_writeFileRel (relB rest data : string) :
  confined (artifact cwd relB) (writeFileRel cwd (Path.join relB rest) data).
Proof.
  unfold writeFileRel.
  apply confined_bind; [apply confined_ensureStorage | intros _].
  apply confined_bind; [apply confined_mkdir | intros _].
  apply confined_bind; [| intros _; apply confined_ret].
  apply confined_write.
  unfold artifact, BASE. rewrite <- StorageFacts.join_assoc.
  unfold Path.join at 3. rewrite <- PathFacts.app_assoc.
  apply StringFacts.prefix_app.
Qed.

Lemma confined_writeFileRel2 (relB a b data : string) :
  confined (artifact cwd relB)
           (writeFileRel cwd (Path.join (Path.join relB a) b) data).
Proof. rewrite StorageFacts.join_assoc. apply confined_writeFileRel. Qed.

Lemma export_confined (clock : Clock) (plotId : string) :
  confined (package_dir cwd plotId clock)
    (exportMRVPackage sha256 JSON_stringify toFixed3 cwd CODE_COMMIT NODE_ENV
       clock plotId).
Proof.
  unfold exportMRVPackage, package_dir.
  apply confined_bind; [apply confined_ensureStorage | intros _].
  apply confined_bind; [apply confined_query | intros plotRows].
  destruct plotRows as [| plot rest]; [apply confined_throw |].
  apply confined_bind; [apply confined_query | intros trees]. cbv zeta.
  apply confined_bind; [apply confined_writeFileRel2 | intros _].
  apply confined_bind; [apply confined_writeFileRel2 | intros _].
  apply confined_bind; [apply confined_writeFileRel | intros _].
  apply confined_bind; [apply confined_writeFileRel2 | intros _].
  apply confined_bind.
  { apply confined_rethrow.
    repeat (apply confined_bind; [apply confined_hash_file | intros ?]).
    apply confined_ret. }
  intros files.
  apply confined_bind; [apply confined_writeFileRel | intros _].
  apply confined_bind; [apply confined_query | intros runRows].
  apply confined_bind; [apply confined_insert | intros pkg].
  apply confined_ret.
Qed.

(** X8: whether it answers 200 or 500, the export route creates, changes
    and deletes no file outside the folder of the package,
    [<cwd>/storage/packages/mrv_pkg_<plotId>_<timestamp>Z]: every path that
    does not start with that folder keeps its content.  The plot id holds
    no slash, so that the path functions take it as one segment. *)
Theorem export_stays_in_package_folder (clock : Clock) (now plotId : string)
    (w : World) (p : string) :
  Path.has_slash plotId = false ->
  String.prefix (package_dir cwd plotId clock ++ "/") p = false ->
  FS.files (fs (snd (post_export sha256 JSON_stringify toFixed3 cwd CODE_COMMIT
                       NODE_ENV clock now plotId w))) !! p
  = FS.files (fs w) !! p.
Proof.
  intros _ Hp. rewrite RouteFacts.post_export_eq.
  destruct (exportMRVPackage _ _ _ _ _ _ _ _ _) as [[r | e] w1] eqn:E;
    cbv zeta; [destruct (update_status _ _ _) |];
    cbn [snd fs]; exact (export_confined clock plotId w _ w1 p E Hp).
Qed.

End Service.

End ConfinedFacts.

(** ** The estimator on missing species data and missing measurements *)

Module EstimatorFacts.

Import Biomass BiomassSpec EstimatorSpec.
Local Open Scope float_scope.

Section Estimator.

Variable Math_pow : float -> float -> float.
Variable pool : Pool.

(** X9: a species table that cannot be read does not fail an estimate.
    When the query for the species code throws, or finds no row, the
    estimate is the one of the same measurements without a species code:
    the generic parameters and the generic label. *)
Theorem species_lookup_failure_is_generic (m : TreeMeasurements) (code : string) :
  species_code m = Some code ->
  select_tree_species pool (JSString.toUpperCase code) = Ok []
  \/ (exists e, select_tree_species pool (JSString.toUpperCase code) = Throw e) ->
  estimateBiomass Math_pow pool m
  = estimateBiomass Math_pow pool (without_species m).
Proof.
  intros Hcode Hsel. unfold estimateBiomass, without_species.
  cbn [height_meters dbh_cm canopy_cover_m2 species_code]. rewrite Hcode.
  assert (Hnone : (if JSString.truthy code then getSpeciesData pool code else None)
                  = None).
  { destruct (JSString.truthy code); [| reflexivity]. unfold getSpeciesData.
    destruct Hsel as [-> | [e ->]]; reflexivity. }
  rewrite Hnone. reflexivity.
Qed.

(** X10: a diameter alone is never enough.  Without a height above zero
    and without a canopy cover above zero the estimator throws
    [Insufficient measurements for biomass estimation], whatever the
    diameter and the species code are. *)
Theorem dbh_alone_is_insufficient (m : TreeMeasurements) :
  gt0 (height_meters m) = false -> gt0 (canopy_cover_m2 m) = false ->
  estimateBiomass Math_pow pool m
  = Throw "Insufficient measurements for biomass estimation".
Proof.
  intros Hh Hc. rewrite BiomassFacts.estimateBiomass_ladder.
  unfold ladder. rewrite Hh, Hc, andb_false_r. reflexivity.
Qed.

Lemma successes_none (rows : list TreeRow) :
  (forall tree, In tree rows -> succeeds Math_pow pool tree = false) ->
  successes Math_pow pool rows = [].
Proof.
  induction rows as [| tree rows IH]; intros H; [reflexivity |].
  rewrite BiomassFacts.successes_cons, IH by (intros t Ht; apply H; now right).
  specialize (H tree (or_introl eq_refl)). unfold succeeds in H.
  destruct (estimateBiomass Math_pow pool (measurements_of tree)); [discriminate |].
  reflexivity.
Qed.

(** X11: a plot with no tree, or with no tree that can be estimated, gets
    an empty list and totals that are all zero (the average is 0, not the
    [NaN] of 0/0); a failure of the query for the trees, unlike the failure
    of one tree, makes [estimatePlotBiomass] throw that error. *)
Theorem plot_without_estimates (plotId : string) :
  (forall rows,
     select_trees pool plotId = Ok rows ->
     (forall tree, In tree rows -> succeeds Math_pow pool tree = false) ->
     estimatePlotBiomass Math_pow pool plotId
     = Ok {| trees := [];
             totals := {| total_trees := 0; total_biomass_kg := 0;
                          total_carbon_kg := 0; total_co2_equivalent_kg := 0;
                          average_uncertainty_pct := 0 |} |})
  /\ (forall e,
        select_trees pool plotId = Throw e ->
        estimatePlotBiomass Math_pow pool plotId = Throw e).
Proof.
  split.
  - intros rows Hrows Hnone.
    rewrite (BiomassFacts.estimatePlotBiomass_Ok Math_pow pool plotId rows Hrows).
    cbv zeta. rewrite (successes_none rows Hnone). reflexivity.
  - intros e He. unfold estimatePlotBiomass. now rewrite He.
Qed.

End Estimator.

End EstimatorFacts.

(** ** Signs of binary64 results *)

Module SignFacts.

Import Binary64 RoundingFacts Sign.
Local Open Scope Z_scope.

Lemma leb_zero (x : float) : (0 <=? x)%float = nonneg_sf (Prim2SF x).
Proof.
  rewrite FloatAxioms.leb_spec. change (Prim2SF 0) with (S754_zero false).
  destruct (Prim2SF x) as [s | s | | s m e]; try destruct s; reflexivity.
Qed.

(** Rounding a mantissa that is not negative gives a zero, or a finite
    number or an infinity of the sign asked for, never [NaN]. *)
Lemma binary_round_aux_sign (s : bool) (M E : Z) (l : location) :
  0 <= M ->
  nonneg_sf (binary_round_aux prec emax s M E l) = negb s
  \/ exists s', binary_round_aux prec emax s M E l = S754_zero s'.
Proof.
  intros HM. unfold binary_round_aux.
  pose proof (shr_fexp_spec M E l HM) as [He' Hm'].
  destruct (shr_fexp prec emax M E l) as [mrs' e']. cbn [fst snd] in He', Hm'.
  assert (HM' : 0 <= shr_m mrs').
  { rewrite Hm'. apply Z.div_pos; [exact HM | apply Z.pow_pos_nonneg; lia]. }
  pose proof (round_nearest_even_bounds (shr_m mrs') (loc_of_shr_record mrs')) as HR.
  assert (HR0 : 0 <= round_nearest_even (shr_m mrs') (loc_of_shr_record mrs')) by lia.
  pose proof (shr_fexp_spec _ e' loc_Exact HR0) as [He'' Hmf].
  destruct (shr_fexp prec emax _ e' loc_Exact) as [mrs'' e''].
  cbn [fst snd] in He'', Hmf.
  assert (Hmf0 : 0 <= shr_m mrs'').
  { rewrite Hmf. apply Z.div_pos; [exact HR0 | apply Z.pow_pos_nonneg; lia]. }
  destruct (shr_m mrs'') as [| mf | mf]; [right; eauto | | lia].
  left. destruct (e'' <=? emax - prec); reflexivity.
Qed.

Lemma binary_round_aux_nonneg (M E : Z) (l : location) :
  0 <= M -> nonneg_sf (binary_round_aux prec emax false M E l) = true.
Proof.
  intros HM. destruct (binary_round_aux_sign false M E l HM) as [H | [s' ->]];
    [exact H | reflexivity].
Qed.

(** Multiplying or dividing a number that is not negative by a positive
    finite one gives a number that is not negative. *)
Lemma mul_nonneg (x c : float) :
  (0 <=? x)%float = true ->
  (exists m e, Prim2SF c = S754_finite false m e) ->
  (0 <=? x * c)%float = true.
Proof.
  rewrite !leb_zero, FloatAxioms.mul_spec. intros Hx (mc & ec & ->).
  destruct (Prim2SF x) as [s | s | | s m e]; try destruct s; try discriminate;
    try reflexivity.
  unfold SF64mul, SFmul. cbn [xorb]. apply binary_round_aux_nonneg. lia.
Qed.

Lemma div_nonneg (x c : float) :
  (0 <=? x)%float = true ->
  (exists m e, Prim2SF c = S754_finite false m e) ->
  (0 <=? x / c)%float = true.
Proof.
  rewrite !leb_zero, FloatAxioms.div_spec. intros Hx (mc & ec & ->).
  destruct (Prim2SF x) as [s | s | | s m e]; try destruct s; try discriminate;
    try reflexivity.
  unfold SF64div, SFdiv. cbn [xorb].
  destruct (SFdiv_core_binary_spec m e mc ec) as [l ->].
  apply binary_round_aux_nonneg.
  apply Z.div_pos; [| lia].
  apply Z.mul_nonneg_nonneg; [lia | apply Z.pow_nonneg; lia].
Qed.

(** [Math.round] of a number that is not negative is not negative. *)
Lemma Math_round_nonneg (x : float) :
  (0 <=? x)%float = true -> (0 <=? JS.Math_round x)%float = true.
Proof.
  intros Hx. unfold JS.Math_round.
  pose proof (valid_canonical x) as Hcan.
  rewrite leb_zero in Hx.
  destruct (Prim2SF x) as [s | s | | s m e] eqn:E; try (now rewrite leb_zero, E).
  destruct s; [discriminate |]. specialize (Hcan false m e eq_refl).
  destruct (Z.leb_spec 0 e) as [He | He]; [now rewrite leb_zero, E |]. cbv zeta.
  set (d := 2 ^ (- e)).
  assert (Hd : 1 <= d).
  { unfold d. change 1 with (2 ^ 0) at 1. apply Z.pow_le_mono_r; lia. }
  assert (Hm53 : Zpos m < 2 ^ 53).
  { pose proof (digits_bounds m) as [_ Hb]. unfold canonical in Hcan.
    assert (2 ^ digits m <= 2 ^ 53) by (apply Z.pow_le_mono_r; lia). lia. }
  assert (Hr1 : 0 <= (2 * Zpos m + d) / (2 * d)) by (apply Z.div_pos; lia).
  assert (Hr2 : (2 * Zpos m + d) / (2 * d) <= Zpos m + 1).
  { apply Z.div_le_upper_bound; [lia | nia]. }
  destruct ((2 * Zpos m + d) / (2 * d)) as [| r | r] eqn:Er; try lia.
  { reflexivity. }
  cbn [Z.eqb].
  rewrite leb_zero, ClampFacts.Prim2SF_of_Z
    by (change (2 ^ 63) with (2 ^ 53 * 1024); lia).
  unfold binary_round.
  destruct (shl_align r 0 _) as [mz ez].
  apply binary_round_aux_nonneg. lia.
Qed.

End SignFacts.

(** ** Credits are not negative *)

Module CreditFacts.

Import CarbonCredit.
Local Open Scope float_scope.

Ltac positive_constant := vm_compute; eauto.

Ltac nonneg :=
  repeat first
    [ assumption
    | apply SignFacts.Math_round_nonneg
    | apply SignFacts.mul_nonneg; [| positive_constant]
    | apply SignFacts.div_nonneg; [| positive_constant] ].

(** X12: for a biomass that is not negative (zero and [+Infinity]
    included), the five values [calculateCredits] returns are numbers that
    are not negative: none is [NaN] and none is below zero. *)
Theorem calculateCredits_nonneg (biomassKg : float) :
  (0 <=? biomassKg) = true ->
  let r := calculateCredits biomassKg in
  (0 <=? carbonStockKg r) = true
  /\ (0 <=? carbonStockTons r) = true
  /\ (0 <=? co2EquivalentKg r) = true
  /\ (0 <=? co2EquivalentTons r) = true
  /\ (0 <=? creditsGenerated r) = true.
Proof.
  intros Hb r. unfold r, calculateCredits, CARBON_FRACTION, CO2_MOLECULAR_RATIO.
  cbn [carbonStockKg carbonStockTons co2EquivalentKg co2EquivalentTons
       creditsGenerated].
  repeat split; nonneg.
Qed.

End CreditFacts.

(** ** Lower bounds through multiplication, rounding and division *)

Module BoundFacts.

Import Binary64 RoundingFacts.
Local Open Scope float_scope.

(** [a <= x] gives [b <= x * c] when [b <= a * c] as exact values. *)
Lemma mul_lower (a c b x : float) (ma mc mb : positive) (ea ec eb : Z) :
  Prim2SF a = S754_finite false ma ea ->
  Prim2SF c = S754_finite false mc ec ->
  Prim2SF b = S754_finite false mb eb ->
  (Zpos mb * 2 ^ (eb + 2200) <=? Zpos mc * (Zpos ma * 2 ^ (ea + (2200 + ec))))%Z = true ->
  (a <=? x) = true -> (b <=? x * c) = true.
Proof.
  intros Ha Hc Hb Hnum Hx.
  pose proof (valid_canonical a _ _ _ Ha) as Hcana.
  pose proof (valid_canonical c _ _ _ Hc) as Hcanc.
  pose proof (valid_canonical b _ _ _ Hb) as Hcanb.
  rewrite FloatAxioms.leb_spec, FloatAxioms.mul_spec, Hb, Hc.
  destruct (ClampFacts.leb_cases _ _ _ _ Ha Hx) as [-> | (m & e & -> & Hcan & Hle)];
    [reflexivity |].
  unfold SF64mul, SFmul. cbn [xorb].
  assert (Hec : (-1074 <= ec)%Z) by (unfold canonical in Hcanc; lia).
  assert (He : (-1074 <= e)%Z) by (unfold canonical in Hcan; lia).
  pose proof (leb_val (2200 + ec) _ _ _ _ Hcana Hcan ltac:(lia) Hle) as Hv.
  apply binary_round_aux_lower; [lia | exact Hcanb |].
  unfold val. apply Z.leb_le in Hnum.
  apply Z.le_trans with (1 := Hnum).
  replace (e + ec + 2200)%Z with (e + (2200 + ec))%Z by lia.
  rewrite Pos2Z.inj_mul, (Z.mul_comm (Zpos m)), <- Z.mul_assoc.
  apply Z.mul_le_mono_nonneg_l; [lia | exact Hv].
Qed.

(** [b <= y] gives [N <= Math.round(y)] for an integer [N <= b + 1/2]. *)
Lemma round_lower (b n y : float) (mb mn N : positive) (eb en : Z) :
  Prim2SF b = S754_finite false mb eb ->
  Prim2SF n = S754_finite false mn en ->
  (en <? 0)%Z = true ->
  (Zpos mn * 2 ^ (en + 2200) =? Zpos N * 2 ^ 2200)%Z = true ->
  ((2 * Zpos N - 1) * 2 ^ 1074 <=? 2 * (Zpos mb * 2 ^ (eb + 1074)))%Z = true ->
  (b <=? y) = true -> (n <=? JS.Math_round y) = true.
Proof.
  intros Hb Hn Hen HN Hnum Hy.
  pose proof (valid_canonical b _ _ _ Hb) as Hcanb.
  pose proof (valid_canonical n _ _ _ Hn) as Hcann.
  apply Z.ltb_lt in Hen. apply Z.eqb_eq in HN. apply Z.leb_le in Hnum.
  unfold JS.Math_round.
  destruct (ClampFacts.leb_cases _ _ _ _ Hb Hy) as [E | (m & e & E & Hcan & Hle)].
  { rewrite E, FloatAxioms.leb_spec, Hn, E. reflexivity. }
  rewrite E.
  destruct (Z.leb_spec 0 e) as [He | He].
  { rewrite FloatAxioms.leb_spec, Hn, E. unfold SFleb, SFcompare.
    destruct (Z.compare_spec en e); first [reflexivity | lia]. }
  cbv zeta.
  pose proof (leb_val 1074 _ _ _ _ Hcanb Hcan ltac:(lia) Hle) as Hv.
  assert (Hemin : (-1074 <= e)%Z) by (unfold canonical in Hcan; lia).
  set (d := (2 ^ (- e))%Z).
  assert (Hd : (2 <= d)%Z).
  { unfold d. change 2%Z with (2 ^ 1)%Z at 1. apply Z.pow_le_mono_r; lia. }
  assert (Hm : ((2 * Zpos N - 1) * d <= 2 * Zpos m)%Z).
  { assert (H1 : ((2 * Zpos N - 1) * 2 ^ 1074 <= 2 * (Zpos m * 2 ^ (e + 1074)))%Z) by lia.
    replace 1074%Z with (- e + (e + 1074))%Z in H1 at 1 by lia.
    rewrite (Z.pow_add_r 2 (- e)), !Z.mul_assoc in H1 by lia. fold d in H1.
    apply Z.mul_le_mono_pos_r in H1; [exact H1 | apply Z.pow_pos_nonneg; lia]. }
  assert (Hm53 : (Zpos m < 2 ^ 53)%Z).
  { pose proof (digits_bounds m) as [_ Hb53]. unfold canonical in Hcan.
    assert (2 ^ digits m <= 2 ^ 53)%Z by (apply Z.pow_le_mono_r; lia). lia. }
  assert (Hr1 : (Zpos N <= (2 * Zpos m + d) / (2 * d))%Z).
  { apply Z.div_le_lower_bound; lia. }
  assert (Hr2 : ((2 * Zpos m + d) / (2 * d) <= Zpos m + 1)%Z).
  { apply Z.div_le_upper_bound; [lia | nia]. }
  destruct ((2 * Zpos m + d) / (2 * d))%Z as [| r | r] eqn:Er; try lia.
  cbn [Z.eqb].
  rewrite FloatAxioms.leb_spec, Hn, ClampFacts.Prim2SF_of_Z
    by (change (2 ^ 63)%Z with (2 ^ 53 * 1024)%Z; lia).
  unfold binary_round.
  destruct (shl_align_spec r 0 (SpecFloat.fexp prec emax (Zpos (digits2_pos r) + 0)))
    as [Hez Hval]; [lia | rewrite fexp_eq; lia |].
  destruct (shl_align r 0 _) as [mz ez]. cbn [fst snd] in Hez, Hval.
  apply binary_round_aux_lower; [exact Hez | exact Hcann |].
  rewrite Hval. unfold val. rewrite HN. change (0 + 2200)%Z with 2200%Z.
  apply Z.mul_le_mono_nonneg_r; [apply Z.pow_nonneg |]; lia.
Qed.

(** [n <= z] gives [q <= z / 100] when [q] is [n / 100] as computed, with
    an exponent seven below the one of [n]. *)
Lemma div_lower (n q z : float) (mn mq : positive) (en eq : Z) :
  Prim2SF n = S754_finite false mn en ->
  Prim2SF q = S754_finite false mq eq ->
  eq = (en - 7)%Z -> (-1067 <=? en)%Z = true ->
  (q <=? n / 100) = true ->
  (Zpos mq * 7036874417766400 <=? (Zpos mn + 1) * 2 ^ 53)%Z = true ->
  (n <=? z) = true -> (q <=? z / 100) = true.
Proof.
  intros Hn Hq -> Hen Hexact Hnum Hz.
  pose proof (valid_canonical n _ _ _ Hn) as Hcann.
  pose proof (valid_canonical q _ _ _ Hq) as Hcanq.
  apply Z.leb_le in Hen. apply Z.leb_le in Hnum.
  destruct (ClampFacts.leb_cases _ _ _ _ Hn Hz) as [E | (m & e & E & Hcan & Hle)].
  { rewrite FloatAxioms.leb_spec, FloatAxioms.div_spec, E, Hq. reflexivity. }
  pose proof (compare_cases _ _ _ _ Hcann Hcan) as Hcases.
  unfold SFleb in Hle.
  destruct (SFcompare _ _) as [[| |] |]; try discriminate.
  - destruct Hcases as [<- <-]. rewrite <- Hn in E.
    apply FloatAxioms.Prim2SF_inj in E. now subst z.
  - rewrite FloatAxioms.leb_spec, FloatAxioms.div_spec, E, Hq,
      ClampFacts.Prim2SF_hundred.
    unfold SF64div, SFdiv. cbn [xorb].
    destruct (SFdiv_core_binary_spec m e 7036874417766400 (-46)) as [l Hcore].
    cbv zeta in Hcore. change (digits 7036874417766400) with 53%Z in Hcore.
    assert (He : (en <= e)%Z) by lia.
    assert (Hd : digits m = 53%Z) by (unfold canonical in Hcan; lia).
    rewrite Hd in Hcore.
    replace (Z.min (Z.max (53 + e - (53 + -46) - 53) (-1074)) (e - -46))
      with (e - 7)%Z in Hcore by lia.
    replace (e - -46 - (e - 7))%Z with 53%Z in Hcore by lia.
    rewrite Hcore. clear Hcore.
    pose proof (digits_bounds m) as [Hm1 Hm2]. rewrite Hd in Hm1, Hm2.
    change (2 ^ (53 - 1))%Z with 4503599627370496%Z in Hm1.
    change (2 ^ 53)%Z with 9007199254740992%Z in Hm2, Hnum.
    assert (Hmq : (Zpos mq < 9007199254740992)%Z).
    { pose proof (digits_bounds mq) as [_ Hb]. unfold canonical in Hcanq.
      assert (2 ^ digits mq <= 2 ^ 53)%Z by (apply Z.pow_le_mono_r; lia).
      change (2 ^ 53)%Z with 9007199254740992%Z in *. lia. }
    set (q' := (Zpos m * 2 ^ 53 / 7036874417766400)%Z).
    change (2 ^ 53)%Z with 9007199254740992%Z in q'.
    assert (Hq' : (Zpos mq <= q' * 2 ^ (e - en))%Z).
    { destruct Hcases as [[<- Hlt] | (Hlt & _)].
      - replace (en - en)%Z with 0%Z by lia. change (2 ^ 0)%Z with 1%Z.
        rewrite Z.mul_1_r. apply Z.div_le_lower_bound; lia.
      - assert (H52 : (4503599627370496 <= q')%Z) by (apply Z.div_le_lower_bound; lia).
        assert (H2 : (2 ^ 1 <= 2 ^ (e - en))%Z) by (apply Z.pow_le_mono_r; lia).
        change (2 ^ 1)%Z with 2%Z in H2. nia. }
    assert (Hq0 : (0 < q')%Z).
    { assert (0 < 2 ^ (e - en))%Z by (apply Z.pow_pos_nonneg; lia). nia. }
    destruct q' as [| q' | q']; try lia.
    apply binary_round_aux_lower; [lia | exact Hcanq |].
    unfold val. replace (e - 7 + 2200)%Z with ((e - en) + (en - 7 + 2200))%Z by lia.
    rewrite (Z.pow_add_r 2 (e - en)), Z.mul_assoc by lia.
    apply Z.mul_le_mono_nonneg_r; [apply Z.pow_nonneg; lia | exact Hq'].
Qed.

End BoundFacts.

(** ** Carbon and CO2e are at least their values at the clamp *)

Module FloorFacts.

Import Biomass BiomassSpec.
Local Open Scope float_scope.

Ltac numeric := first [reflexivity | vm_compute; reflexivity].

(** The carbon of a clamped biomass, rounded to two decimals. *)
Lemma carbon_lower (x : float) :
  (0.1 <=? x) = true -> (0.05 <=? round_dp 2 (x * 0.47)) = true.
Proof.
  intros Hx. unfold round_dp. change (JS.of_Z (10 ^ Z.of_nat 2)) with 100.
  eapply (BoundFacts.div_lower 5 0.05); try numeric.
  eapply (BoundFacts.round_lower 4.68 5 _ _ _ 5); try numeric.
  eapply (BoundFacts.mul_lower 0.0469 100 4.68); try numeric.
  eapply (BoundFacts.mul_lower 0.1 0.47 0.0469); try numeric.
  exact Hx.
Qed.

(** The CO2e of a clamped biomass, rounded to two decimals. *)
Lemma co2_lower (x : float) :
  (0.1 <=? x) = true -> (0.17 <=? round_dp 2 (x * 0.47 * 3.67)) = true.
Proof.
  intros Hx. unfold round_dp. change (JS.of_Z (10 ^ Z.of_nat 2)) with 100.
  eapply (BoundFacts.div_lower 17 0.17); try numeric.
  eapply (BoundFacts.round_lower 17.1 17 _ _ _ 17); try numeric.
  eapply (BoundFacts.mul_lower 0.172 100 17.1); try numeric.
  eapply (BoundFacts.mul_lower 0.0469 3.67 0.172); try numeric.
  eapply (BoundFacts.mul_lower 0.1 0.47 0.0469); try numeric.
  exact Hx.
Qed.

Section Estimator.

Variable Math_pow : float -> float -> float.
Variable pool : Pool.

(** X13: the clamp bounds the derived values too.  On every measurement
    for which the estimator succeeds with a raw value that is a number,
    the returned carbon is at least 0.05 kg and the returned CO2e at least
    0.17 kg, the values of a biomass of 0.1 kg. *)
Theorem carbon_and_co2_floor (m : TreeMeasurements) (e : BiomassEstimate) :
  estimateBiomass Math_pow pool m = Ok e ->
  exists k,
    ladder m = Some k
    /\ (is_nan (raw_biomass Math_pow k (resolved_species pool m) m) = false ->
        (0.05 <=? carbon_sequestration_kg e) = true
        /\ (0.17 <=? co2_equivalent_kg e) = true).
Proof.
  intros He. destruct (BiomassFacts.estimateBiomass_Ok Math_pow pool m e He)
    as (k & Hk & ->).
  exists k. split; [exact Hk |]. intros Hnan.
  cbn [carbon_sequestration_kg co2_equivalent_kg estimate_for]. cbv zeta.
  pose proof (ClampFacts.Math_max_lower _ Hnan) as Hx.
  split; [now apply carbon_lower | now apply co2_lower].
Qed.

End Estimator.

End FloorFacts.

(** ** Market prices *)

Module PricingFacts.

Import CarbonCredit CarbonPricing.
Local Open Scope float_scope.

Lemma or_default_truthy (x d : float) :
  JS.truthy d = true -> JS.truthy (JS.or_default x d) = true.
Proof. intros Hd. unfold JS.or_default. now destruct (JS.truthy x) eqn:E. Qed.


End PricingFacts.

(** ** The CSV writer *)

Module CsvFacts.

Import Csv CsvSpec.

Lemma app_nil_r (a : string) : a ++ EmptyString = a.
Proof.
  induction a as [| c a IH]; [reflexivity |].
  now rewrite PathFacts.app_cons, IH.
Qed.

Lemma join_cons (sep x : string) (l : list string) :
  l <> [] -> join sep (x :: l) = x ++ sep ++ join sep l.
Proof. destruct l; [contradiction | reflexivity]. Qed.

Lemma read_quoted_print (s X : string) :
  follows X ->
  read_quoted (double_quotes s ++ String dquote X) = Some (s, X).
Proof.
  intros HX. induction s as [| c s IH]; cbn [double_quotes].
  - rewrite PathFacts.app_nil_l. cbn [read_quoted]. unfold dquote at 1.
    rewrite Ascii.eqb_refl.
    destruct HX as [-> | [X' ->]]; reflexivity.
  - destruct (Ascii.eqb c dquote) eqn:E.
    + apply Ascii.eqb_eq in E. subst c. rewrite !PathFacts.app_cons.
      cbn [read_quoted]. unfold dquote at 1 3. rewrite !Ascii.eqb_refl.
      fold dquote. now rewrite IH.
    + rewrite PathFacts.app_cons. cbn [read_quoted]. now rewrite E, IH.
Qed.

Lemma read_plain_print (s X : string) :
  needs_quotes s = false -> follows X ->
  read_plain (s ++ X) = (s, X).
Proof.
  intros Hs HX. induction s as [| c s IH].
  - rewrite PathFacts.app_nil_l. destruct HX as [-> | [X' ->]]; reflexivity.
  - cbn [needs_quotes] in Hs. apply orb_false_elim in Hs as [Hc Hs].
    unfold special in Hc. apply orb_false_elim in Hc as [Hc _].
    apply orb_false_elim in Hc as [_ Hc].
    rewrite PathFacts.app_cons. cbn [read_plain]. now rewrite Hc, IH.
Qed.

Section ToCsv.

Variable Number_toString : float -> string.

(** A string cell followed by the rest of its line is read back. *)
Lemma read_cell_print (s X : string) :
  follows X ->
  read_cell (cell Number_toString (Some (VString s)) ++ X) = Some (s, X).
Proof.
  intros HX. cbn [cell String_of]. destruct (needs_quotes s) eqn:Hs.
  - rewrite PathFacts.app_cons, PathFacts.app_assoc, PathFacts.app_cons,
      PathFacts.app_nil_l.
    cbn [read_cell]. unfold dquote at 1. rewrite Ascii.eqb_refl.
    now apply read_quoted_print.
  - destruct s as [| c s].
    + rewrite PathFacts.app_nil_l. destruct HX as [-> | [X' ->]]; reflexivity.
    + pose proof Hs as Hs'. cbn [needs_quotes] in Hs'.
      apply orb_false_elim in Hs' as [Hc _].
      unfold special in Hc. apply orb_false_elim in Hc as [Hc _].
      apply orb_false_elim in Hc as [Hc _].
      rewrite PathFacts.app_cons. cbn [read_cell]. rewrite Hc.
      rewrite <- PathFacts.app_cons. now rewrite read_plain_print.
Qed.

(** The cells of a line of strings are read back. *)
Lemma read_cells_print (ss : list string) :
  read_cells (List.length ss)
    (join "," (List.map (fun s => cell Number_toString (Some (VString s))) ss))
  = Some ss.
Proof.
  induction ss as [| s ss IH]; [reflexivity |].
  destruct ss as [| s2 ss].
  - change (join "," (List.map _ [s])) with (cell Number_toString (Some (VString s))).
    rewrite <- (app_nil_r (cell _ _)).
    cbn [List.length read_cells].
    rewrite read_cell_print by (now left). reflexivity.
  - change (List.map ?f (s :: s2 :: ss)) with (f s :: List.map f (s2 :: ss)).
    rewrite join_cons by discriminate.
    rewrite (PathFacts.app_cons "," EmptyString), PathFacts.app_nil_l.
    change (List.length (s :: s2 :: ss)) with (S (List.length (s2 :: ss))).
    cbn [read_cells].
    rewrite read_cell_print by (right; eauto).
    change (List.length (s2 :: ss)) with (S (List.length ss)) at 1.
    rewrite Ascii.eqb_refl.
    change (S (List.length ss)) with (List.length (s2 :: ss)).
    now rewrite IH.
Qed.

Lemma line_strings (cols : list string) (r : list (string * value)) :
  strings_at cols r ->
  exists ss,
    List.length ss = List.length cols
    /\ List.map (fun c => Obj.get r c) cols = List.map (fun s => Some (VString s)) ss.
Proof.
  induction 1 as [| c cols (s & Hs) _ (ss & Hlen & Hss)].
  - now exists [].
  - exists (s :: ss). cbn [List.length List.map]. now rewrite Hlen, Hs, Hss.
Qed.

(** X15: the quoting of [toCsv] loses nothing.  Two rows that hold strings
    in every column and are written as the same line hold the same string
    in every column, whatever commas, double quotes and line feeds the
    strings contain: a line is read back by the usual CSV rule. *)
Theorem line_injective (cols : list string) (r1 r2 : list (string * value)) :
  strings_at cols r1 -> strings_at cols r2 ->
  line Number_toString cols r1 = line Number_toString cols r2 ->
  Forall (fun c => Obj.get r1 c = Obj.get r2 c) cols.
Proof.
  intros H1 H2 Hline.
  destruct (line_strings cols r1 H1) as (ss1 & Hl1 & E1).
  destruct (line_strings cols r2 H2) as (ss2 & Hl2 & E2).
  assert (Hss : ss1 = ss2).
  { unfold line in Hline.
    rewrite <- (List.map_map (fun c => Obj.get r1 c) (cell Number_toString)) in Hline.
    rewrite <- (List.map_map (fun c => Obj.get r2 c) (cell Number_toString)) in Hline.
    rewrite E1, E2, !List.map_map in Hline.
    pose proof (read_cells_print ss1) as R1. pose proof (read_cells_print ss2) as R2.
    rewrite Hline, Hl1, <- Hl2, R2 in R1. now injection R1. }
  subst ss2. apply List.Forall_forall. intros c Hc.
  assert (Hmap : List.map (fun c => Obj.get r1 c) cols
                 = List.map (fun c => Obj.get r2 c) cols) by congruence.
  clear - Hmap Hc. induction cols as [| c0 cols IH]; [destruct Hc |].
  cbn [List.map] in Hmap. injection Hmap as H0 Hrest.
  destruct Hc as [<- | Hc]; [exact H0 | now apply IH].
Qed.

(** X16: the columns of [toCsv] are the keys of the first row, for every
    row: what a later row holds under another key is never written, and
    two lists of rows that agree on the keys of the first row give the same
    text. *)
Theorem toCsv_columns_of_first_row (first : list (string * value))
    (rest rest' : list (list (string * value))) :
  Forall2 (fun r r' => forall c, In c (List.map fst first) -> Obj.get r c = Obj.get r' c)
          rest rest' ->
  toCsv Number_toString (first :: rest) = toCsv Number_toString (first :: rest').
Proof.
  intros H. unfold toCsv. cbv zeta. do 3 f_equal. cbn [List.map]. f_equal.
  induction H as [| r r' rest rest' Hr _ IH]; [reflexivity |].
  cbn [List.map]. f_equal; [| exact IH].
  unfold line. f_equal. apply List.map_ext_in. intros c Hc. now rewrite (Hr c Hc).
Qed.

End ToCsv.

End CsvFacts.

(** ** The further properties on the samples *)

Module FurtherExamples.

Import MRV MRVSpec StorageSpec SampleMRV.

Lemma writeFileRel_then_hash_witness :
  sha256OfFile digest cwd
    (fs (snd (writeFileRel cwd "notes/a.txt" "abc" world))) "storage/notes/a.txt"
  = Ok (digest "abc").
Proof.
  destruct (writeFileRel cwd "notes/a.txt" "abc" world) as [[u | e] w'] eqn:H;
    [| vm_compute in H; discriminate H].
  cbn [snd].
  exact (proj1 (proj2 (StorageFacts.writeFileRel_then_hash digest cwd
                         "notes/a.txt" "abc" world u w' H))).
Defined.

Lemma ensureStorage_idempotent_witness :
  ensureStorage cwd (snd (ensureStorage cwd world))
  = (Ok tt, snd (ensureStorage cwd world)).
Proof.
  destruct (ensureStorage cwd world) as [[u | e] w1] eqn:H;
    [| vm_compute in H; discriminate H].
  cbn [snd].
  exact (proj1 (proj2 (StorageFacts.ensureStorage_idempotent cwd world u w1 H))).
Defined.

Lemma sample_manifest_listed :
  In "packages/mrv_pkg_plot-1_20250823T053158Z/manifest.json"
     (artifact_paths "packages/mrv_pkg_plot-1_20250823T053158Z").
Proof. right. right. left. reflexivity. Qed.


Lemma missing_artifact_fails_witness :
  exists e,
    verify "pkg-0"
      (without exported
         (artifact cwd "packages/mrv_pkg_plot-1_20250823T053158Z/manifest.json"))
    = {| status := 500;
         body := ErrorBody
                   ("Failed to hash file "
                    ++ artifact cwd "packages/mrv_pkg_plot-1_20250823T053158Z/manifest.json"
                    ++ ": " ++ e) |}.
Proof.
  exact (VerifyFacts.missing_artifact_fails digest stringify parse toFixed3 cwd None None
           MRVExamples.sample_cwd_absolute SampleFacts.sample_parse_stringify
           clock "plot-1" world _ exported _
           MRVExamples.sample_export sample_manifest_listed).
Defined.

Lemma sample_post_export :
  post_export digest stringify toFixed3 cwd None None clock "1700000000000"
    "plot-1" world
  = ({| status := 200;
        body := ExportBody "pkg-0" "h19" ("file://" ++ package_folder)
                  "sim-1700000000000-h19" |},
     {| fs := fs exported;
        db := update_ledgerTxId (db exported) "sim-1700000000000-h19" "pkg-0" |}).
Proof.
  rewrite RouteFacts.post_export_eq.
  change (exportMRVPackage digest stringify toFixed3 cwd None None clock "plot-1" world)
    with (export "plot-1" world).
  rewrite MRVExamples.sample_export. cbv zeta.
  replace (update_status (db exported) _ _) with (Ok tt : Result unit)
    by (vm_compute; reflexivity).
  reflexivity.
Qed.

Lemma sample_export_ledger_down :
  export "plot-1" ledger_down
  = (Ok {| pkgId := "pkg-0"; topHash := "h19";
           artifactsUri := ("file://" ++ package_folder)%string;
           relBase := "packages/mrv_pkg_plot-1_20250823T053158Z" |},
     exported_ledger_down).
Proof.
  unfold exported_ledger_down.
  destruct (export "plot-1" ledger_down) as [res w'] eqn:E.
  apply (f_equal fst) in E. cbn [fst snd] in *. vm_compute in E. now subst res.
Qed.

Lemma failed_anchoring_keeps_package_witness :
  post_export digest stringify toFixed3 cwd None None clock "1700000000000"
    "plot-1" ledger_down
  = ({| status := 500; body := ErrorBody "connection terminated" |},
     exported_ledger_down)
  /\ verify "pkg-0" exported_ledger_down
     = {| status := 200; body := VerifyBody "pkg-0" "h19" "h19" true None |}.
Proof.
  assert (Hup : update_status (db exported_ledger_down) "sim-1700000000000-h19" "pkg-0"
                = Throw "connection terminated") by (vm_compute; reflexivity).
  destruct (RouteFacts.failed_anchoring_keeps_package digest stringify parse toFixed3
              cwd None None MRVExamples.sample_cwd_absolute
              SampleFacts.sample_parse_stringify clock "1700000000000" "plot-1"
              ledger_down _ exported_ledger_down "connection terminated"
              sample_export_ledger_down Hup) as (Hpost & _ & Hverify).
  split; [exact Hpost | exact Hverify].
Defined.

Lemma post_export_then_verify_witness :
  verify "pkg-0"
    (snd (post_export digest stringify toFixed3 cwd None None clock "1700000000000"
            "plot-1" world))
  = {| status := 200;
       body := VerifyBody "pkg-0" "h19" "h19" true (Some "sim-1700000000000-h19") |}.
Proof.
  rewrite sample_post_export. cbn [snd].
  exact (proj1 (RouteFacts.post_export_then_verify digest stringify parse toFixed3 cwd
                  None None MRVExamples.sample_cwd_absolute
                  SampleFacts.sample_parse_stringify
                  clock "1700000000000" "plot-1" world _ _ _ _ _ sample_post_export)).
Defined.

Lemma export_stays_in_package_folder_witness :
  FS.files (fs (snd (post_export digest stringify toFixed3 cwd None None clock
                       "1700000000000" "plot-1" world)))
    !! "/srv/api/storage/notes.txt"
  = FS.files (fs world) !! "/srv/api/storage/notes.txt".
Proof.
  apply (ConfinedFacts.export_stays_in_package_folder digest stringify toFixed3 cwd
           None None clock "1700000000000" "plot-1" world
           "/srv/api/storage/notes.txt").
  - reflexivity.
  - vm_compute. reflexivity.
Defined.

Import Biomass BiomassSpec EstimatorSpec.
Local Open Scope float_scope.

Lemma species_lookup_failure_is_generic_witness :
  estimateBiomass Sample.Math_pow failing_pool
    {| height_meters := Some 12; dbh_cm := Some 30; canopy_cover_m2 := None;
       species_code := Some "teak"%string |}
  = estimateBiomass Sample.Math_pow failing_pool
      (Sample.measurements (Some 12) (Some 30) None).
Proof.
  apply (EstimatorFacts.species_lookup_failure_is_generic Sample.Math_pow failing_pool
           {| height_meters := Some 12; dbh_cm := Some 30; canopy_cover_m2 := None;
              species_code := Some "teak"%string |} "teak"%string).
  - reflexivity.
  - right. eexists. reflexivity.
Defined.

Lemma dbh_alone_is_insufficient_witness :
  estimateBiomass Sample.Math_pow Sample.empty_pool
    (Sample.measurements None (Some 30) None)
  = Throw "Insufficient measurements for biomass estimation".
Proof.
  apply (EstimatorFacts.dbh_alone_is_insufficient Sample.Math_pow Sample.empty_pool
           (Sample.measurements None (Some 30) None)); reflexivity.
Defined.

Lemma calculateCredits_nonneg_witness :
  (0 <=? CarbonCredit.creditsGenerated (CarbonCredit.calculateCredits 1000)) = true.
Proof.
  exact (proj2 (proj2 (proj2 (proj2
           (CreditFacts.calculateCredits_nonneg 1000 eq_refl))))).
Defined.

Lemma carbon_and_co2_floor_witness :
  exists e,
    estimateBiomass Sample.Math_pow Sample.empty_pool
      (Sample.measurements (Some 0.2) None None) = Ok e
    /\ (0.05 <=? carbon_sequestration_kg e) = true
    /\ (0.17 <=? co2_equivalent_kg e) = true.
Proof.
  destruct (estimateBiomass Sample.Math_pow Sample.empty_pool
              (Sample.measurements (Some 0.2) None None)) as [e | msg] eqn:He;
    [| vm_compute in He; discriminate He].
  exists e. split; [reflexivity |].
  destruct (FloorFacts.carbon_and_co2_floor Sample.Math_pow Sample.empty_pool _ e He)
    as (k & Hk & Hfloor).
  vm_compute in Hk. injection Hk as <-.
  apply Hfloor. vm_compute. reflexivity.
Defined.

Import Csv CsvSpec.

Lemma line_injective_witness :
  Forall (fun c => Obj.get [("name", VString "a,b"); ("note", VString "x")]%string c
                   = Obj.get [("note", VString "x"); ("name", VString "a,b")]%string c)
         ["name"; "note"]%string.
Proof.
  apply (CsvFacts.line_injective (fun _ => EmptyString) ["name"; "note"]%string).
  - repeat constructor; eexists; reflexivity.
  - repeat constructor; eexists; reflexivity.
  - reflexivity.
Defined.

Lemma toCsv_columns_of_first_row_witness :
  toCsv (fun _ => EmptyString)
    [ [("name", VString "a")]; [("name", VString "b"); ("note", VString "x")] ]%string
  = toCsv (fun _ => EmptyString)
      [ [("name", VString "a")]; [("name", VString "b")] ]%string.
Proof.
  apply (CsvFacts.toCsv_columns_of_first_row (fun _ => EmptyString)).
  constructor; [| constructor].
  intros c [<- | []]. reflexivity.
Defined.

End FurtherExamples.
